(** * transform.py: the transform / merge / deduplication core

    A shallow embedding of [transform_data] (src/transform.py) and of the
    pandas operations it is built from, together with the properties of the
    normaliser, the weather broadcast, the index join and the duplicate
    removal.

    Conventions of the embedding.
    - A DataFrame is an index (integer row labels) and an ordered list of
      named columns; a column is the list of its cells.
    - pandas' missing values (None, NaN, NaT) are the single cell [CNull].
    - A float64 value is an exact rational or one of the two infinities:
      rounding is outside the model.  The integers that [astype(int)]
      produces are 64-bit; a conversion that would leave that range is left
      unmodelled.
    - A Timestamp is its number of nanoseconds since the epoch.
    - The string parsers behind [pd.to_numeric] and [pd.to_datetime] and the
      calendar accessors [.dt.month] / [.dt.day_name()] belong to pandas, not
      to this repository: they are parameters of the development.
    - The caller's objects live in a store, so that the in-place assignments
      of the source act on the object the caller still holds. *)

From Stdlib Require Import ZArith QArith Qround String Ascii List Bool Lia.
From stdpp Require Import base tactics option list.
Import ListNotations.

Local Open Scope Z_scope.
Local Open Scope string_scope.
Local Open Scope list_scope.

(** ** Values *)

(** A cell of a DataFrame. *)
Inductive cell : Type :=
| CNull
| CBool (b : bool)
| CInt (z : Z)
| CFloat (q : Q)
| CInf (negative : bool)
| CStr (s : string)
| CTime (ns : Z).

(** A number that is not NaN: a finite value or an infinity. *)
Inductive number : Type :=
| Finite (q : Q)
| Infinite (negative : bool).

(** A decoded JSON value: what [response.json()] hands to the transform. *)
#[local] Unset Elimination Schemes.
Inductive json : Type :=
| JNull
| JBool (b : bool)
| JInt (z : Z)
| JFloat (q : Q)
| JStr (s : string)
| JList (l : list json)
| JDict (d : list (string * json)).
#[local] Set Elimination Schemes.

(** One scraped book, as [scrape_book_listings] builds it (src/extract.py):
    a dict with exactly the keys title, price and availability, all text. *)
Record listing : Type := Listing {
  title : string;
  price : string;
  availability : string
}.

(** ** Outcomes *)

Inductive exn : Type :=
| KeyError
| IndexError
| AttributeError
| TypeError
| ValueError.

(** [Unmodelled] marks the places where pandas' behaviour is left outside
    the embedding (a column label that occurs twice, a container stored in a
    cell, ...): nothing is claimed about such runs. *)
Inductive result (A : Type) : Type :=
| Ok (a : A)
| Raise (e : exn)
| Unmodelled.
Arguments Ok {A} a.
Arguments Raise {A} e.
Arguments Unmodelled {A}.

Definition rbind {A B} (r : result A) (k : A -> result B) : result B :=
  match r with
  | Ok a => k a
  | Raise e => Raise e
  | Unmodelled => Unmodelled
  end.

Declare Scope res_scope.
Delimit Scope res_scope with res.
Notation "x <~ c ;; k" := (rbind c (fun x => k))
  (at level 100, c at next level, right associativity) : res_scope.

(** ** Strings *)

Definition lower_ascii (c : ascii) : ascii :=
  let n := nat_of_ascii c in
  if (Nat.leb 65 n && Nat.leb n 90)%bool then ascii_of_nat (n + 32) else c.

(** [str.lower()] on the ASCII letters (column labels are taken to be ASCII
    text). *)
Fixpoint str_lower (s : string) : string :=
  match s with
  | EmptyString => EmptyString
  | String c r => String (lower_ascii c) (str_lower r)
  end.

(** [s.replace(' ', '_')]. *)
Fixpoint spaces_to_underscores (s : string) : string :=
  match s with
  | EmptyString => EmptyString
  | String c r =>
      String (if Ascii.eqb c " "%char then "_"%char else c)
             (spaces_to_underscores r)
  end.

(** [col.lower().replace(' ', '_')] (lines 54, 56, 58). *)
Definition standard_name (col : string) : string :=
  spaces_to_underscores (str_lower col).

(** [s.replace('£', '')]: every occurrence of the pound sign (the two bytes
    C2 A3 of its UTF-8 encoding) is removed. *)
Fixpoint remove_pound (s : string) : string :=
  match s with
  | EmptyString => EmptyString
  | String c r =>
      match r with
      | String c' r' =>
          if (Ascii.eqb c (ascii_of_nat 194) && Ascii.eqb c' (ascii_of_nat 163))%bool
          then remove_pound r'
          else String c (remove_pound r)
      | EmptyString => String c EmptyString
      end
  end.

(** ** DataFrames *)

Record frame : Type := Frame {
  index : list Z;
  columns : list (string * list cell)
}.

(** [pd.DataFrame()]. *)
Definition empty_frame : frame := Frame [] [].

Definition nrows (f : frame) : nat := length (index f).

Definition names (f : frame) : list string := map fst (columns f).

(** [df.empty]: some axis has length 0. *)
Definition empty (f : frame) : bool :=
  (Nat.eqb (length (index f)) 0 || Nat.eqb (length (columns f)) 0)%bool.

(** [name in df.columns]. *)
Definition has_column (f : frame) (name : string) : bool :=
  existsb (String.eqb name) (names f).

(** [df.columns = [g(col) for col in df.columns]]. *)
Definition rename_columns (g : string -> string) (f : frame) : frame :=
  Frame (index f) (map (fun nc => (g (fst nc), snd nc)) (columns f)).

Definition standardize (f : frame) : frame := rename_columns standard_name f.

Definition matching (name : string) (f : frame) : list (list cell) :=
  map snd (List.filter (fun nc => String.eqb name (fst nc)) (columns f)).

(** [df[name]] read as a Series: KeyError when the label is missing.  With a
    repeated label pandas returns a DataFrame instead. *)
Definition getitem (f : frame) (name : string) : result (list cell) :=
  match matching name f with
  | [] => Raise KeyError
  | [c] => Ok c
  | _ => Unmodelled
  end.

(** [df[name] = values]: overwrite the column(s) carrying the label, or add
    a new last column. *)
Definition setitem (f : frame) (name : string) (values : list cell) : frame :=
  if has_column f name
  then Frame (index f)
         (map (fun nc => if String.eqb name (fst nc) then (fst nc, values) else nc)
              (columns f))
  else Frame (index f) (columns f ++ [(name, values)]).

(** [df.drop(columns=[name])]. *)
Definition drop_column (f : frame) (name : string) : result frame :=
  if has_column f name
  then Ok (Frame (index f)
             (List.filter (fun nc => negb (String.eqb name (fst nc))) (columns f)))
  else Raise KeyError.

(** Every column is as long as the index. *)
Definition wf_frame (f : frame) : Prop :=
  Forall (fun nc => length (snd nc) = nrows f) (columns f).

(** ** Series operations *)

(** The numeric value of a cell of a numeric or boolean column. *)
Definition num_of_cell (c : cell) : option Q :=
  match c with
  | CBool b => Some (if b then 1%Q else 0%Q)
  | CInt z => Some (inject_Z z)
  | CFloat q => Some q
  | _ => None
  end.

Definition numeric_or_null (c : cell) : bool :=
  match c with
  | CNull | CBool _ | CInt _ | CFloat _ => true
  | _ => false
  end.

Definition is_null (c : cell) : bool :=
  match c with CNull => true | _ => false end.

(** The non-missing numeric values of a column. *)
Definition valid_values (col : list cell) : list Q := omap num_of_cell col.

Definition Qsum (l : list Q) : Q := fold_right Qplus 0%Q l.

Definition is_text (c : cell) : bool :=
  match c with CStr _ => true | _ => false end.

(** [series.mean()]: the mean of the non-missing values, NaN when there is
    none; text cannot be averaged.  The mean of a column that holds an
    infinity or a Timestamp is not modelled. *)
Definition series_mean (col : list cell) : result (option Q) :=
  if forallb numeric_or_null col then
    match valid_values col with
    | [] => Ok None
    | vs => Ok (Some (Qred (Qsum vs / inject_Z (Z.of_nat (length vs)))))
    end
  else if existsb is_text col then Raise TypeError
  else Unmodelled.

(** [series.fillna(v)]. *)
Definition fillna (v : cell) (col : list cell) : list cell :=
  map (fun c => if is_null c then v else c) col.

(** [fillna] with a float that may itself be NaN (then nothing changes). *)
Definition fillna_float (v : option Q) (col : list cell) : list cell :=
  match v with
  | Some q => fillna (CFloat q) col
  | None => col
  end.

(** Truncation towards zero. *)
Definition Qtruncate (q : Q) : Z := Z.quot (Qnum q) (Zpos (Qden q)).

(** The range of int64. *)
Definition int64_min : Z := - 2 ^ 63.
Definition int64_max : Z := 2 ^ 63 - 1.

Definition in_int64 (z : Z) : bool :=
  (Z.leb int64_min z && Z.leb z int64_max)%bool.

(** The integers that float64 holds exactly. *)
Definition exact_in_float64 (z : Z) : bool := Z.leb (Z.abs z) (2 ^ 53).

(** The float64 -> int64 cast of [astype(int)] at one value: truncation
    towards zero.  pandas raises ValueError when the value is not finite;
    what numpy stores for a value that int64 cannot hold depends on the
    platform and is not modelled. *)
Definition cast_int64 (x : number) : result cell :=
  match x with
  | Finite q =>
      if in_int64 (Qtruncate q) then Ok (CInt (Qtruncate q)) else Unmodelled
  | Infinite _ => Raise ValueError
  end.

(** The outcomes of a column, cell by cell, as one outcome. *)
Fixpoint collect {A} (rs : list (result A)) : result (list A) :=
  match rs with
  | [] => Ok []
  | r :: rest => (a <~ r ;; l <~ collect rest ;; Ok (a :: l))%res
  end.

(** [series.iloc[0]]. *)
Definition iloc0 (col : list cell) : result cell :=
  match col with
  | c :: _ => Ok c
  | [] => Raise IndexError
  end.

(** [RangeIndex(n)]: the labels 0 .. n-1. *)
Definition range_index (n : nat) : list Z := map Z.of_nat (seq 0 n).

(** ** The weather dictionary *)

Fixpoint assoc (k : string) (d : list (string * json)) : option json :=
  match d with
  | [] => None
  | (k', v) :: r => if String.eqb k k' then Some v else assoc k r
  end.

(** Python truthiness, as tested by [if weather_data:]. *)
Definition truthy (j : json) : bool :=
  match j with
  | JNull => false
  | JBool b => b
  | JInt z => negb (Z.eqb z 0)
  | JFloat q => negb (Qeq_bool q 0)
  | JStr s => negb (String.eqb s "")
  | JList l => negb (Nat.eqb (length l) 0)
  | JDict d => negb (Nat.eqb (length d) 0)
  end.

(** [d.get(k, default)]; only a dict has [.get]. *)
Definition py_get (d : json) (k : string) (default : json) : result json :=
  match d with
  | JDict kv => Ok (match assoc k kv with Some v => v | None => default end)
  | _ => Raise AttributeError
  end.

(** [x[0]]. *)
Definition py_item0 (x : json) : result json :=
  match x with
  | JList (v :: _) => Ok v
  | JList [] => Raise IndexError
  | JStr (String c _) => Ok (JStr (String c EmptyString))
  | JStr EmptyString => Raise IndexError
  | JDict _ => Raise KeyError
  | _ => Raise TypeError
  end.

(** A scalar stored in a one-row column.  Containers as cell values are not
    modelled. *)
Definition cell_of_json (j : json) : result cell :=
  match j with
  | JNull => Ok CNull
  | JBool b => Ok (CBool b)
  | JInt z => Ok (CInt z)
  | JFloat q => Ok (CFloat q)
  | JStr s => Ok (CStr s)
  | _ => Unmodelled
  end.

Definition max_ns : Z := 9223372036854775807.

(** [pd.to_datetime(v, unit='s')] on the epoch seconds of the API: None
    stays missing, an integer becomes a Timestamp or is out of bounds
    (OutOfBoundsDatetime is a ValueError). *)
Definition to_datetime_s (v : json) : result cell :=
  match v with
  | JNull => Ok CNull
  | JInt z =>
      if (Z.leb (- max_ns) (z * 1000000000) && Z.leb (z * 1000000000) max_ns)%bool
      then Ok (CTime (z * 1000000000))
      else Raise ValueError
  | _ => Unmodelled
  end.

Definition weather_columns : list string :=
  ["city"; "temperature_celsius"; "weather_condition"; "humidity_percent";
   "wind_speed_m_s"; "report_timestamp"].

(** Line 41: the empty table with the weather columns. *)
Definition empty_weather_df : frame :=
  Frame [] (map (fun n => (n, [])) weather_columns).

(** Lines 31-39: the one-row weather table.  The dict display is evaluated
    entry by entry, then the DataFrame is built. *)
Definition build_weather_df (weather_data : json) : result frame :=
  (name <~ py_get weather_data "name" JNull ;;
   main1 <~ py_get weather_data "main" (JDict []) ;;
   temp <~ py_get main1 "temp" JNull ;;
   wl <~ py_get weather_data "weather" (JList [JDict []]) ;;
   w0 <~ py_item0 wl ;;
   descr <~ py_get w0 "description" JNull ;;
   main2 <~ py_get weather_data "main" (JDict []) ;;
   humidity <~ py_get main2 "humidity" JNull ;;
   wind <~ py_get weather_data "wind" (JDict []) ;;
   speed <~ py_get wind "speed" JNull ;;
   dt <~ py_get weather_data "dt" JNull ;;
   ts <~ to_datetime_s dt ;;
   c1 <~ cell_of_json name ;;
   c2 <~ cell_of_json temp ;;
   c3 <~ cell_of_json descr ;;
   c4 <~ cell_of_json humidity ;;
   c5 <~ cell_of_json speed ;;
   Ok (Frame [0]
         [("city", [c1]); ("temperature_celsius", [c2]);
          ("weather_condition", [c3]); ("humidity_percent", [c4]);
          ("wind_speed_m_s", [c5]); ("report_timestamp", [ts])]))%res.

(** Lines 30-41. *)
Definition weather_frame (weather_data : json) : result frame :=
  if truthy weather_data then build_weather_df weather_data
  else Ok empty_weather_df.

(** ** The listings *)

(** [pd.DataFrame(scraped_data)] for a non-empty list of listings. *)
Definition frame_of_listings (l : list listing) : frame :=
  Frame (range_index (length l))
    [("title", map (fun b => CStr (title b)) l);
     ("price", map (fun b => CStr (price b)) l);
     ("availability", map (fun b => CStr (availability b)) l)].

(** Lines 43-46. *)
Definition scraped_frame (scraped_data : option (list listing)) : frame :=
  match scraped_data with
  | Some (b :: r) => frame_of_listings (b :: r)
  | _ => empty_frame
  end.

(** ** Composite keys and duplicate detection *)

(** Two cells of one column denote the same value: missing values group
    together, numbers compare by value. *)
Definition cell_eqb (a b : cell) : bool :=
  match a, b with
  | CNull, CNull => true
  | CStr s, CStr t => String.eqb s t
  | CTime s, CTime t => Z.eqb s t
  | CInf s, CInf t => Bool.eqb s t
  | _, _ =>
      match num_of_cell a, num_of_cell b with
      | Some p, Some q => Qeq_bool p q
      | _, _ => false
      end
  end.

(** The composite key (product_id, sale_date, sale_amount) of a row. *)
Definition key : Type := cell * cell * cell.

Definition key_eqb (k1 k2 : key) : bool :=
  (cell_eqb (fst (fst k1)) (fst (fst k2))
   && cell_eqb (snd (fst k1)) (snd (fst k2))
   && cell_eqb (snd k1) (snd k2))%bool.

Fixpoint zip3 (a b c : list cell) : list key :=
  match a, b, c with
  | x :: a', y :: b', z :: c' => (x, y, z) :: zip3 a' b' c'
  | _, _, _ => []
  end.

(** The key of every row: [df[subset_cols]] (line 124). *)
Definition subset_keys (f : frame) : result (list key) :=
  (p <~ getitem f "product_id" ;;
   d <~ getitem f "sale_date" ;;
   a <~ getitem f "sale_amount" ;;
   Ok (zip3 p d a))%res.

(** [duplicated(keep='first')]: a row is flagged when its key has been seen
    on an earlier row. *)
Fixpoint duplicated_from (seen : list key) (ks : list key) : list bool :=
  match ks with
  | [] => []
  | k :: r => existsb (key_eqb k) seen :: duplicated_from (k :: seen) r
  end.

Definition duplicated (ks : list key) : list bool := duplicated_from [] ks.

(** Boolean-mask selection [x[~mask]]: the entries that are not flagged, in
    their original order. *)
Fixpoint keep_unflagged {A : Type} (mask : list bool) (l : list A) : list A :=
  match mask, l with
  | m :: ms, x :: xs =>
      if m then keep_unflagged ms xs else x :: keep_unflagged ms xs
  | _, _ => []
  end.

(** [mask.sum()]. *)
Definition count_flagged (mask : list bool) : nat :=
  length (List.filter (fun b : bool => b) mask).

(** [df[~mask]]: the same selection on the index and on every column. *)
Definition select_unflagged (mask : list bool) (f : frame) : frame :=
  Frame (keep_unflagged mask (index f))
    (map (fun nc => (fst nc, keep_unflagged mask (snd nc))) (columns f)).

(** [df.drop_duplicates(subset=subset_cols, keep='first')] (line 132). *)
Definition drop_duplicates (f : frame) : result frame :=
  (ks <~ subset_keys f ;;
   Ok (select_unflagged (duplicated ks) f))%res.

(** ** The index join *)

(** Position of a label in an index. *)
Fixpoint index_position (lab : Z) (idx : list Z) : option nat :=
  match idx with
  | [] => None
  | l :: r => if Z.eqb lab l then Some 0%nat else option_map S (index_position lab r)
  end.

(** The cells a right-hand column contributes: the matched row's cell, or
    a missing value where the left label has no match. *)
Definition take_rows (pos : list (option nat)) (col : list cell) : list cell :=
  map (fun p => match p with
                | Some k => default CNull (col !! k)
                | None => CNull
                end) pos.

(** pandas appends [_x] / [_y] to the labels both tables carry. *)
Definition with_suffix (other : list string) (sfx : string) (n : string) : string :=
  if existsb (String.eqb n) other then n ++ sfx else n.

(** [pd.merge(left, right, how='left', left_index=True, right_index=True)]
    for a right table with a unique index: one output row per left row, in
    the left order, paired with the right row of the same label. *)
Definition merge_left_index (left right : frame) : frame :=
  let pos := map (fun lab => index_position lab (index right)) (index left) in
  Frame (index left)
    (map (fun nc => (with_suffix (names right) "_x" (fst nc), snd nc)) (columns left)
     ++ map (fun nc => (with_suffix (names left) "_y" (fst nc), take_rows pos (snd nc)))
            (columns right)).

(** Lines 104-117. *)
Definition join_listings (merged_df scraped_df : frame) : frame :=
  if negb (empty scraped_df) then merge_left_index merged_df scraped_df
  else merged_df.

(** ** The weather broadcast *)

(** One turn of the loop of lines 96-97:
    [sales_df[col] = weather_df[col].iloc[0]]. *)
Definition broadcast_column (weather_df : frame) (col : string) (sales_df : frame)
  : result frame :=
  (s <~ getitem weather_df col ;;
   v <~ iloc0 s ;;
   Ok (setitem sales_df col (replicate (nrows sales_df) v)))%res.

Fixpoint broadcast_columns (weather_df : frame) (cols : list string) (sales_df : frame)
  : result frame :=
  match cols with
  | [] => Ok sales_df
  | col :: r =>
      (f <~ broadcast_column weather_df col sales_df ;;
       broadcast_columns weather_df r f)%res
  end.

(** Lines 95-101 as a function of the two tables. *)
Definition broadcast_weather (weather_df sales_df : frame) : result frame :=
  if negb (empty weather_df)
  then broadcast_columns weather_df (names weather_df) sales_df
  else Ok sales_df.

(** ** In-place statements on one DataFrame *)

(** A block of statements working on one DataFrame object: it reads and
    assigns the object's current value and may raise; what it assigned
    before raising stays assigned. *)
Definition F (A : Type) : Type := frame -> result A * frame.

Definition fret {A} (a : A) : F A := fun f => (Ok a, f).

Definition fbind {A B} (m : F A) (k : A -> F B) : F B :=
  fun f =>
    match m f with
    | (Ok a, f') => k a f'
    | (Raise e, f') => (Raise e, f')
    | (Unmodelled, f') => (Unmodelled, f')
    end.

Declare Scope frame_scope.
Delimit Scope frame_scope with F.
Notation "x <~ c ;; k" := (fbind c (fun x => k))
  (at level 100, c at next level, right associativity) : frame_scope.
Notation "c ;;; k" := (fbind c (fun _ => k))
  (at level 100, right associativity) : frame_scope.

(** The current value of the object. *)
Definition peek : F frame := fun f => (Ok f, f).

(** A computation that does not touch the object. *)
Definition flift {A} (r : result A) : F A := fun f => (r, f).

(** [df[...] = rhs] / [df.columns = rhs]: the right-hand side is evaluated
    on the current value, then stored. *)
Definition assign (rhs : frame -> result frame) : F unit :=
  fun f =>
    match rhs f with
    | Ok f' => (Ok tt, f')
    | Raise e => (Raise e, f)
    | Unmodelled => (Unmodelled, f)
    end.

Fixpoint for_each (cols : list string) (body : string -> F unit) : F unit :=
  match cols with
  | [] => fret tt
  | col :: r => (body col ;;; for_each r body)%F
  end.

(** What a block hands back: the object it worked on, or a new table. *)
Inductive table : Type :=
| Same
| Fresh (f : frame).

Definition table_value (t : table) (current : frame) : frame :=
  match t with
  | Same => current
  | Fresh f => f
  end.

(** ** The caller's objects *)

(** An object of the store: the weather dictionary, the list of listings
    or a DataFrame. *)
Inductive obj : Type :=
| OJson (j : json)
| OList (l : list listing)
| OFrame (f : frame).

(** The store; a reference is a position in it. *)
Abbreviation store := (list obj).
Abbreviation loc := nat (only parsing).

Definition M (A : Type) : Type := store -> result A * store.

Definition st_ret {A} (a : A) : M A := fun h => (Ok a, h).

Definition st_bind {A B} (m : M A) (k : A -> M B) : M B :=
  fun h =>
    match m h with
    | (Ok a, h') => k a h'
    | (Raise e, h') => (Raise e, h')
    | (Unmodelled, h') => (Unmodelled, h')
    end.

Definition st_lift {A} (r : result A) : M A := fun h => (r, h).

(** A new object. *)
Definition alloc (o : obj) : M loc := fun h => (Ok (length h), h ++ [o]).

(** The weather argument: [None] or a reference to the decoded JSON. *)
Definition load_json (r : option loc) : M json :=
  fun h =>
    match r with
    | None => (Ok JNull, h)
    | Some l =>
        match h !! l with
        | Some (OJson j) => (Ok j, h)
        | _ => (Unmodelled, h)
        end
    end.

(** The listings argument: [None] or a reference to a list. *)
Definition load_listings (r : option loc) : M (option (list listing)) :=
  fun h =>
    match r with
    | None => (Ok None, h)
    | Some l =>
        match h !! l with
        | Some (OList bs) => (Ok (Some bs), h)
        | _ => (Unmodelled, h)
        end
    end.

Definition load_frame (l : loc) : M frame :=
  fun h =>
    match h !! l with
    | Some (OFrame f) => (Ok f, h)
    | _ => (Unmodelled, h)
    end.

(** Run a block of statements on the DataFrame object at [l]. *)
Definition in_place {A} (l : loc) (block : F A) : M A :=
  fun h =>
    match h !! l with
    | Some (OFrame f) =>
        let (r, f') := block f in (r, <[l := OFrame f']> h)
    | _ => (Unmodelled, h)
    end.

(** ** A concrete reading of the pandas parameters

    Plain decimal numerals and ISO calendar dates, the formats of
    data/sales_data.csv and of the scraped prices.  The examples below are
    evaluated with it. *)

Definition digit_of (c : ascii) : option Z :=
  let n := nat_of_ascii c in
  if (Nat.leb 48 n && Nat.leb n 57)%bool then Some (Z.of_nat (n - 48)) else None.

(** The leading digits of [s]: their value, their number, and the rest. *)
Fixpoint read_digits (s : string) (acc : Z) (n : nat) : Z * nat * string :=
  match s with
  | EmptyString => (acc, n, EmptyString)
  | String c r =>
      match digit_of c with
      | Some d => read_digits r (acc * 10 + d) (S n)
      | None => (acc, n, s)
      end
  end.

Definition parse_unsigned (s : string) : option Q :=
  let '(ip, n, rest) := read_digits s 0 0 in
  if Nat.eqb n 0 then None
  else
    match rest with
    | EmptyString => Some (inject_Z ip)
    | String c r =>
        if Ascii.eqb c "."%char then
          let '(fp, k, rest') := read_digits r 0 0 in
          if (Nat.eqb k 0 || negb (String.eqb rest' ""))%bool then None
          else Some (Qred (Qmake (ip * 10 ^ Z.of_nat k + fp)
                                 (Z.to_pos (10 ^ Z.of_nat k))))
        else None
    end.

(** Signed decimal numerals: 12, -5, 51.77. *)
Definition parse_decimal (s : string) : option number :=
  if String.eqb s "inf" then Some (Infinite false)
  else if String.eqb s "-inf" then Some (Infinite true)
  else
    match s with
    | String c r =>
        if Ascii.eqb c "-"%char
        then option_map (fun q => Finite (Qopp q)) (parse_unsigned r)
        else option_map Finite (parse_unsigned s)
    | EmptyString => None
    end.

(** Days since 1970-01-01 of a date of the proleptic Gregorian calendar. *)
Definition days_from_civil (y m d : Z) : Z :=
  let y' := if Z.leb m 2 then y - 1 else y in
  let era := y' / 400 in
  let yoe := y' - era * 400 in
  let doy := (153 * (if Z.ltb 2 m then m - 3 else m + 9) + 2) / 5 + d - 1 in
  let doe := yoe * 365 + yoe / 4 - yoe / 100 + doy in
  era * 146097 + doe - 719468.

Definition is_leap (y : Z) : bool :=
  ((Z.eqb (y mod 4) 0 && negb (Z.eqb (y mod 100) 0)) || Z.eqb (y mod 400) 0)%bool.

Definition days_in_month (y m : Z) : Z :=
  if Z.eqb m 2 then (if is_leap y then 29 else 28)
  else if (Z.eqb m 4 || Z.eqb m 6 || Z.eqb m 9 || Z.eqb m 11)%bool then 30
  else 31.

Definition ns_per_day : Z := 86400 * 1000000000.

(** Dates written YYYY-MM-DD. *)
Definition parse_iso_date (s : string) : option Z :=
  let '(y, n1, r1) := read_digits s 0 0 in
  match r1 with
  | String c1 r1' =>
      let '(m, n2, r2) := read_digits r1' 0 0 in
      match r2 with
      | String c2 r2' =>
          let '(d, n3, r3) := read_digits r2' 0 0 in
          if (Nat.eqb n1 4 && Nat.eqb n2 2 && Nat.eqb n3 2
              && Ascii.eqb c1 "-"%char && Ascii.eqb c2 "-"%char
              && String.eqb r3 ""
              && Z.leb 1 m && Z.leb m 12 && Z.leb 1 d
              && Z.leb d (days_in_month y m))%bool
          then Some (days_from_civil y m d * ns_per_day)
          else None
      | EmptyString => None
      end
  | EmptyString => None
  end.

Definition iso_to_datetime (col : list cell) (c : cell) : option Z :=
  match c with
  | CStr s => parse_iso_date s
  | CTime ns => Some ns
  | _ => None
  end.

Definition civil_month (ns : Z) : Z :=
  let z := ns / ns_per_day + 719468 in
  let era := z / 146097 in
  let doe := z - era * 146097 in
  let yoe := (doe - doe / 1460 + doe / 36524 - doe / 146096) / 365 in
  let doy := doe - (365 * yoe + yoe / 4 - yoe / 100) in
  let mp := (5 * doy + 2) / 153 in
  if Z.ltb mp 10 then mp + 3 else mp - 9.

Definition civil_day_name (ns : Z) : string :=
  nth (Z.to_nat ((ns / ns_per_day + 4) mod 7))
    ["Sunday"; "Monday"; "Tuesday"; "Wednesday"; "Thursday"; "Friday"; "Saturday"]
    "".

(** ** Example inputs *)

(** The sales table of Scenario A: the same product and day twice, the
    first amount missing. *)
Definition scenario_a_sales : frame :=
  Frame [0; 1]
    [("product_id", [CInt 1; CInt 1]);
     ("sale_date", [CStr "2023-01-01"; CStr "2023-01-01"]);
     ("sale_amount", [CNull; CFloat 10])].

(** A sales table as read from a CSV file with capitalised headers; the
    second date is not a date. *)
Definition csv_sales : frame :=
  Frame [0; 1]
    [("Product ID", [CInt 1; CInt 2]);
     ("Sale Date", [CStr "2023-01-01"; CStr "not a date"]);
     ("Sale Amount", [CNull; CFloat 10])].

(** [csv_sales] once [transform_data] has run on it. *)
Definition csv_sales_after : frame :=
  Frame [0; 1]
    [("product_id", [CInt 1; CInt 2]);
     ("sale_date", [CTime 1672531200000000000; CNull]);
     ("sale_amount", [CFloat 10; CFloat 10]);
     ("sale_month", [CInt 1; CNull]);
     ("sale_day_name", [CStr "Sunday"; CNull])].

(** The weather report of Scenario C. *)
Definition scenario_c_weather : json :=
  JDict [("name", JStr "London");
         ("main", JDict [("temp", JFloat 5); ("humidity", JInt 80)]);
         ("weather", JList [JDict [("description", JStr "Rain")]]);
         ("wind", JDict [("speed", JFloat 3)]);
         ("dt", JInt 1672531200)].

(** Its one-row table. *)
Definition scenario_c_weather_df : frame :=
  Frame [0]
    [("city", [CStr "London"]); ("temperature_celsius", [CFloat 5]);
     ("weather_condition", [CStr "Rain"]); ("humidity_percent", [CInt 80]);
     ("wind_speed_m_s", [CFloat 3]);
     ("report_timestamp", [CTime 1672531200000000000])].

(** A normalised sales table of three rows. *)
Definition three_sales : frame :=
  Frame [0; 1; 2]
    [("product_id", [CInt 1; CInt 1; CInt 2]);
     ("sale_date", [CTime 1672531200000000000; CTime 1672531200000000000;
                    CTime 1672531200000000000]);
     ("sale_amount", [CFloat 10; CFloat 10; CFloat 10])].

Definition three_sales_keys : list key :=
  [(CInt 1, CTime 1672531200000000000, CFloat 10);
   (CInt 1, CTime 1672531200000000000, CFloat 10);
   (CInt 2, CTime 1672531200000000000, CFloat 10)].

(** A weather report whose list of conditions is empty. *)
Definition weather_without_conditions : json :=
  JDict [("weather", JList [])].

(** Two sales rows whose labels are 1 and 0, in that order (a table that
    was sorted or filtered by its caller). *)
Definition relabelled_sales : frame :=
  Frame [1; 0]
    [("product_id", [CInt 7; CInt 8]);
     ("sale_date", [CTime 0; CTime 0]);
     ("sale_amount", [CFloat 1; CFloat 2])].

Definition two_books : list listing :=
  [Listing "A" "£51.77" "In stock"; Listing "B" "n/a" "In stock"].

(** A sale whose product_id is negative. *)
Definition negative_id_sales : frame :=
  Frame [0]
    [("product_id", [CInt (-5)]);
     ("sale_date", [CStr "2023-01-01"]);
     ("sale_amount", [CFloat 3])].

(** A sales file whose second product_id reads as an infinity: the float
    column that [read_csv] builds from the fields 7 and inf. *)
Definition infinite_id_sales : frame :=
  Frame [0; 1]
    [("product_id", [CFloat 7; CInf false]);
     ("sale_date", [CStr "2023-01-01"; CStr "2023-01-02"]);
     ("sale_amount", [CFloat 10; CFloat 12])].

(** The same with text cells: a product code and the text inf. *)
Definition text_id_sales : frame :=
  Frame [0; 1]
    [("product_id", [CStr "A-17"; CStr "inf"]);
     ("sale_date", [CStr "2023-01-01"; CStr "2023-01-02"]);
     ("sale_amount", [CFloat 10; CFloat 12])].

(** The keys of the two rows of Scenario A as the caller passes them. *)
Definition scenario_a_keys : list key :=
  [(CInt 1, CStr "2023-01-01", CNull);
   (CInt 1, CStr "2023-01-01", CFloat 10)].

(** [three_sales] without its second row, a repeat of the first. *)
Definition three_sales_cleaned : frame :=
  Frame [0; 2]
    [("product_id", [CInt 1; CInt 2]);
     ("sale_date", [CTime 1672531200000000000; CTime 1672531200000000000]);
     ("sale_amount", [CFloat 10; CFloat 10])].

(** A sales file that has no date column. *)
Definition sales_without_date : frame :=
  Frame [0; 1]
    [("Product ID", [CInt 1; CInt 2]);
     ("Sale Amount", [CNull; CFloat 4])].

(** [sales_without_date] when line 75 raises. *)
Definition sales_without_date_after : frame :=
  Frame [0; 1]
    [("product_id", [CInt 1; CInt 2]);
     ("sale_amount", [CFloat 4; CFloat 4])].

(** Two sales with no amount at all. *)
Definition unpriced_sales : frame :=
  Frame [0; 1]
    [("product_id", [CInt 1; CInt 2]);
     ("sale_date", [CStr "2023-01-01"; CStr "2023-01-02"]);
     ("sale_amount", [CNull; CNull])].

(** An API answer that carries none of the fields read on lines 32-37. *)
Definition weather_error_body : list (string * json) :=
  [("cod", JStr "404"); ("message", JStr "city not found")].

(** A database as the list of the tables appended to it, and a [to_sql]
    that always returns. *)
Definition appended_tables : Type := list frame.

Definition append_table (dataframe : frame) (d : appended_tables)
  : bool * appended_tables :=
  (true, d ++ [dataframe]).

Section Pandas.

(** pandas' numeric parser for text, in [errors='coerce'] mode: the number
    it reads, which is an infinity for a text such as inf, and [None]
    (NaN) when the text is not a number. *)
Variable parse_number : string -> option number.

(** [pd.to_datetime(column, errors='coerce')] at one cell of a column
    (the conversion may look at the whole column, e.g. to settle the date
    format): [None] is NaT. *)
Variable to_datetime_coerce : list cell -> cell -> option Z.

(** [.dt.month] and [.dt.day_name()] of a Timestamp. *)
Variable dt_month : Z -> Z.
Variable dt_day_name : Z -> string.

(** [pd.to_numeric(..., errors='coerce')] at one cell. *)
Definition to_numeric (c : cell) : option number :=
  match c with
  | CNull => None
  | CBool b => Some (Finite (if b then 1%Q else 0%Q))
  | CInt z => Some (Finite (inject_Z z))
  | CFloat q => Some (Finite q)
  | CInf b => Some (Infinite b)
  | CStr s => parse_number s
  | CTime ns => Some (Finite (inject_Z ns))
  end.

Definition numeric_cell (c : cell) : cell :=
  match to_numeric c with
  | Some (Finite q) => CFloat q
  | Some (Infinite b) => CInf b
  | None => CNull
  end.

(** [pd.to_numeric(col, errors='coerce').fillna(0)] at one cell of the
    product_id column.  pandas holds the converted column as int64 when
    every cell is an integer and as float64 otherwise: an integer cell that
    float64 cannot hold exactly is left unmodelled, and so is a
    Timestamp. *)
Definition product_id_number (c : cell) : result number :=
  match c with
  | CInt z =>
      if exact_in_float64 z then Ok (Finite (inject_Z z)) else Unmodelled
  | CTime _ => Unmodelled
  | _ => Ok (match to_numeric c with Some x => x | None => Finite 0 end)
  end.

(** Line 76 at one cell:
    [pd.to_numeric(col, errors='coerce').fillna(0).astype(int)]. *)
Definition product_id_cell (c : cell) : result cell :=
  (x <~ product_id_number c ;; cast_int64 x)%res.

(** A cell that [pd.to_numeric] reads as an infinity. *)
Definition infinite_id (c : cell) : bool :=
  match to_numeric c with
  | Some (Infinite _) => true
  | _ => false
  end.

(** Line 76 on the column.  [astype(int)] first checks that every value
    of the column is finite and raises ValueError when one is not; then it
    casts cell by cell. *)
Definition product_id_column (col : list cell) : result (list cell) :=
  if existsb infinite_id col then Raise ValueError
  else collect (map product_id_cell col).

Definition datetime_cell (col : list cell) (c : cell) : cell :=
  match to_datetime_coerce col c with
  | Some ns => CTime ns
  | None => CNull
  end.

Definition month_cell (c : cell) : cell :=
  match c with
  | CTime ns => CInt (dt_month ns)
  | _ => CNull
  end.

Definition day_name_cell (c : cell) : cell :=
  match c with
  | CTime ns => CStr (dt_day_name ns)
  | _ => CNull
  end.

(** The [.dt] accessor exists on datetime columns only. *)
Definition dt_accessor (col : list cell) : result unit :=
  if forallb (fun c => match c with CNull | CTime _ => true | _ => false end) col
  then Ok tt else Raise AttributeError.

(** The [.str] accessor at one cell of a text column: [.str.replace]
    leaves a missing value where the cell is not text. *)
Definition str_replace_pound (c : cell) : cell :=
  match c with
  | CStr s => CStr (remove_pound s)
  | _ => CNull
  end.

(** The [.str] accessor exists on text columns; other columns are not
    modelled. *)
Definition str_accessor (col : list cell) : result unit :=
  if forallb (fun c => match c with CNull | CStr _ => true | _ => false end) col
  then Ok tt else Unmodelled.

(** *** Sales: lines 62-64, 75, 76, 81, 82 *)

Definition fill_sale_amount (sales_df : frame) : result frame :=
  (col <~ getitem sales_df "sale_amount" ;;
   mean_sale_amount <~ series_mean col ;;
   Ok (setitem sales_df "sale_amount" (fillna_float mean_sale_amount col)))%res.

Definition coerce_sale_date (sales_df : frame) : result frame :=
  (col <~ getitem sales_df "sale_date" ;;
   Ok (setitem sales_df "sale_date" (map (datetime_cell col) col)))%res.

Definition coerce_product_id (sales_df : frame) : result frame :=
  (col <~ getitem sales_df "product_id" ;;
   ids <~ product_id_column col ;;
   Ok (setitem sales_df "product_id" ids))%res.

Definition add_sale_month (sales_df : frame) : result frame :=
  (col <~ getitem sales_df "sale_date" ;;
   _ <~ dt_accessor col ;;
   Ok (setitem sales_df "sale_month" (map month_cell col)))%res.

Definition add_sale_day_name (sales_df : frame) : result frame :=
  (col <~ getitem sales_df "sale_date" ;;
   _ <~ dt_accessor col ;;
   Ok (setitem sales_df "sale_day_name" (map day_name_cell col)))%res.

(** Lines 74-76 as a function of the sales table. *)
Definition correct_sales_types (sales_df : frame) : result frame :=
  if negb (empty sales_df)
  then (f <~ coerce_sale_date sales_df ;; coerce_product_id f)%res
  else Ok sales_df.

(** *** Listings: lines 68-73 *)

Definition rename_listing_column (n : string) : string :=
  if String.eqb n "title" then "book_title"
  else if String.eqb n "availability" then "book_availability"
  else n.

Definition clean_listings (scraped_df : frame) : result frame :=
  (col <~ getitem scraped_df "price" ;;
   _ <~ str_accessor col ;;
   let price_cleaned := map str_replace_pound col in
   let df1 := setitem scraped_df "book_price_gbp" (map numeric_cell price_cleaned) in
   col' <~ getitem df1 "book_price_gbp" ;;
   let df2 := setitem df1 "book_price_gbp" (fillna (CFloat 0) col') in
   df3 <~ drop_column df2 "price" ;;
   Ok (rename_columns rename_listing_column df3))%res.

(** Lines 68-73 as a function of the listings table. *)
Definition correct_listing_types (scraped_df : frame) : result frame :=
  if negb (empty scraped_df) then clean_listings scraped_df else Ok scraped_df.

(** *** Lines 124-142 *)

Definition remove_duplicates (final_df : frame) : result frame :=
  (ks <~ subset_keys final_df ;;
   let duplicates_before := count_flagged (duplicated ks) in
   if Nat.ltb 0 duplicates_before then drop_duplicates final_df
   else Ok final_df)%res.

(** *** Lines 51-150 on the sales object *)

Definition body (weather_df0 scraped_df0 : frame) : F table :=
  (let weather_df :=
     if negb (empty weather_df0) then standardize weather_df0 else weather_df0 in
   let scraped_df1 :=
     if negb (empty scraped_df0) then standardize scraped_df0 else scraped_df0 in
   sales_df <~ peek ;;
   (if negb (empty sales_df) then assign (fun f => Ok (standardize f))
    else fret tt) ;;;
   sales_df <~ peek ;;
   (if (negb (empty sales_df) && has_column sales_df "sale_amount")%bool
    then assign fill_sale_amount else fret tt) ;;;
   scraped_df <~ flift (correct_listing_types scraped_df1) ;;
   sales_df <~ peek ;;
   (if negb (empty sales_df)
    then (assign coerce_sale_date ;;; assign coerce_product_id)
    else fret tt) ;;;
   sales_df <~ peek ;;
   (if (negb (empty sales_df) && has_column sales_df "sale_date")%bool
    then (assign add_sale_month ;;; assign add_sale_day_name)
    else fret tt) ;;;
   sales_df <~ peek ;;
   if empty sales_df then fret (Fresh empty_frame)
   else
     ((if negb (empty weather_df)
       then for_each (names weather_df)
              (fun col => assign (broadcast_column weather_df col))
       else fret tt) ;;;
      merged_df <~ peek ;;
      let final :=
        if negb (empty scraped_df)
        then Fresh (merge_left_index merged_df scraped_df)
        else Same in
      let final_df := table_value final merged_df in
      ks <~ flift (subset_keys final_df) ;;
      let duplicates_before := count_flagged (duplicated ks) in
      if Nat.ltb 0 duplicates_before
      then (cleaned <~ flift (drop_duplicates final_df) ;; fret (Fresh cleaned))
      else fret final))%F.

(** *** The function *)

(** Lines 48-49: the name [sales_df] is bound to a new empty DataFrame
    when the argument is None or empty. *)
Definition rebind_sales (sales_df : option loc) : M loc :=
  match sales_df with
  | None => alloc (OFrame empty_frame)
  | Some l =>
      st_bind (load_frame l) (fun f =>
        if empty f then alloc (OFrame empty_frame) else st_ret l)
  end.

(** [transform_data(weather_data, sales_df, scraped_data)]: the reference
    it returns and the store it leaves. *)
Definition transform_data (weather_data sales_df scraped_data : option loc) : M loc :=
  st_bind (load_json weather_data) (fun wj =>
  st_bind (st_lift (weather_frame wj)) (fun weather_df =>
  st_bind (load_listings scraped_data) (fun sl =>
  let scraped_df := scraped_frame sl in
  st_bind (rebind_sales sales_df) (fun sales =>
  st_bind (in_place sales (body weather_df scraped_df)) (fun final =>
  match final with
  | Same => st_ret sales
  | Fresh f => alloc (OFrame f)
  end))))).

(** The table a returned reference denotes. *)
Definition frame_at (h : store) (l : loc) : option frame :=
  match h !! l with
  | Some (OFrame f) => Some f
  | _ => None
  end.


(** ** Reference notions used in the statements *)

(** The row positions, counted from [n], that a mask does not flag. *)
Fixpoint unflagged_from (n : nat) (mask : list bool) : list nat :=
  match mask with
  | [] => []
  | m :: ms =>
      if m then unflagged_from (S n) ms else n :: unflagged_from (S n) ms
  end.

(** No two keys of the list are equal. *)
Fixpoint distinct_keys (ks : list key) : bool :=
  match ks with
  | [] => true
  | k :: r => (negb (existsb (key_eqb k) r) && distinct_keys r)%bool
  end.

(** The arithmetic mean of a non-empty batch of amounts. *)
Definition arithmetic_mean (vs : list Q) : Q :=
  Qsum vs / inject_Z (Z.of_nat (length vs)).

(** Mean imputation at one cell: a missing amount becomes [m]. *)
Definition impute (m : Q) (c : cell) : cell :=
  if is_null c then CFloat m else c.

(** A product_id cell that line 76 converts: an integer that float64
    holds exactly, a cell that is missing or not a number, or a finite
    number whose integer part int64 holds. *)
Definition castable (c : cell) : bool :=
  match c with
  | CInt z => exact_in_float64 z
  | CTime _ => false
  | _ =>
      match to_numeric c with
      | None => true
      | Some (Finite q) => in_int64 (Qtruncate q)
      | Some (Infinite _) => false
      end
  end.

(** The price of a listing: the text without the pound sign, parsed, and
    0.0 when it does not parse. *)
Definition price_cell (b : listing) : cell :=
  match parse_number (remove_pound (price b)) with
  | Some (Finite q) => CFloat q
  | Some (Infinite negative) => CInf negative
  | None => CFloat 0
  end.

(** The normalised listings table of a list of listings: one row per
    listing, in order, under the labels 0 .. m-1. *)
Definition book_table (l : list listing) : frame :=
  match l with
  | [] => empty_frame
  | _ =>
      Frame (range_index (length l))
        [("book_title", map (fun b => CStr (title b)) l);
         ("book_availability", map (fun b => CStr (availability b)) l);
         ("book_price_gbp", map price_cell l)]
  end.

(** Lines 43-46, 55-56 and 68-73 on the [scraped_data] argument. *)
Definition listings_table (scraped_data : option (list listing)) : result frame :=
  let scraped_df := scraped_frame scraped_data in
  correct_listing_types
    (if negb (empty scraped_df) then standardize scraped_df else scraped_df).

(** Every column of [f] labelled [name] holds exactly the cells [v], and
    there is such a column. *)
Definition column_is (f : frame) (name : string) (v : list cell) : Prop :=
  has_column f name = true /\ forall c, In (name, c) (columns f) -> c = v.

(** A column read by row position and cut or padded to [n] rows: position
    [i] holds the column's cell [i], or a missing value past its end. *)
Definition pad_rows (n : nat) (col : list cell) : list cell :=
  map (fun i => default CNull (col !! i)) (seq 0 n).

(** The positional left join as the specification words it: row [i] of the
    left table receives row [i] of the right table, and missing values
    where the right table has no row [i]. *)
Definition positional_join (left right : frame) : frame :=
  Frame (index left)
    (map (fun nc => (with_suffix (names right) "_x" (fst nc), snd nc)) (columns left)
     ++ map (fun nc => (with_suffix (names left) "_y" (fst nc),
                        pad_rows (nrows left) (snd nc)))
            (columns right)).

(** Lines 57-82 on a non-empty sales table, as a function of the table. *)
Definition normalize_sales (sales_df : frame) : result frame :=
  (let f1 := standardize sales_df in
   f2 <~ (if has_column f1 "sale_amount" then fill_sale_amount f1 else Ok f1) ;;
   f3 <~ coerce_sale_date f2 ;;
   f4 <~ coerce_product_id f3 ;;
   if has_column f4 "sale_date"
   then (f5 <~ add_sale_month f4 ;; add_sale_day_name f5)
   else Ok f4)%res.

(** A statement that leaves the index alone and keeps the table non-empty
    and well formed. *)
Definition keeps_shape (g : frame -> result frame) : Prop :=
  forall f f', g f = Ok f' ->
    index f' = index f /\
    (empty f = false -> empty f' = false) /\
    (wf_frame f -> wf_frame f').

(** The sales argument is None or refers to an empty DataFrame. *)
Definition sales_absent_or_empty (h : store) (s : option loc) : Prop :=
  s = None \/ exists k f, s = Some k /\ h !! k = Some (OFrame f) /\ empty f = true.

(** The number of rows of the sales argument (0 for None). *)
Definition sales_rows (h : store) (s : option loc) : nat :=
  match s with
  | Some k => match frame_at h k with Some f => nrows f | None => 0%nat end
  | None => 0%nat
  end.

(** The labels of the composite key. *)
Definition key_name (n : string) : bool :=
  existsb (String.eqb n) ["product_id"; "sale_date"; "sale_amount"].

(** No two rows share a composite key. *)
Definition pairwise_distinct (ks : list key) : Prop :=
  forall i j ki kj, i <> j -> ks !! i = Some ki -> ks !! j = Some kj ->
                    key_eqb ki kj = false.

(** Lines 62-64 on a non-empty table, as a function of the table. *)
Definition impute_amounts (sales_df : frame) : result frame :=
  if has_column sales_df "sale_amount" then fill_sale_amount sales_df
  else Ok sales_df.

(** One row of missing values under the six weather labels. *)
Definition null_weather_df : frame :=
  Frame [0] (map (fun n => (n, [CNull])) weather_columns).

(** ** Loading (src/load.py) and the pipeline (src/main.py)

    The SQLite file and the two library calls that touch it are parameters:
    what [setup_database] leaves (it creates the table when it is missing
    and reports a failure through its return value, which main.py
    ignores), and what
    [dataframe.to_sql(name, con, if_exists='append', index=False)] does:
    whether it returned normally, and the database it leaves. *)

Variable database : Type.
Variable setup_database : database -> database.
Variable to_sql : frame -> database -> bool * database.

Inductive load_outcome : Type :=
| Returned
| NameErrorRaised.

(** [load_data_to_db(dataframe, engine, table_name)].  The handler of line
    147 names [exc], which load.py never imports: when [to_sql] raises,
    evaluating the handler raises NameError. *)
Definition load_data_to_db (dataframe : frame) (d : database)
  : load_outcome * database :=
  if empty dataframe then (Returned, d)
  else
    let (returned, d') := to_sql dataframe d in
    if returned then (Returned, d') else (NameErrorRaised, d').

(** The last message [run_pipeline] logs. *)
Inductive pipeline_log : Type :=
| FinishedSuccessfully
| UnexpectedError.

(** [run_pipeline()], lines 56-83, from the three extracted inputs (the
    extraction phase is I/O).  None of the exceptions of the transform, nor
    NameError, is a FileNotFoundError or an SQLAlchemyError: they reach the
    last handler, which logs a critical message and returns. *)
Definition run_pipeline (api_data csv_data scraped_data : option loc)
           (h : store) (d : database)
  : option pipeline_log * store * database :=
  match transform_data api_data csv_data scraped_data h with
  | (Ok r, h') =>
      match frame_at h' r with
      | Some unified_df =>
          match load_data_to_db unified_df (setup_database d) with
          | (Returned, d') => (Some FinishedSuccessfully, h', d')
          | (NameErrorRaised, d') => (Some UnexpectedError, h', d')
          end
      | None => (None, h', d)
      end
  | (Raise e, h') => (Some UnexpectedError, h', d)
  | (Unmodelled, h') => (None, h', d)
  end.

(** * Properties *)

(** ** Keys *)

Lemma cell_eqb_refl (a : cell) : cell_eqb a a = true.
Proof.
  destruct a as [|b|z|q|b|s|t]; simpl;
    try reflexivity; try (apply Qeq_bool_iff; reflexivity).
  - apply Bool.eqb_reflx.
  - apply String.eqb_refl.
  - apply Z.eqb_refl.
Qed.

Lemma cell_eqb_sym (a b : cell) : cell_eqb a b = cell_eqb b a.
Proof.
  assert (HQ : forall p q, Qeq_bool p q = Qeq_bool q p).
  { intros p q. destruct (Qeq_bool p q) eqn:E1, (Qeq_bool q p) eqn:E2; try reflexivity.
    - apply Qeq_bool_iff in E1. symmetry in E1. apply Qeq_bool_iff in E1. congruence.
    - apply Qeq_bool_iff in E2. symmetry in E2. apply Qeq_bool_iff in E2. congruence. }
  destruct a, b; simpl; try reflexivity; try apply HQ.
  - match goal with |- Bool.eqb ?x ?y = _ => now destruct x, y end.
  - apply String.eqb_sym.
  - apply Z.eqb_sym.
Qed.

Lemma Qeq_bool_trans (p q r : Q) :
  Qeq_bool p q = true -> Qeq_bool q r = true -> Qeq_bool p r = true.
Proof.
  rewrite !Qeq_bool_iff. intros H1 H2. rewrite H1. exact H2.
Qed.

Lemma cell_eqb_trans (a b c : cell) :
  cell_eqb a b = true -> cell_eqb b c = true -> cell_eqb a c = true.
Proof.
  destruct a, b; simpl; try discriminate;
    destruct c; simpl; try discriminate; try (intros; reflexivity);
    try apply Qeq_bool_trans.
  - intros H1 H2. apply Bool.eqb_prop in H1, H2. subst. apply Bool.eqb_reflx.
  - intros H1 H2. apply String.eqb_eq in H1, H2. subst. apply String.eqb_refl.
  - intros H1 H2. apply Z.eqb_eq in H1, H2. subst. apply Z.eqb_refl.
Qed.

Lemma key_eqb_refl (k : key) : key_eqb k k = true.
Proof. unfold key_eqb. rewrite !cell_eqb_refl. reflexivity. Qed.

Lemma key_eqb_sym (k1 k2 : key) : key_eqb k1 k2 = key_eqb k2 k1.
Proof.
  unfold key_eqb.
  rewrite (cell_eqb_sym (fst (fst k1))), (cell_eqb_sym (snd (fst k1))),
    (cell_eqb_sym (snd k1)).
  reflexivity.
Qed.

Lemma key_eqb_trans (k1 k2 k3 : key) :
  key_eqb k1 k2 = true -> key_eqb k2 k3 = true -> key_eqb k1 k3 = true.
Proof.
  unfold key_eqb. rewrite !andb_true_iff.
  intros [[A1 A2] A3] [[B1 B2] B3].
  repeat split; eapply cell_eqb_trans; eassumption.
Qed.

(** ** Flagging and dropping duplicates *)

Lemma existsb_false_iff {A} (p : A -> bool) (l : list A) :
  existsb p l = false <-> forall x, In x l -> p x = false.
Proof.
  induction l as [|a l IH]; simpl.
  - split; [intros _ x [] | reflexivity].
  - rewrite orb_false_iff, IH. split.
    + intros [Ha Hl] x [<-|Hx]; auto.
    + intros H. split; [apply H; now left | intros x Hx; apply H; now right].
Qed.

Lemma duplicated_from_length (seen ks : list key) :
  length (duplicated_from seen ks) = length ks.
Proof.
  revert seen. induction ks as [|k r IH]; intros seen; simpl; [reflexivity|].
  now rewrite IH.
Qed.

(** The flag of row [i]: it is clear exactly when no key seen before the
    list and no earlier key of the list equals the key of row [i]. *)
Lemma duplicated_from_spec (seen ks : list key) (i : nat) (k : key) :
  ks !! i = Some k ->
  exists b, duplicated_from seen ks !! i = Some b /\
    (b = false <->
     (forall k', In k' seen -> key_eqb k k' = false) /\
     (forall j k', (j < i)%nat -> ks !! j = Some k' -> key_eqb k k' = false)).
Proof.
  revert seen i. induction ks as [|k0 r IH]; intros seen i Hi; [discriminate|].
  destruct i as [|i]; simpl in *.
  - inversion Hi; subst k0. eexists; split; [reflexivity|].
    rewrite existsb_false_iff. split.
    + intros H; split; [exact H | intros j k' Hj; lia].
    + intros [H _]; exact H.
  - destruct (IH (k0 :: seen) i Hi) as [b [Hb Hiff]].
    exists b; split; [exact Hb|]. rewrite Hiff. split.
    + intros [Hs Hj]. split.
      * intros k' Hk'. apply Hs. now right.
      * intros [|j] k' Hlt Hk'; simpl in Hk'.
        -- inversion Hk'; subst. apply Hs. now left.
        -- apply (Hj j); [lia | exact Hk'].
    + intros [Hs Hj]. split.
      * intros k' [<-|Hk'].
        -- apply (Hj 0%nat); [lia | reflexivity].
        -- now apply Hs.
      * intros j k' Hlt Hk'. apply (Hj (S j)); [lia | exact Hk'].
Qed.

Lemma keep_unflagged_nil_r {A} (mask : list bool) :
  keep_unflagged mask (@nil A) = [].
Proof. destruct mask as [|[] ?]; reflexivity. Qed.

Lemma keep_unflagged_length_le {A} (mask : list bool) (l : list A) :
  (length (keep_unflagged mask l) <= length l)%nat.
Proof.
  revert l. induction mask as [|m ms IH]; intros [|x xs]; simpl; try lia.
  destruct m; simpl; specialize (IH xs); lia.
Qed.

(** The selection keeps the original order. *)
Lemma keep_unflagged_sublist {A} (mask : list bool) (l : list A) :
  sublist (keep_unflagged mask l) l.
Proof.
  revert l. induction mask as [|m ms IH]; intros [|x xs]; simpl;
    try apply sublist_nil_l.
  destruct m; [apply sublist_cons | apply sublist_skip]; apply IH.
Qed.

Lemma keep_unflagged_length {A} (mask : list bool) (l : list A) :
  length mask = length l ->
  (length (keep_unflagged mask l) + count_flagged mask = length l)%nat.
Proof.
  unfold count_flagged. revert l.
  induction mask as [|m ms IH]; intros [|x xs] H; simpl in *; try lia.
  destruct m; simpl; specialize (IH xs); lia.
Qed.

Lemma count_flagged_zero (mask : list bool) :
  count_flagged mask = 0%nat <-> forall i b, mask !! i = Some b -> b = false.
Proof.
  unfold count_flagged. induction mask as [|m ms IH]; simpl.
  - split; [intros _ i b H; discriminate | reflexivity].
  - destruct m; simpl.
    + split; [lia | intros H; specialize (H 0%nat true eq_refl); discriminate].
    + rewrite IH. split.
      * intros H [|i] b Hb; simpl in Hb; [congruence | eauto].
      * intros H i b Hb. apply (H (S i)). exact Hb.
Qed.

Lemma keep_unflagged_id {A} (mask : list bool) (l : list A) :
  count_flagged mask = 0%nat -> (length l <= length mask)%nat ->
  keep_unflagged mask l = l.
Proof.
  unfold count_flagged. revert l.
  induction mask as [|m ms IH]; intros [|x xs] H Hl; simpl in *;
    try reflexivity; try lia.
  destruct m; simpl in *; [lia|]. f_equal. apply IH; [exact H | lia].
Qed.

Lemma keep_unflagged_zip3 (mask : list bool) (a b c : list cell) :
  zip3 (keep_unflagged mask a) (keep_unflagged mask b) (keep_unflagged mask c)
  = keep_unflagged mask (zip3 a b c).
Proof.
  revert a b c. induction mask as [|m ms IH]; intros a b c.
  - simpl. reflexivity.
  - destruct a as [|x a]; [reflexivity|].
    destruct b as [|y b].
    { simpl. destruct (if m then _ else _); reflexivity. }
    destruct c as [|z c].
    { simpl. destruct (if m then _ else _) as [|? ?];
        [reflexivity | destruct (if m then _ else _); reflexivity]. }
    simpl. destruct m; simpl; rewrite IH; reflexivity.
Qed.

(** A kept key differs from every key seen before the list. *)
Lemma kept_not_seen (seen ks : list key) (k : key) :
  In k (keep_unflagged (duplicated_from seen ks) ks) ->
  existsb (key_eqb k) seen = false.
Proof.
  revert seen. induction ks as [|k0 r IH]; intros seen; simpl; [intros []|].
  destruct (existsb (key_eqb k0) seen) eqn:E.
  - intros H. apply IH in H. simpl in H. apply orb_false_iff in H. tauto.
  - intros [<-|H]; [exact E|].
    apply IH in H. simpl in H. apply orb_false_iff in H. tauto.
Qed.

(** The kept keys are pairwise different. *)
Lemma kept_distinct (seen ks : list key) :
  distinct_keys (keep_unflagged (duplicated_from seen ks) ks) = true.
Proof.
  revert seen. induction ks as [|k0 r IH]; intros seen; simpl; [reflexivity|].
  destruct (existsb (key_eqb k0) seen) eqn:E; [apply IH|].
  simpl. rewrite IH, andb_true_r. apply negb_true_iff.
  apply existsb_false_iff. intros k Hk.
  apply kept_not_seen in Hk. simpl in Hk. apply orb_false_iff in Hk.
  rewrite key_eqb_sym. tauto.
Qed.

Lemma distinct_keys_lookup (ks : list key) :
  distinct_keys ks = true <->
  forall i j ki kj, i <> j -> ks !! i = Some ki -> ks !! j = Some kj ->
                    key_eqb ki kj = false.
Proof.
  induction ks as [|k r IH]; simpl.
  - split; [intros _ i j ki kj _ H; discriminate | reflexivity].
  - rewrite andb_true_iff, negb_true_iff, existsb_false_iff, IH. split.
    + intros [Hk Hr] [|i] [|j] ki kj Hne Hi Hj; simpl in *; try congruence.
      * inversion Hi; subst. apply Hk. apply list_elem_of_In.
        eapply list_elem_of_lookup_2; eassumption.
      * inversion Hj; subst. rewrite key_eqb_sym. apply Hk.
        apply list_elem_of_In. eapply list_elem_of_lookup_2; eassumption.
      * apply (Hr i j); auto.
    + intros H. split.
      * intros x Hx. apply list_elem_of_In, list_elem_of_lookup_1 in Hx.
        destruct Hx as [j Hj]. apply (H 0%nat (S j)); auto.
      * intros i j ki kj Hne Hi Hj. apply (H (S i) (S j)); auto.
Qed.

Lemma duplicated_from_lookup (seen ks : list key) (i : nat) (k : key) :
  ks !! i = Some k ->
  duplicated_from seen ks !! i
  = Some (existsb (key_eqb k) (rev (take i ks) ++ seen)).
Proof.
  revert seen i. induction ks as [|k0 r IH]; intros seen i Hi; [discriminate|].
  destruct i as [|i]; simpl in *.
  - now inversion Hi.
  - rewrite (IH _ _ Hi). now rewrite <- app_assoc.
Qed.

(** A flagged row has an earlier row with an equal key. *)
Lemma duplicated_flagged (ks : list key) (i : nat) (k : key) :
  ks !! i = Some k -> duplicated ks !! i = Some true ->
  exists j k', (j < i)%nat /\ ks !! j = Some k' /\ key_eqb k k' = true.
Proof.
  intros Hi Hd. unfold duplicated in Hd.
  rewrite (duplicated_from_lookup _ _ _ _ Hi), app_nil_r in Hd.
  injection Hd as He. apply existsb_exists in He.
  destruct He as [k' [Hin Hk']].
  apply in_rev, list_elem_of_In, list_elem_of_lookup_1 in Hin.
  destruct Hin as [j Hj]. apply lookup_take_Some in Hj.
  exists j, k'. tauto.
Qed.

(** Every row has a kept row of the same key at or before it: the first of
    its group. *)
Lemma first_of_group_kept (ks : list key) (i : nat) (k : key) :
  ks !! i = Some k ->
  exists j k', (j <= i)%nat /\ ks !! j = Some k' /\ key_eqb k k' = true /\
               duplicated ks !! j = Some false.
Proof.
  revert k. induction i as [i IH] using lt_wf_ind. intros k Hi.
  destruct (duplicated ks !! i) as [[|]|] eqn:Hd.
  - destruct (duplicated_flagged _ _ _ Hi Hd) as [j [k' [Hlt [Hj Heq]]]].
    destruct (IH j Hlt k' Hj) as [j' [k'' [Hle [Hj' [Heq' Hkept]]]]].
    exists j', k''. repeat split; try assumption; [lia|].
    eapply key_eqb_trans; eassumption.
  - exists i, k. repeat split; auto. apply key_eqb_refl.
  - apply lookup_ge_None in Hd. unfold duplicated in Hd.
    rewrite duplicated_from_length in Hd.
    apply lookup_lt_Some in Hi. lia.
Qed.

(** ** Reading columns *)

Lemma matching_select (mask : list bool) (f : frame) (name : string) :
  matching name (select_unflagged mask f)
  = map (keep_unflagged mask) (matching name f).
Proof.
  unfold matching, select_unflagged; simpl.
  induction (columns f) as [|[n c] r IH]; simpl; [reflexivity|].
  destruct (String.eqb name n); simpl; now rewrite IH.
Qed.

Lemma getitem_select (mask : list bool) (f : frame) (name : string) (col : list cell) :
  getitem f name = Ok col ->
  getitem (select_unflagged mask f) name = Ok (keep_unflagged mask col).
Proof.
  unfold getitem. rewrite matching_select.
  destruct (matching name f) as [|c [|c' r]]; simpl; try discriminate.
  now intros [= ->].
Qed.

Lemma rbind_ok {A B} (r : result A) (k : A -> result B) (b : B) :
  rbind r k = Ok b -> exists a, r = Ok a /\ k a = Ok b.
Proof. destruct r; simpl; try discriminate. eauto. Qed.

Lemma subset_keys_inv (f : frame) (ks : list key) :
  subset_keys f = Ok ks ->
  exists p d a, getitem f "product_id" = Ok p /\ getitem f "sale_date" = Ok d /\
                getitem f "sale_amount" = Ok a /\ ks = zip3 p d a.
Proof.
  unfold subset_keys. intros H.
  apply rbind_ok in H as [p [Hp H]]. apply rbind_ok in H as [d [Hd H]].
  apply rbind_ok in H as [a [Ha H]]. inversion H. eauto 7.
Qed.

Lemma subset_keys_select (mask : list bool) (f : frame) (ks : list key) :
  subset_keys f = Ok ks ->
  subset_keys (select_unflagged mask f) = Ok (keep_unflagged mask ks).
Proof.
  intros H. apply subset_keys_inv in H as (p & d & a & Hp & Hd & Ha & ->).
  unfold subset_keys.
  rewrite (getitem_select _ _ _ _ Hp), (getitem_select _ _ _ _ Hd),
    (getitem_select _ _ _ _ Ha). simpl.
  now rewrite keep_unflagged_zip3.
Qed.

Lemma getitem_In (f : frame) (name : string) (col : list cell) :
  getitem f name = Ok col -> In (name, col) (columns f).
Proof.
  unfold getitem, matching. intros H.
  destruct (map snd _) as [|c [|? ?]] eqn:E; try discriminate.
  inversion H; subst c.
  assert (Hin : In col (map snd (List.filter (fun nc => String.eqb name (fst nc)) (columns f)))).
  { rewrite E. now left. }
  apply in_map_iff in Hin as [[n c] [Hc Hin]]. simpl in Hc; subst c.
  apply filter_In in Hin as [Hin Hn]. simpl in Hn.
  apply String.eqb_eq in Hn. now subst n.
Qed.

Lemma getitem_length (f : frame) (name : string) (col : list cell) :
  wf_frame f -> getitem f name = Ok col -> length col = nrows f.
Proof.
  intros Hwf H. apply getitem_In in H.
  unfold wf_frame in Hwf. rewrite List.Forall_forall in Hwf.
  exact (Hwf _ H).
Qed.

Lemma zip3_length (a b c : list cell) (n : nat) :
  length a = n -> length b = n -> length c = n -> length (zip3 a b c) = n.
Proof.
  revert a b c. induction n as [|n IH]; intros [|x a] [|y b] [|z c];
    simpl; try discriminate; auto.
Qed.

Lemma subset_keys_length (f : frame) (ks : list key) :
  wf_frame f -> subset_keys f = Ok ks -> length ks = nrows f.
Proof.
  intros Hwf H. apply subset_keys_inv in H as (p & d & a & Hp & Hd & Ha & ->).
  apply zip3_length; eapply getitem_length; eassumption.
Qed.

Lemma select_unflagged_id (mask : list bool) (f : frame) :
  wf_frame f -> count_flagged mask = 0%nat -> length mask = nrows f ->
  select_unflagged mask f = f.
Proof.
  intros Hwf Hc Hl. destruct f as [idx cols]. unfold select_unflagged; simpl.
  unfold nrows in *; simpl in *. f_equal.
  - apply keep_unflagged_id; [exact Hc | lia].
  - unfold wf_frame in Hwf; simpl in Hwf.
    induction cols as [|[n c] r IH]; simpl; [reflexivity|].
    inversion Hwf as [|? ? Hc1 Hr]; subst. simpl in Hc1. f_equal.
    + f_equal. apply keep_unflagged_id; [exact Hc | unfold nrows in Hc1; simpl in Hc1; lia].
    + apply IH. exact Hr.
Qed.

(** Lines 124-142 select the rows that [duplicated] leaves unflagged: when
    nothing is flagged the table is returned as it is. *)
Lemma remove_duplicates_select (f : frame) (ks : list key) :
  wf_frame f -> subset_keys f = Ok ks ->
  remove_duplicates f = Ok (select_unflagged (duplicated ks) f).
Proof.
  intros Hwf Hks. unfold remove_duplicates, drop_duplicates. rewrite Hks. simpl.
  destruct (Nat.ltb 0 (count_flagged (duplicated ks))) eqn:E; [reflexivity|].
  apply Nat.ltb_ge in E. rewrite select_unflagged_id; auto; [lia|].
  unfold duplicated. rewrite duplicated_from_length.
  eapply subset_keys_length; eassumption.
Qed.

(** ** Assigning columns *)

Lemma has_column_matching (f : frame) (name : string) :
  has_column f name = negb (Nat.eqb (length (matching name f)) 0).
Proof.
  unfold has_column, matching, names.
  induction (columns f) as [|[n c] r IH]; simpl; [reflexivity|].
  destruct (String.eqb name n); simpl; [reflexivity | exact IH].
Qed.

Lemma getitem_has_column (f : frame) (name : string) (col : list cell) :
  getitem f name = Ok col -> has_column f name = true.
Proof.
  rewrite has_column_matching. unfold getitem.
  destruct (matching name f) as [|c [|? ?]]; simpl; try discriminate; reflexivity.
Qed.

Lemma has_column_false_getitem (f : frame) (name : string) :
  has_column f name = false -> getitem f name = Raise KeyError.
Proof.
  rewrite has_column_matching. unfold getitem.
  destruct (matching name f) as [|c r]; simpl; [reflexivity | discriminate].
Qed.

Lemma matching_setitem_same (f : frame) (name : string) (v : list cell) :
  matching name (setitem f name v)
  = if has_column f name then map (fun _ => v) (matching name f) else [v].
Proof.
  unfold setitem. destruct (has_column f name) eqn:E.
  - unfold matching; simpl.
    induction (columns f) as [|[n c] r IH]; simpl; [reflexivity|].
    destruct (String.eqb name n) eqn:En; simpl; rewrite En; simpl; now rewrite IH.
  - rewrite has_column_matching in E. unfold matching in *; simpl.
    rewrite List.filter_app, List.map_app; simpl. rewrite String.eqb_refl; simpl.
    destruct (map snd _) as [|? ?]; [reflexivity | discriminate].
Qed.

Lemma matching_setitem_other (f : frame) (name name' : string) (v : list cell) :
  name <> name' ->
  matching name (setitem f name' v) = matching name f.
Proof.
  intros Hne. apply String.eqb_neq in Hne.
  unfold setitem. destruct (has_column f name').
  - unfold matching; simpl.
    induction (columns f) as [|[n c] r IH]; simpl; [reflexivity|].
    destruct (String.eqb name' n) eqn:En; simpl.
    + apply String.eqb_eq in En; subst n. rewrite Hne. exact IH.
    + destruct (String.eqb name n); simpl; now rewrite IH.
  - unfold matching; simpl. rewrite List.filter_app, List.map_app; simpl.
    rewrite Hne; simpl. now rewrite app_nil_r.
Qed.

Lemma getitem_setitem_same (f : frame) (name : string) (col v : list cell) :
  getitem f name = Ok col -> getitem (setitem f name v) name = Ok v.
Proof.
  intros H. pose proof (getitem_has_column _ _ _ H) as Hc.
  unfold getitem in *. rewrite matching_setitem_same, Hc.
  destruct (matching name f) as [|c [|? ?]]; simpl; try discriminate; reflexivity.
Qed.

Lemma getitem_setitem_new (f : frame) (name : string) (v : list cell) :
  has_column f name = false -> getitem (setitem f name v) name = Ok v.
Proof.
  intros Hc. unfold getitem. now rewrite matching_setitem_same, Hc.
Qed.

Lemma getitem_setitem_other (f : frame) (name name' : string) (v : list cell) :
  name <> name' -> getitem (setitem f name' v) name = getitem f name.
Proof.
  intros Hne. unfold getitem. now rewrite matching_setitem_other.
Qed.

Lemma has_column_setitem (f : frame) (name name' : string) (v : list cell) :
  has_column (setitem f name' v) name
  = (String.eqb name name' || has_column f name)%bool.
Proof.
  destruct (String.eqb name name') eqn:E; simpl.
  - apply String.eqb_eq in E; subst name'.
    rewrite has_column_matching, matching_setitem_same.
    destruct (has_column f name) eqn:Hc; [|reflexivity].
    rewrite has_column_matching in Hc. rewrite length_map. exact Hc.
  - apply String.eqb_neq in E.
    rewrite !has_column_matching, matching_setitem_other; auto.
Qed.

Lemma index_setitem (f : frame) (name : string) (v : list cell) :
  index (setitem f name v) = index f.
Proof. unfold setitem. destruct (has_column f name); reflexivity. Qed.

Lemma nrows_setitem (f : frame) (name : string) (v : list cell) :
  nrows (setitem f name v) = nrows f.
Proof. unfold nrows. now rewrite index_setitem. Qed.

Lemma wf_setitem (f : frame) (name : string) (v : list cell) :
  wf_frame f -> length v = nrows f -> wf_frame (setitem f name v).
Proof.
  unfold wf_frame. rewrite nrows_setitem. intros Hwf Hv.
  unfold setitem. destruct (has_column f name); simpl.
  - rewrite List.Forall_forall in *. intros nc Hin.
    apply in_map_iff in Hin as [[n c] [<- Hin]].
    simpl. destruct (String.eqb name n); simpl; [exact Hv | exact (Hwf _ Hin)].
  - apply Forall_app; split; [exact Hwf | repeat constructor; exact Hv].
Qed.

Lemma empty_setitem (f : frame) (name : string) (v : list cell) :
  empty f = false -> empty (setitem f name v) = false.
Proof.
  unfold empty, setitem. intros H. apply orb_false_iff in H as [Hi Hc].
  destruct (has_column f name); simpl; rewrite Hi; simpl.
  - now rewrite length_map.
  - rewrite length_app; simpl. apply Nat.eqb_neq. lia.
Qed.

Lemma index_standardize (f : frame) : index (standardize f) = index f.
Proof. reflexivity. Qed.

Lemma empty_rename_columns (g : string -> string) (f : frame) :
  empty (rename_columns g f) = empty f.
Proof. unfold empty, rename_columns; simpl. now rewrite length_map. Qed.

Lemma wf_rename_columns (g : string -> string) (f : frame) :
  wf_frame f -> wf_frame (rename_columns g f).
Proof.
  unfold wf_frame, rename_columns, nrows; simpl. intros H.
  rewrite List.Forall_forall in *. intros nc Hin.
  apply in_map_iff in Hin as [nc' [<- Hin]]. simpl. exact (H _ Hin).
Qed.

(** ** The normaliser *)

Lemma forallb_map_true {A B} (p : B -> bool) (g : A -> B) (l : list A) :
  (forall a, p (g a) = true) -> forallb p (map g l) = true.
Proof. intros H. induction l; simpl; [reflexivity | now rewrite H, IHl]. Qed.

Lemma clean_listings_ok (l : list listing) :
  clean_listings
    (Frame (range_index (length l))
       [("title", map (fun b => CStr (title b)) l);
        ("price", map (fun b => CStr (price b)) l);
        ("availability", map (fun b => CStr (availability b)) l)])
  = Ok (Frame (range_index (length l))
          [("book_title", map (fun b => CStr (title b)) l);
           ("book_availability", map (fun b => CStr (availability b)) l);
           ("book_price_gbp", map price_cell l)]).
Proof.
  unfold clean_listings, getitem at 1. cbn. unfold str_accessor.
  rewrite forallb_map_true by reflexivity. cbn.
  unfold rename_columns. cbn. repeat f_equal.
  unfold fillna. rewrite !List.map_map. apply map_ext. intros a.
  unfold price_cell, numeric_cell.
  cbn. now destruct (parse_number (remove_pound (price a))) as [[q|b]|].
Qed.

(** Lines 43-73 on a list of listings always succeed and yield the table of
    titles, availabilities and parsed prices. *)
Lemma listings_table_ok (scraped_data : option (list listing)) :
  listings_table scraped_data
  = Ok (book_table (match scraped_data with Some l => l | None => [] end)).
Proof.
  destruct scraped_data as [[|b r]|]; try reflexivity.
  unfold listings_table, scraped_frame.
  assert (Hne : empty (frame_of_listings (b :: r)) = false) by reflexivity.
  rewrite Hne. cbn [negb].
  unfold correct_listing_types, standardize. rewrite empty_rename_columns, Hne.
  cbn [negb].
  unfold rename_columns at 1. unfold frame_of_listings.
  cbn [columns index map fst snd].
  change (standard_name "title") with "title".
  change (standard_name "price") with "price".
  change (standard_name "availability") with "availability".
  apply (clean_listings_ok (b :: r)).
Qed.

Lemma wf_book_table (l : list listing) : wf_frame (book_table l).
Proof.
  destruct l as [|b r]; [constructor|].
  unfold book_table, wf_frame, nrows, range_index. cbn [index columns].
  repeat constructor; cbn [snd]; now rewrite !length_map, ?length_seq.
Qed.

Lemma series_mean_numeric (col : list cell) :
  forallb numeric_or_null col = true -> valid_values col <> [] ->
  series_mean col = Ok (Some (Qred (arithmetic_mean (valid_values col)))).
Proof.
  intros Hn Hv. unfold series_mean, arithmetic_mean. rewrite Hn.
  destruct (valid_values col); [contradiction | reflexivity].
Qed.

Lemma fill_sale_amount_numeric (f : frame) (col : list cell) :
  getitem f "sale_amount" = Ok col ->
  forallb numeric_or_null col = true -> valid_values col <> [] ->
  fill_sale_amount f
  = Ok (setitem f "sale_amount"
          (map (impute (Qred (arithmetic_mean (valid_values col)))) col)).
Proof.
  intros Hg Hn Hv. unfold fill_sale_amount. rewrite Hg. cbn [rbind].
  rewrite (series_mean_numeric _ Hn Hv). reflexivity.
Qed.

(** Line 76, column and cell. *)
Lemma collect_ok {A} (rs : list (result A)) (l : list A) :
  collect rs = Ok l <-> Forall2 (fun r a => r = Ok a) rs l.
Proof.
  revert l. induction rs as [|r rs IH]; intros l; cbn [collect].
  - split.
    + intros [= <-]. constructor.
    + intros H. inversion H. reflexivity.
  - split.
    + intros H. apply rbind_ok in H as (a & -> & H).
      apply rbind_ok in H as (l' & Hl & [= <-]).
      constructor; [reflexivity | now apply IH].
    + intros H. inversion H as [|r' a rs' l' Hr Hrest]; subst.
      apply IH in Hrest. cbn [rbind]. now rewrite Hrest.
Qed.

Lemma product_id_cell_infinite (c : cell) :
  infinite_id c = true -> product_id_cell c = Raise ValueError.
Proof.
  unfold infinite_id, product_id_cell, product_id_number.
  destruct c; cbn [to_numeric]; try discriminate.
  - reflexivity.
  - now destruct (parse_number s) as [[q|b]|].
Qed.

Lemma product_id_column_ok (p ids : list cell) :
  product_id_column p = Ok ids <->
  Forall2 (fun c id => product_id_cell c = Ok id) p ids.
Proof.
  unfold product_id_column. split.
  - destruct (existsb infinite_id p); [discriminate|].
    intros H. apply collect_ok in H.
    apply Forall2_fmap_l in H. exact H.
  - intros H.
    assert (Hf : existsb infinite_id p = false).
    { clear -H. induction H as [|c id p ids Hc _ IH]; [reflexivity|].
      cbn [existsb]. rewrite IH.
      destruct (infinite_id c) eqn:E; [|reflexivity].
      rewrite (product_id_cell_infinite c E) in Hc. discriminate. }
    rewrite Hf. apply collect_ok. apply Forall2_fmap_l. exact H.
Qed.

Lemma product_id_column_length (p ids : list cell) :
  product_id_column p = Ok ids -> length ids = length p.
Proof.
  intros H. apply product_id_column_ok in H.
  symmetry. exact (Forall2_length _ _ _ H).
Qed.

Lemma product_id_column_infinite (p : list cell) :
  existsb infinite_id p = true -> product_id_column p = Raise ValueError.
Proof. intros H. unfold product_id_column. now rewrite H. Qed.

(** On a non-empty table lines 74-76 are the two assignments of lines 75
    and 76, as [normalize_sales] and [body] run them. *)
Lemma correct_sales_types_steps (f : frame) :
  empty f = false ->
  correct_sales_types f = rbind (coerce_sale_date f) coerce_product_id.
Proof. intros He. unfold correct_sales_types. now rewrite He. Qed.

Lemma correct_sales_types_ok (f : frame) (d p ids : list cell) :
  empty f = false ->
  getitem f "sale_date" = Ok d -> getitem f "product_id" = Ok p ->
  product_id_column p = Ok ids ->
  exists f', correct_sales_types f = Ok f' /\
    getitem f' "sale_date" = Ok (map (datetime_cell d) d) /\
    getitem f' "product_id" = Ok ids.
Proof.
  intros He Hd Hp Hids. unfold correct_sales_types. rewrite He. cbn [negb].
  unfold coerce_sale_date. rewrite Hd. cbn [rbind].
  unfold coerce_product_id.
  rewrite getitem_setitem_other by discriminate. rewrite Hp. cbn [rbind].
  rewrite Hids. cbn [rbind].
  eexists; split; [reflexivity|]. split.
  - rewrite getitem_setitem_other by discriminate.
    eapply getitem_setitem_same; eassumption.
  - eapply getitem_setitem_same.
    rewrite getitem_setitem_other by discriminate. eassumption.
Qed.

(** ** The weather broadcast *)

Lemma In_has_column (f : frame) (name : string) (c : list cell) :
  In (name, c) (columns f) -> has_column f name = true.
Proof.
  unfold has_column, names. intros H. apply existsb_exists.
  exists name. split; [|apply String.eqb_refl].
  apply in_map_iff. exists (name, c). auto.
Qed.

Lemma column_is_setitem (f : frame) (name : string) (v : list cell) :
  column_is (setitem f name v) name v.
Proof.
  split.
  - rewrite has_column_setitem, String.eqb_refl. reflexivity.
  - intros c. unfold setitem. destruct (has_column f name) eqn:E; simpl.
    + intros H. apply in_map_iff in H as [[n c'] [Heq Hin]]. simpl in Heq.
      destruct (String.eqb name n) eqn:En.
      * now inversion Heq.
      * inversion Heq; subst. rewrite String.eqb_refl in En. discriminate.
    + intros H. apply in_app_iff in H as [H|[H|[]]].
      * apply In_has_column in H. congruence.
      * now inversion H.
Qed.

Lemma column_is_setitem_other (f : frame) (name name' : string) (v v' : list cell) :
  name <> name' -> column_is f name v -> column_is (setitem f name' v') name v.
Proof.
  intros Hne [Hc Hv]. split.
  - rewrite has_column_setitem, Hc. apply orb_true_r.
  - intros c. unfold setitem. destruct (has_column f name'); simpl.
    + intros H. apply in_map_iff in H as [[n c'] [Heq Hin]]. simpl in Heq.
      destruct (String.eqb name' n) eqn:En.
      * apply String.eqb_eq in En. inversion Heq; subst. contradiction.
      * inversion Heq; subst. now apply Hv.
    + intros H. apply in_app_iff in H as [H|[H|[]]].
      * now apply Hv.
      * inversion H; subst. contradiction.
Qed.

Lemma names_weather_inv (cols : list (string * list cell)) :
  map fst cols = weather_columns ->
  exists c1 c2 c3 c4 c5 c6,
    cols = [("city", c1); ("temperature_celsius", c2); ("weather_condition", c3);
            ("humidity_percent", c4); ("wind_speed_m_s", c5);
            ("report_timestamp", c6)].
Proof.
  unfold weather_columns. intros H.
  repeat (destruct cols as [|[? ?] cols]; simpl in H; try discriminate;
          try (injection H as <- H)).
  eauto 7.
Qed.

(** The loop of lines 96-97 on a weather table with at least one row:
    every weather column of the outcome repeats the first weather row. *)
Lemma broadcast_weather_rows (weather_df sales_df : frame) :
  names weather_df = weather_columns -> wf_frame weather_df ->
  nrows weather_df <> 0%nat ->
  exists out, broadcast_weather weather_df sales_df = Ok out /\
    index out = index sales_df /\
    forall name col v, In (name, col) (columns weather_df) ->
      col !! 0%nat = Some v ->
      column_is out name (replicate (nrows sales_df) v).
Proof.
  destruct weather_df as [idx cols]. unfold names, nrows; cbn [columns index].
  intros Hn Hwf Hrows.
  apply names_weather_inv in Hn as (c1 & c2 & c3 & c4 & c5 & c6 & ->).
  unfold wf_frame, nrows in Hwf; cbn [columns index] in Hwf.
  destruct idx as [|i0 idx]; [contradiction|].
  repeat match goal with
         | H : Forall _ (_ :: _) |- _ =>
             let H1 := fresh "L" in
             apply Forall_cons in H as [H1 H]; cbn [snd length] in H1
         end.
  destruct c1 as [|v1 c1], c2 as [|v2 c2], c3 as [|v3 c3], c4 as [|v4 c4],
    c5 as [|v5 c5], c6 as [|v6 c6]; try discriminate.
  eexists. split; [reflexivity|]. split.
  - rewrite !index_setitem. reflexivity.
  - rewrite !nrows_setitem.
    intros name col v Hin Hv.
    cbn [In] in Hin.
    repeat (destruct Hin as [Hin|Hin];
            [injection Hin as <- <-; cbn in Hv; injection Hv as <-;
             repeat (first [ apply column_is_setitem
                           | apply column_is_setitem_other; [discriminate|] ])
            |]).
    contradiction.
Qed.

Lemma broadcast_weather_no_rows (weather_df sales_df : frame) :
  nrows weather_df = 0%nat ->
  broadcast_weather weather_df sales_df = Ok sales_df.
Proof.
  unfold broadcast_weather, empty, nrows. intros ->. reflexivity.
Qed.

(** ** The index join *)

Lemma index_position_Some (lab : Z) (idx : list Z) (k : nat) :
  index_position lab idx = Some k ->
  idx !! k = Some lab /\ forall j, (j < k)%nat -> idx !! j <> Some lab.
Proof.
  revert k. induction idx as [|l r IH]; intros k; simpl; [discriminate|].
  destruct (Z.eqb lab l) eqn:E.
  - intros [= <-]. apply Z.eqb_eq in E. subst. split; [reflexivity | intros j Hj; lia].
  - destruct (index_position lab r) as [k'|]; simpl; [|discriminate].
    intros [= <-]. destruct (IH k' eq_refl) as [H1 H2]. split; [exact H1|].
    intros [|j] Hj; simpl.
    + apply Z.eqb_neq in E. congruence.
    + apply H2. lia.
Qed.

Lemma index_position_None (lab : Z) (idx : list Z) :
  index_position lab idx = None -> forall k, idx !! k <> Some lab.
Proof.
  induction idx as [|l r IH]; simpl; [intros _ k; discriminate|].
  destruct (Z.eqb lab l) eqn:E; [discriminate|].
  destruct (index_position lab r) as [k'|]; simpl; [discriminate|].
  intros _ [|k]; simpl.
  - apply Z.eqb_neq in E. congruence.
  - now apply IH.
Qed.

Lemma index_position_seq (i s m : nat) :
  index_position (Z.of_nat i) (map Z.of_nat (seq s m))
  = if (Nat.leb s i && Nat.ltb i (s + m))%bool then Some (i - s)%nat else None.
Proof.
  revert s. induction m as [|m IH]; intros s; simpl.
  - destruct (Nat.leb s i) eqn:E1; simpl; [|reflexivity].
    destruct (Nat.ltb i (s + 0)) eqn:E2; [|reflexivity].
    apply Nat.leb_le in E1. apply Nat.ltb_lt in E2. lia.
  - destruct (Z.eqb (Z.of_nat i) (Z.of_nat s)) eqn:E.
    + apply Z.eqb_eq in E. apply Nat2Z.inj in E. subst s.
      rewrite Nat.leb_refl. simpl.
      replace (Nat.ltb i (i + S m)) with true by (symmetry; apply Nat.ltb_lt; lia).
      now rewrite Nat.sub_diag.
    + apply Z.eqb_neq in E. rewrite IH.
      destruct (Nat.leb_spec (S s) i), (Nat.ltb_spec i (S s + m)),
        (Nat.leb_spec s i), (Nat.ltb_spec i (s + S m));
        simpl; try lia; try reflexivity; try (f_equal; lia);
        try (exfalso; apply E; f_equal; lia).
Qed.

Lemma index_position_range (i m : nat) :
  index_position (Z.of_nat i) (range_index m)
  = if Nat.ltb i m then Some i else None.
Proof.
  unfold range_index. rewrite index_position_seq. simpl.
  now rewrite Nat.sub_0_r.
Qed.

(** On default indexes the label match is the position match. *)
Lemma take_rows_range (n m : nat) (col : list cell) :
  length col = m ->
  take_rows (map (fun lab => index_position lab (range_index m)) (range_index n)) col
  = pad_rows n col.
Proof.
  intros Hl. unfold take_rows, pad_rows, range_index at 2.
  rewrite !List.map_map. apply map_ext. intros i.
  rewrite index_position_range.
  destruct (Nat.ltb i m) eqn:E; [reflexivity|].
  apply Nat.ltb_ge in E. rewrite lookup_ge_None_2 by lia. reflexivity.
Qed.

Lemma merge_default_index (left right : frame) (n m : nat) :
  index left = range_index n -> index right = range_index m ->
  wf_frame right ->
  merge_left_index left right = positional_join left right.
Proof.
  intros Hl Hr Hwf. unfold merge_left_index, positional_join.
  f_equal. f_equal.
  unfold wf_frame in Hwf. rewrite List.Forall_forall in Hwf.
  apply map_ext_in. intros [name col] Hin. f_equal. cbn [snd].
  rewrite Hl, Hr. rewrite (take_rows_range n m).
  - unfold nrows. rewrite Hl. unfold range_index.
    now rewrite length_map, length_seq.
  - specialize (Hwf _ Hin). cbn [snd] in Hwf. rewrite Hwf.
    unfold nrows. rewrite Hr. unfold range_index.
    now rewrite length_map, length_seq.
Qed.

Lemma pad_rows_lookup (n : nat) (col : list cell) (i : nat) :
  (i < n)%nat -> pad_rows n col !! i = Some (default CNull (col !! i)).
Proof.
  intros Hi. unfold pad_rows. rewrite list_lookup_fmap.
  rewrite lookup_seq_lt by exact Hi. reflexivity.
Qed.

Lemma take_rows_lookup (pos : list (option nat)) (col : list cell) (i : nat)
      (p : option nat) :
  pos !! i = Some p ->
  take_rows pos col !! i
  = Some (match p with Some k => default CNull (col !! k) | None => CNull end).
Proof.
  intros Hp. unfold take_rows. rewrite list_lookup_fmap, Hp. reflexivity.
Qed.

(** Row [i] of the merge takes, in every column the right table
    contributes, the cell of the right row that carries the same label as
    the left row [i]. *)
Lemma merge_pairs_by_label (left right : frame) (i : nat) (lab : Z)
      (j : nat) (name : string) (col : list cell) :
  index left !! i = Some lab -> columns right !! j = Some (name, col) ->
  exists name' col',
    columns (merge_left_index left right) !! (length (columns left) + j)%nat
    = Some (name', col') /\
    col' !! i
    = Some (match index_position lab (index right) with
            | Some k => default CNull (col !! k)
            | None => CNull
            end).
Proof.
  intros Hi Hj. unfold merge_left_index. cbn [columns].
  rewrite lookup_app_r by (rewrite length_map; lia).
  rewrite length_map. replace (_ + j - _)%nat with j by lia.
  rewrite list_lookup_fmap, Hj. cbn.
  eexists _, _. split; [reflexivity|].
  apply take_rows_lookup. rewrite list_lookup_fmap, Hi. reflexivity.
Qed.

Lemma nrows_join_listings (merged_df scraped_df : frame) :
  index (join_listings merged_df scraped_df) = index merged_df.
Proof. unfold join_listings. destruct (negb (empty scraped_df)); reflexivity. Qed.

(** ** Shape of the in-place statements *)

Lemma keeps_shape_setitem_map (name name' : string) (h : list cell -> cell -> cell)
      (guard : list cell -> result unit) :
  keeps_shape (fun f =>
    (col <~ getitem f name ;; _ <~ guard col ;;
     Ok (setitem f name' (map (h col) col)))%res).
Proof.
  intros f f' H. apply rbind_ok in H as [col [Hc H]].
  apply rbind_ok in H as [u [_ H]]. injection H as <-.
  split; [apply index_setitem|]. split; [apply empty_setitem|].
  intros Hwf. apply wf_setitem; [exact Hwf|].
  rewrite length_map. eapply getitem_length; eassumption.
Qed.

Lemma keeps_shape_coerce_sale_date : keeps_shape coerce_sale_date.
Proof.
  intros f f' H.
  apply (keeps_shape_setitem_map "sale_date" "sale_date" datetime_cell (fun _ => Ok tt)).
  exact H.
Qed.

Lemma keeps_shape_coerce_product_id : keeps_shape coerce_product_id.
Proof.
  intros f f' H. apply rbind_ok in H as [col [Hc H]].
  apply rbind_ok in H as [ids [Hids H]]. injection H as <-.
  split; [apply index_setitem|]. split; [apply empty_setitem|].
  intros Hwf. apply wf_setitem; [exact Hwf|].
  rewrite (product_id_column_length _ _ Hids).
  eapply getitem_length; eassumption.
Qed.

Lemma keeps_shape_add_sale_month : keeps_shape add_sale_month.
Proof.
  intros f f' H.
  apply (keeps_shape_setitem_map "sale_date" "sale_month"
           (fun _ => month_cell) dt_accessor).
  exact H.
Qed.

Lemma keeps_shape_add_sale_day_name : keeps_shape add_sale_day_name.
Proof.
  intros f f' H.
  apply (keeps_shape_setitem_map "sale_date" "sale_day_name"
           (fun _ => day_name_cell) dt_accessor).
  exact H.
Qed.

Lemma fillna_float_length (v : option Q) (col : list cell) :
  length (fillna_float v col) = length col.
Proof. destruct v; simpl; [apply length_map | reflexivity]. Qed.

Lemma keeps_shape_fill_sale_amount : keeps_shape fill_sale_amount.
Proof.
  intros f f' H. unfold fill_sale_amount in H.
  apply rbind_ok in H as [col [Hc H]].
  apply rbind_ok in H as [m [_ H]]. injection H as <-.
  split; [apply index_setitem|]. split; [apply empty_setitem|].
  intros Hwf. apply wf_setitem; [exact Hwf|].
  rewrite fillna_float_length. eapply getitem_length; eassumption.
Qed.

Lemma keeps_shape_broadcast_column (weather_df : frame) (col : string) :
  keeps_shape (broadcast_column weather_df col).
Proof.
  intros f f' H. unfold broadcast_column in H.
  apply rbind_ok in H as [s [_ H]].
  apply rbind_ok in H as [v [_ H]]. injection H as <-.
  split; [apply index_setitem|]. split; [apply empty_setitem|].
  intros Hwf. apply wf_setitem; [exact Hwf|]. apply length_replicate.
Qed.

Lemma keeps_shape_broadcast_columns (weather_df : frame) (cols : list string) :
  keeps_shape (broadcast_columns weather_df cols).
Proof.
  induction cols as [|c r IH]; intros f f' H; simpl in H.
  - injection H as <-. auto.
  - apply rbind_ok in H as [f1 [H1 H]].
    destruct (keeps_shape_broadcast_column _ _ _ _ H1) as (A1 & A2 & A3).
    destruct (IH _ _ H) as (B1 & B2 & B3).
    split; [congruence|]. split; auto.
Qed.

Lemma keeps_shape_broadcast_weather (weather_df : frame) :
  keeps_shape (broadcast_weather weather_df).
Proof.
  intros f f' H. unfold broadcast_weather in H.
  destruct (negb (empty weather_df)).
  - eapply keeps_shape_broadcast_columns; eassumption.
  - injection H as <-. auto.
Qed.

Lemma keeps_shape_normalize_sales : keeps_shape normalize_sales.
Proof.
  intros f f' H. unfold normalize_sales in H. cbv zeta in H.
  apply rbind_ok in H as [f2 [H2 H]].
  apply rbind_ok in H as [f3 [H3 H]].
  apply rbind_ok in H as [f4 [H4 H]].
  assert (S1 : index f2 = index f /\ (empty f = false -> empty f2 = false) /\
               (wf_frame f -> wf_frame f2)).
  { destruct (has_column (standardize f) "sale_amount").
    - destruct (keeps_shape_fill_sale_amount _ _ H2) as (A & B & C).
      unfold standardize in *. rewrite empty_rename_columns in B.
      split; [exact A|]. split; [exact B|].
      intros Hwf. apply C. now apply wf_rename_columns.
    - injection H2 as <-. unfold standardize. rewrite empty_rename_columns.
      split; [reflexivity|]. split; [auto|]. apply wf_rename_columns. }
  destruct S1 as (A1 & A2 & A3).
  destruct (keeps_shape_coerce_sale_date _ _ H3) as (B1 & B2 & B3).
  destruct (keeps_shape_coerce_product_id _ _ H4) as (C1 & C2 & C3).
  destruct (has_column f4 "sale_date").
  - apply rbind_ok in H as [f5 [H5 H]].
    destruct (keeps_shape_add_sale_month _ _ H5) as (D1 & D2 & D3).
    destruct (keeps_shape_add_sale_day_name _ _ H) as (E1 & E2 & E3).
    split; [congruence|]. split; eauto 10.
  - injection H as <-. split; [congruence|]. split; eauto 10.
Qed.

(** ** The statements on the sales object *)

Lemma for_each_broadcast_ok (weather_df : frame) (cols : list string)
      (f f' : frame) (u : unit) :
  for_each cols (fun col => assign (broadcast_column weather_df col)) f = (Ok u, f') ->
  broadcast_columns weather_df cols f = Ok f'.
Proof.
  revert f. induction cols as [|c r IH]; intros f; simpl.
  - unfold fret. now intros [= _ ->].
  - unfold fbind, assign.
    destruct (broadcast_column weather_df c f) as [f1| |]; simpl;
      [apply IH | discriminate | discriminate].
Qed.

Lemma for_each_broadcast_run (weather_df : frame) (cols : list string)
      (f f' : frame) :
  broadcast_columns weather_df cols f = Ok f' ->
  for_each cols (fun col => assign (broadcast_column weather_df col)) f = (Ok tt, f').
Proof.
  revert f. induction cols as [|c r IH]; intros f; simpl.
  - unfold fret. now intros [= ->].
  - unfold fbind, assign.
    destruct (broadcast_column weather_df c f) as [f1| |]; simpl;
      [apply IH | discriminate | discriminate].
Qed.

(** On an empty sales object the block changes nothing and hands back a new
    empty table, once the listings have been normalised. *)
Lemma body_empty (weather_df scraped_df f : frame) :
  empty f = true ->
  body weather_df scraped_df f
  = (rbind (correct_listing_types
              (if negb (empty scraped_df) then standardize scraped_df else scraped_df))
           (fun _ => Ok (Fresh empty_frame)), f).
Proof.
  intros He. unfold body, fbind, peek, fret, flift. cbv zeta.
  rewrite He. lazy beta iota delta [negb andb].
  destruct (correct_listing_types _); cbn [rbind];
    repeat (rewrite He; lazy beta iota delta [negb andb]); reflexivity.
Qed.

Lemma fbind_ok {A B} (m : F A) (k : A -> F B) (f f' : frame) (b : B) :
  fbind m k f = (Ok b, f') ->
  exists a f1, m f = (Ok a, f1) /\ k a f1 = (Ok b, f').
Proof.
  unfold fbind. destruct (m f) as [[a| |] f1]; try discriminate. eauto.
Qed.

Lemma assign_ok (g : frame -> result frame) (f f1 : frame) (u : unit) :
  assign g f = (Ok u, f1) -> g f = Ok f1.
Proof. unfold assign. destruct (g f); try discriminate. now intros [= _ ->]. Qed.

Lemma peek_ok (f f1 a : frame) : peek f = (Ok a, f1) -> a = f /\ f1 = f.
Proof. unfold peek. now intros [= -> ->]. Qed.

Lemma flift_ok {A} (r : result A) (f f1 : frame) (a : A) :
  flift r f = (Ok a, f1) -> r = Ok a /\ f1 = f.
Proof. unfold flift. now intros [= -> ->]. Qed.

Lemma fret_ok {A} (x a : A) (f f1 : frame) :
  fret x f = (Ok a, f1) -> a = x /\ f1 = f.
Proof. unfold fret. now intros [= -> ->]. Qed.

(** A normal run of the block on a non-empty sales object: the object ends
    as the normalised table with the weather broadcast into it, and the
    block hands back that table joined with the listings, without its
    duplicates. *)
Lemma body_nonempty_ok (weather_df scraped_df f f' : frame) (t : table) :
  empty f = false ->
  body weather_df scraped_df f = (Ok t, f') ->
  exists norm books,
    normalize_sales f = Ok norm /\
    correct_listing_types
      (if negb (empty scraped_df) then standardize scraped_df else scraped_df)
    = Ok books /\
    broadcast_weather
      (if negb (empty weather_df) then standardize weather_df else weather_df) norm
    = Ok f' /\
    remove_duplicates (join_listings f' books) = Ok (table_value t f').
Proof.
  intros He H. unfold body in H. cbv zeta in H.
  set (wdf := if negb (empty weather_df) then standardize weather_df else weather_df) in *.
  set (sdf := if negb (empty scraped_df) then standardize scraped_df else scraped_df) in *.
  apply fbind_ok in H as (s0 & f0 & P & H). apply peek_ok in P as [-> ->].
  rewrite He in H. cbn [negb] in H.
  apply fbind_ok in H as (u1 & f1 & P & H). apply assign_ok in P.
  injection P as <-.
  assert (E1 : empty (standardize f) = false)
    by (unfold standardize; now rewrite empty_rename_columns).
  apply fbind_ok in H as (s1 & f1' & P & H). apply peek_ok in P as [-> ->].
  rewrite E1 in H. cbn [negb andb] in H.
  apply fbind_ok in H as (u2 & f2 & P2 & H).
  assert (S2 : (if has_column (standardize f) "sale_amount"
                then fill_sale_amount (standardize f) else Ok (standardize f)) = Ok f2).
  { destruct (has_column (standardize f) "sale_amount");
      [now apply assign_ok in P2 | now apply fret_ok in P2 as [_ ->]]. }
  assert (E2 : empty f2 = false).
  { destruct (has_column (standardize f) "sale_amount").
    - now apply (keeps_shape_fill_sale_amount _ _ S2).
    - now injection S2 as <-. }
  clear P2.
  apply fbind_ok in H as (books & f2' & P & H). apply flift_ok in P as [Hb ->].
  apply fbind_ok in H as (s2 & f2' & P & H). apply peek_ok in P as [-> ->].
  rewrite E2 in H. cbn [negb] in H.
  apply fbind_ok in H as (u3 & f4 & P & H).
  apply fbind_ok in P as (u3' & f3 & P3 & P4).
  apply assign_ok in P3, P4.
  assert (E3 : empty f3 = false) by now apply (keeps_shape_coerce_sale_date _ _ P3).
  assert (E4 : empty f4 = false) by now apply (keeps_shape_coerce_product_id _ _ P4).
  apply fbind_ok in H as (s4 & f4' & P & H). apply peek_ok in P as [-> ->].
  rewrite E4 in H. cbn [negb andb] in H.
  apply fbind_ok in H as (u5 & f5 & P5 & H).
  assert (S5 : (if has_column f4 "sale_date"
                then rbind (add_sale_month f4) add_sale_day_name else Ok f4) = Ok f5).
  { destruct (has_column f4 "sale_date").
    - apply fbind_ok in P5 as (u & g & Q1 & Q2). apply assign_ok in Q1, Q2.
      now rewrite Q1.
    - now apply fret_ok in P5 as [_ ->]. }
  assert (E5 : empty f5 = false).
  { destruct (has_column f4 "sale_date").
    - apply rbind_ok in S5 as (g & Q1 & Q2).
      apply (keeps_shape_add_sale_day_name _ _ Q2).
      now apply (keeps_shape_add_sale_month _ _ Q1).
    - now injection S5 as <-. }
  clear P5.
  apply fbind_ok in H as (s5 & f5' & P & H). apply peek_ok in P as [-> ->].
  rewrite E5 in H.
  apply fbind_ok in H as (u6 & f6 & P6 & H).
  assert (S6 : broadcast_weather wdf f5 = Ok f6).
  { unfold broadcast_weather. destruct (negb (empty wdf)).
    - now apply for_each_broadcast_ok in P6.
    - now apply fret_ok in P6 as [_ ->]. }
  clear P6.
  apply fbind_ok in H as (m & f6' & P & H). apply peek_ok in P as [-> ->].
  cbv zeta in H.
  apply fbind_ok in H as (ks & f6' & P & H). apply flift_ok in P as [Hks ->].
  assert (J : table_value (if negb (empty books)
                           then Fresh (merge_left_index f6 books) else Same) f6
              = join_listings f6 books).
  { unfold join_listings. now destruct (negb (empty books)). }
  rewrite J in *.
  assert (Hfin : f' = f6 /\
                 remove_duplicates (join_listings f6 books) = Ok (table_value t f6)).
  { unfold remove_duplicates. rewrite Hks. cbn [rbind].
    destruct (Nat.ltb 0 (count_flagged (duplicated ks))).
    - apply fbind_ok in H as (c & f6' & P & H). apply flift_ok in P as [Hc ->].
      apply fret_ok in H as [-> ->]. split; [reflexivity | exact Hc].
    - apply fret_ok in H as [-> ->]. split; [reflexivity | now rewrite J]. }
  destruct Hfin as [-> Hfin].
  exists f5, books. split.
  { unfold normalize_sales. cbv zeta. rewrite S2. cbn [rbind].
    rewrite P3. cbn [rbind]. rewrite P4. cbn [rbind]. exact S5. }
  split; [exact Hb|]. split; [exact S6 | exact Hfin].
Qed.

(** ** The claims on the stages *)

Lemma unflagged_from_In (n : nat) (mask : list bool) (i : nat) :
  In i (unflagged_from n mask) <->
  exists j, i = (n + j)%nat /\ mask !! j = Some false.
Proof.
  revert n. induction mask as [|m ms IH]; intros n; cbn [unflagged_from].
  - split; [intros [] | intros (j & _ & H); discriminate].
  - assert (Htail : In i (unflagged_from (S n) ms) <->
                    exists j, i = (n + S j)%nat /\ ms !! j = Some false).
    { rewrite IH. split; intros (j & -> & H); exists j; split; auto; lia. }
    destruct m; cbn [In]; rewrite ?Htail; split.
    + intros (j & -> & H). now exists (S j).
    + intros ([|j] & -> & H); [discriminate | now exists j].
    + intros [<-|(j & -> & H)]; [exists 0%nat | exists (S j)]; split; auto; lia.
    + intros ([|j] & -> & H); [left; lia | right; now exists j].
Qed.

Lemma unflagged_from_increasing (n : nat) (mask : list bool) (a b i j : nat) :
  unflagged_from n mask !! a = Some i -> unflagged_from n mask !! b = Some j ->
  (a < b)%nat -> (i < j)%nat.
Proof.
  revert n a b. induction mask as [|m ms IH]; intros n a b Ha Hb Hlt;
    cbn [unflagged_from] in *; [discriminate|].
  destruct m; [now apply (IH (S n) a b)|].
  destruct b as [|b]; [lia|]. cbn in Hb.
  destruct a as [|a]; cbn in Ha.
  - injection Ha as <-.
    apply list_elem_of_lookup_2, list_elem_of_In, unflagged_from_In in Hb.
    destruct Hb as (j' & -> & _). lia.
  - apply (IH (S n) a b Ha Hb). lia.
Qed.

(** The entries a mask keeps are the entries at the positions it does not
    flag, in order. *)
Lemma keep_unflagged_positions {A} (n : nat) (mask : list bool) (l : list A) :
  length mask = length l ->
  Forall2 (fun x i => exists j, i = (n + j)%nat /\ l !! j = Some x)
    (keep_unflagged mask l) (unflagged_from n mask).
Proof.
  revert n l. induction mask as [|m ms IH]; intros n [|x xs] Hlen;
    try discriminate; cbn [keep_unflagged unflagged_from]; [constructor|].
  cbn [length] in Hlen. injection Hlen as Hlen.
  assert (Htail : Forall2 (fun y i => exists j, i = (n + j)%nat /\
                                                (x :: xs) !! j = Some y)
                    (keep_unflagged ms xs) (unflagged_from (S n) ms)).
  { eapply Forall2_impl; [apply (IH (S n) xs Hlen)|].
    intros y i (j & -> & Hj). exists (S j). split; [lia | exact Hj]. }
  destruct m; [exact Htail|].
  constructor; [|exact Htail]. exists 0%nat. split; [lia | reflexivity].
Qed.

Lemma keep_unflagged_at {A} (mask : list bool) (l : list A) :
  length mask = length l ->
  Forall2 (fun x i => l !! i = Some x)
    (keep_unflagged mask l) (unflagged_from 0 mask).
Proof.
  intros Hlen. eapply Forall2_impl; [apply (keep_unflagged_positions 0 _ _ Hlen)|].
  intros x i (j & -> & Hj). exact Hj.
Qed.

(** C3: the Deduplicator groups the rows of the joined table by the
    composite key (product_id, sale_date, sale_amount).  The table it
    returns consists of the rows at the positions [kept], in increasing
    order: its index and every one of its columns hold exactly the entries
    of the input at those positions, under the same column labels.  A
    position is kept exactly when no earlier row has an equal key (the
    first row of its group), so that every other row is dropped, and every
    row has a kept row of equal key at or before it. *)
Theorem C3_dedup_keeps_first_of_each_group (f : frame) (ks : list key) :
  wf_frame f -> subset_keys f = Ok ks ->
  exists out kept,
    remove_duplicates f = Ok out /\
    (forall a b i j, kept !! a = Some i -> kept !! b = Some j ->
                     (a < b)%nat -> (i < j)%nat) /\
    (forall i, In i kept <->
       exists k, ks !! i = Some k /\
         forall j k', (j < i)%nat -> ks !! j = Some k' -> key_eqb k k' = false) /\
    (forall i k, ks !! i = Some k ->
       exists j k', (j <= i)%nat /\ In j kept /\ ks !! j = Some k' /\
                    key_eqb k k' = true) /\
    Forall2 (fun lab i => index f !! i = Some lab) (index out) kept /\
    Forall2 (fun nc' nc =>
               fst nc' = fst nc /\
               Forall2 (fun c i => snd nc !! i = Some c) (snd nc') kept)
      (columns out) (columns f).
Proof.
  intros Hwf Hks.
  assert (Hlen : length (duplicated ks) = nrows f).
  { unfold duplicated. rewrite duplicated_from_length.
    eapply subset_keys_length; eassumption. }
  assert (Hlk : length ks = nrows f) by (eapply subset_keys_length; eassumption).
  exists (select_unflagged (duplicated ks) f), (unflagged_from 0 (duplicated ks)).
  split; [now apply remove_duplicates_select|].
  split; [intros a b i j; apply unflagged_from_increasing|].
  split.
  { intros i. rewrite unflagged_from_In. split.
    - intros (j & -> & Hj). cbn [Nat.add] in *.
      assert (Hi : is_Some (ks !! j)).
      { apply lookup_lt_is_Some. apply lookup_lt_Some in Hj. lia. }
      destruct Hi as [k Hk]. exists k. split; [exact Hk|].
      destruct (duplicated_from_spec [] ks j k Hk) as (b & Hb & Hiff).
      unfold duplicated in Hj. rewrite Hj in Hb. injection Hb as <-.
      now apply (proj1 Hiff eq_refl).
    - intros (k & Hk & Hfirst). exists i. split; [reflexivity|].
      destruct (duplicated_from_spec [] ks i k Hk) as (b & Hb & Hiff).
      unfold duplicated. rewrite Hb. f_equal. apply Hiff.
      split; [intros k' [] | exact Hfirst]. }
  split.
  { intros i k Hi.
    destruct (first_of_group_kept ks i k Hi) as (j & k' & Hle & Hj & Heq & Hkept).
    exists j, k'. split; [exact Hle|]. split; [|split; assumption].
    apply unflagged_from_In. now exists j. }
  split.
  { unfold select_unflagged. cbn [index]. apply keep_unflagged_at.
    exact Hlen. }
  unfold select_unflagged; cbn [columns].
  unfold wf_frame in Hwf.
  induction Hwf as [|[n c] r Hc _ IH]; cbn [map]; constructor; [|exact IH].
  split; [reflexivity|]. cbn [fst snd] in *. apply keep_unflagged_at.
  now rewrite Hlen.
Qed.

(** C5: the Broadcast Merger.  For a weather table with the six weather
    columns, the outcome has the index (hence the row count) of the sales
    table; when the weather table has a row, every weather column of the
    outcome repeats the value of the first weather row on every row; when it
    has no row, the sales table passes through unchanged. *)
Theorem C5_broadcast_first_weather_row (weather_df sales_df : frame) :
  names weather_df = weather_columns -> wf_frame weather_df ->
  exists out, broadcast_weather weather_df sales_df = Ok out /\
    nrows out = nrows sales_df /\
    (nrows weather_df <> 0%nat ->
     forall name col v, In (name, col) (columns weather_df) ->
       col !! 0%nat = Some v ->
       column_is out name (replicate (nrows sales_df) v)) /\
    (nrows weather_df = 0%nat -> out = sales_df).
Proof.
  intros Hn Hwf. destruct (Nat.eq_dec (nrows weather_df) 0%nat) as [Hz|Hnz].
  - exists sales_df. split; [now apply broadcast_weather_no_rows|].
    split; [reflexivity|]. split; [contradiction | reflexivity].
  - destruct (broadcast_weather_rows weather_df sales_df Hn Hwf Hnz)
      as (out & Ho & Hi & Hc).
    exists out. split; [exact Ho|]. split; [unfold nrows; now rewrite Hi|].
    split; [intros _; exact Hc | contradiction].
Qed.

Lemma in_int64_bounds (z : Z) :
  in_int64 z = true <-> int64_min <= z <= int64_max.
Proof. unfold in_int64. rewrite andb_true_iff, !Z.leb_le. reflexivity. Qed.

Lemma Qtruncate_inject_Z (z : Z) : Qtruncate (inject_Z z) = z.
Proof. unfold Qtruncate, inject_Z. cbn [Qnum Qden]. apply Z.quot_1_r. Qed.

Lemma exact_in_float64_bounds (z : Z) :
  exact_in_float64 z = true <-> - 2 ^ 53 <= z <= 2 ^ 53.
Proof. unfold exact_in_float64. rewrite Z.leb_le. lia. Qed.

Lemma exact_in_int64 (z : Z) : exact_in_float64 z = true -> in_int64 z = true.
Proof.
  rewrite exact_in_float64_bounds, in_int64_bounds.
  unfold int64_min, int64_max. lia.
Qed.

Lemma cast_int64_integer (z : Z) :
  in_int64 z = true -> cast_int64 (Finite (inject_Z z)) = Ok (CInt z).
Proof. intros H. unfold cast_int64. now rewrite Qtruncate_inject_Z, H. Qed.

Lemma product_id_cell_integer (z : Z) :
  exact_in_float64 z = true -> product_id_cell (CInt z) = Ok (CInt z).
Proof.
  intros E. unfold product_id_cell, product_id_number. rewrite E.
  cbn [rbind]. apply cast_int64_integer. now apply exact_in_int64.
Qed.

(** The outcome of line 76 at one cell: it returns exactly on the cells
    that are [castable], and then with a 64-bit integer. *)
Lemma product_id_cell_inv (c id : cell) :
  product_id_cell c = Ok id ->
  castable c = true /\ exists z, id = CInt z /\ in_int64 z = true /\
    (to_numeric c = None -> z = 0) /\
    (forall q, to_numeric c = Some (Finite q) -> z = Qtruncate q).
Proof.
  assert (Hgen : forall x : option number,
            to_numeric c = x ->
            cast_int64 (match x with Some y => y | None => Finite 0 end) = Ok id ->
            match x with
            | None => true
            | Some (Finite q) => in_int64 (Qtruncate q)
            | Some (Infinite _) => false
            end = true /\
            exists z, id = CInt z /\ in_int64 z = true /\
              (to_numeric c = None -> z = 0) /\
              (forall q, to_numeric c = Some (Finite q) -> z = Qtruncate q)).
  { intros [[q|b]|] Hx; rewrite Hx; cbn [cast_int64]; try discriminate.
    - destruct (in_int64 (Qtruncate q)) eqn:E; [|discriminate].
      intros [= <-]. split; [reflexivity|]. exists (Qtruncate q).
      repeat split; try reflexivity; try assumption; intros; congruence.
    - intros [= <-]. split; [reflexivity|]. exists 0.
      repeat split; try reflexivity; intros; congruence. }
  unfold product_id_cell, product_id_number, castable.
  destruct c; cbn [rbind]; try discriminate; try (apply Hgen; reflexivity).
  destruct (exact_in_float64 z) eqn:E; cbn [rbind]; [|discriminate].
  rewrite (cast_int64_integer z (exact_in_int64 z E)).
  intros [= <-]. split; [reflexivity|]. exists z.
  split; [reflexivity|]. split; [now apply exact_in_int64|].
  cbn [to_numeric]. split; [discriminate|].
  intros q [= <-]. now rewrite Qtruncate_inject_Z.
Qed.

Lemma product_id_cell_castable (c : cell) :
  castable c = true -> exists z, product_id_cell c = Ok (CInt z).
Proof.
  destruct c as [|b|z|q|b|s|t].
  - intros _. now exists 0.
  - intros _. unfold product_id_cell, product_id_number, to_numeric.
    cbn [rbind]. destruct b; now eexists.
  - intros E. exists z. now apply product_id_cell_integer.
  - unfold castable, product_id_cell, product_id_number, to_numeric.
    cbn [rbind cast_int64]. intros E. rewrite E. now eexists.
  - discriminate.
  - unfold castable, product_id_cell, product_id_number, to_numeric.
    cbn [rbind].
    destruct (parse_number s) as [[q|b]|]; cbn [cast_int64];
      intros E; try discriminate; [rewrite E|]; now eexists.
  - discriminate.
Qed.

Lemma product_id_column_castable (p : list cell) :
  forallb castable p = true -> exists ids, product_id_column p = Ok ids.
Proof.
  induction p as [|c p IH]; intros H.
  - exists []. reflexivity.
  - cbn [forallb] in H. apply andb_true_iff in H as [Hc Hp].
    destruct (IH Hp) as [ids Hids].
    destruct (product_id_cell_castable c Hc) as (z & Hz).
    exists (CInt z :: ids). apply product_id_column_ok.
    constructor; [exact Hz | now apply product_id_column_ok].
Qed.

(** What line 76 leaves at each row when it returns. *)
Lemma product_id_column_cells (p ids : list cell) :
  product_id_column p = Ok ids ->
  forall i c, p !! i = Some c ->
    exists z, ids !! i = Some (CInt z) /\
      int64_min <= z <= int64_max /\
      (to_numeric c = None -> z = 0) /\
      (forall q, to_numeric c = Some (Finite q) -> z = Qtruncate q).
Proof.
  intros Hids i c Hi. apply product_id_column_ok in Hids.
  destruct (Forall2_lookup_l _ _ _ _ _ Hids Hi) as (id & Hid & Hcell).
  apply product_id_cell_inv in Hcell as (_ & z & -> & Hz & H0 & Hq).
  exists z. split; [exact Hid|].
  split; [now apply in_int64_bounds|]. split; assumption.
Qed.


(** C8, as the code has it: whenever lines 74-76 return, every product_id
    is a 64-bit integer of either sign.  An integer is kept as it is, also
    when it is negative; a value that does not parse is 0; a fractional
    value is cut to its integer part.  Lines 74-76 do return when no
    product id is infinite or too large for int64. *)
Theorem C8_product_id_is_an_integer (f : frame) (d p : list cell) :
  empty f = false ->
  getitem f "sale_date" = Ok d -> getitem f "product_id" = Ok p ->
  (forallb castable p = true -> exists f', correct_sales_types f = Ok f') /\
  (forall f', correct_sales_types f = Ok f' ->
     exists col,
       getitem f' "product_id" = Ok col /\
       length col = length p /\
       (forall i c, p !! i = Some c ->
          exists z, col !! i = Some (CInt z) /\
            int64_min <= z <= int64_max /\
            (to_numeric c = None -> z = 0) /\
            (forall q, to_numeric c = Some (Finite q) -> z = Qtruncate q)) /\
       (forall i z, p !! i = Some (CInt z) -> col !! i = Some (CInt z))).
Proof.
  intros He Hd Hp. split.
  - intros Hc. destruct (product_id_column_castable p Hc) as [ids Hids].
    destruct (correct_sales_types_ok f d p ids He Hd Hp Hids) as (f' & Hf & _).
    now exists f'.
  - intros f' Hf.
    pose proof Hf as Hf0.
    rewrite correct_sales_types_steps in Hf0 by exact He.
    apply rbind_ok in Hf0 as (f1 & H1 & H2).
    unfold coerce_sale_date in H1. rewrite Hd in H1. cbn [rbind] in H1.
    injection H1 as <-.
    unfold coerce_product_id in H2.
    rewrite getitem_setitem_other in H2 by discriminate.
    rewrite Hp in H2. cbn [rbind] in H2.
    apply rbind_ok in H2 as (ids & Hids & H2).
    destruct (correct_sales_types_ok f d p ids He Hd Hp Hids)
      as (f'' & Hf'' & _ & Hcol).
    assert (f'' = f') as -> by congruence.
    exists ids. split; [exact Hcol|].
    split; [exact (product_id_column_length _ _ Hids)|].
    pose proof (product_id_column_cells p ids Hids) as Hcells.
    split; [exact Hcells|].
    intros i z Hi. destruct (Hcells i (CInt z) Hi) as (z' & Hz' & _ & _ & Hq).
    rewrite Hz'. f_equal. f_equal.
    rewrite (Hq (inject_Z z) eq_refl). apply Qtruncate_inject_Z.
Qed.

Lemma range_index_length (n : nat) : length (range_index n) = n.
Proof. unfold range_index. now rewrite length_map, length_seq. Qed.

Lemma pad_rows_map {A} (n : nat) (g : A -> cell) (l : list A) (i : nat) :
  (i < n)%nat ->
  pad_rows n (map g l) !! i
  = Some (match l !! i with Some b => g b | None => CNull end).
Proof.
  intros Hi. rewrite pad_rows_lookup by exact Hi.
  change (map g l) with (g <$> l). rewrite list_lookup_fmap.
  now destruct (l !! i).
Qed.

(** C10: the listings are joined on the row labels.  When both tables carry
    the default index 0, 1, 2, ... the join is the positional join (row i
    with row i, missing values past the end of the right table); for any
    index, row i of the left table receives the cells of the right row
    whose label equals the label of row i, and missing values when no right
    row carries that label. *)
Theorem C10_join_follows_index_labels :
  (forall (left right : frame) (n m : nat),
     index left = range_index n -> index right = range_index m ->
     wf_frame right ->
     merge_left_index left right = positional_join left right) /\
  (forall (left right : frame) (i : nat) (lab : Z) (j : nat) (name : string)
          (col : list cell),
     index left !! i = Some lab -> columns right !! j = Some (name, col) ->
     exists name' col',
       columns (merge_left_index left right) !! (length (columns left) + j)%nat
       = Some (name', col') /\
       col' !! i
       = Some (match index_position lab (index right) with
               | Some k => default CNull (col !! k)
               | None => CNull
               end)) /\
  (forall (lab : Z) (idx : list Z) (k : nat),
     index_position lab idx = Some k ->
     idx !! k = Some lab /\ forall j, (j < k)%nat -> idx !! j <> Some lab) /\
  (forall (lab : Z) (idx : list Z),
     index_position lab idx = None -> forall k, idx !! k <> Some lab).
Proof.
  split; [exact merge_default_index|].
  split; [exact merge_pairs_by_label|].
  split; [exact index_position_Some | exact index_position_None].
Qed.

(** C4, as the code has it: for a sales table of n rows that carries the
    default index 0 .. n-1 and a list of m listings, the join has n rows;
    row i receives the title, availability and price of listing i when
    i < m and missing values when i >= m; with no listing the sales table
    passes through unchanged. *)
Theorem C4_left_join_by_position_on_default_index
        (sales_df : frame) (l : list listing) (n : nat) :
  index sales_df = range_index n ->
  nrows (join_listings sales_df (book_table l)) = n /\
  (l = [] -> join_listings sales_df (book_table l) = sales_df) /\
  (l <> [] ->
   exists tcol acol pcol,
     columns (join_listings sales_df (book_table l))
     = map (fun nc => (with_suffix (names (book_table l)) "_x" (fst nc), snd nc))
           (columns sales_df)
       ++ [(with_suffix (names sales_df) "_y" "book_title", tcol);
           (with_suffix (names sales_df) "_y" "book_availability", acol);
           (with_suffix (names sales_df) "_y" "book_price_gbp", pcol)] /\
     forall i, (i < n)%nat ->
       tcol !! i = Some (match l !! i with
                         | Some b => CStr (title b) | None => CNull end) /\
       acol !! i = Some (match l !! i with
                         | Some b => CStr (availability b) | None => CNull end) /\
       pcol !! i = Some (match l !! i with
                         | Some b => price_cell b | None => CNull end)).
Proof.
  intros Hidx. split.
  { unfold nrows. rewrite nrows_join_listings, Hidx. apply range_index_length. }
  split; [intros ->; reflexivity|].
  intros Hne. destruct l as [|b r]; [contradiction|].
  unfold join_listings.
  assert (E : empty (book_table (b :: r)) = false) by reflexivity.
  rewrite E. cbn [negb].
  rewrite (merge_default_index sales_df (book_table (b :: r)) n (length (b :: r)))
    by (try exact Hidx; try reflexivity; apply wf_book_table).
  unfold positional_join. cbn [columns book_table map fst snd].
  eexists _, _, _. split; [reflexivity|].
  intros i Hi. unfold nrows. rewrite Hidx, range_index_length.
  change (CStr (title b) :: map (fun b0 => CStr (title b0)) r)
    with (map (fun b0 => CStr (title b0)) (b :: r)).
  change (CStr (availability b) :: map (fun b0 => CStr (availability b0)) r)
    with (map (fun b0 => CStr (availability b0)) (b :: r)).
  change (price_cell b :: map price_cell r) with (map price_cell (b :: r)).
  rewrite !pad_rows_map by exact Hi. auto.
Qed.

(** ** Runs of [transform_data] *)

Lemma load_json_store (w : option loc) (h h' : store) (r : result json) :
  load_json w h = (r, h') -> h' = h.
Proof.
  unfold load_json. destruct w as [k|]; [|now intros [= _ <-]].
  destruct (h !! k) as [[j|?|?]|]; now intros [= _ <-].
Qed.

Lemma load_listings_store (l : option loc) (h h' : store)
      (r : result (option (list listing))) :
  load_listings l h = (r, h') -> h' = h.
Proof.
  unfold load_listings. destruct l as [k|]; [|now intros [= _ <-]].
  destruct (h !! k) as [[?|?|?]|]; now intros [= _ <-].
Qed.

Lemma rebind_sales_fresh (h : store) (s : option loc) :
  sales_absent_or_empty h s ->
  rebind_sales s h = (Ok (length h), h ++ [OFrame empty_frame]).
Proof.
  intros [->|(k & f & -> & Hk & He)]; [reflexivity|].
  unfold rebind_sales, st_bind, load_frame. rewrite Hk, He. reflexivity.
Qed.

Lemma rebind_sales_same (h : store) (k : loc) (f : frame) :
  h !! k = Some (OFrame f) -> empty f = false ->
  rebind_sales (Some k) h = (Ok k, h).
Proof.
  intros Hk He. unfold rebind_sales, st_bind, load_frame. now rewrite Hk, He.
Qed.

Lemma body_listings (weather_df f : frame) (sl : option (list listing)) :
  empty f = true ->
  body weather_df (scraped_frame sl) f = (Ok (Fresh empty_frame), f).
Proof.
  intros He. rewrite body_empty by exact He.
  change (correct_listing_types _) with (listings_table sl).
  now rewrite listings_table_ok.
Qed.

(** The run on an absent or empty sales argument: the weather is converted
    first; then two new empty tables are created, the one bound to
    [sales_df] on line 49 and the one returned on line 90. *)
Lemma transform_data_no_sales (w s l : option loc) (h : store) (wj : json)
      (sl : option (list listing)) :
  sales_absent_or_empty h s ->
  load_json w h = (Ok wj, h) -> load_listings l h = (Ok sl, h) ->
  transform_data w s l h
  = match weather_frame wj with
    | Ok _ => (Ok (S (length h)), h ++ [OFrame empty_frame; OFrame empty_frame])
    | Raise e => (Raise e, h)
    | Unmodelled => (Unmodelled, h)
    end.
Proof.
  intros Hs Hw Hl. unfold transform_data, st_bind at 1. rewrite Hw.
  unfold st_bind at 1, st_lift.
  destruct (weather_frame wj) as [wdf| |]; try reflexivity.
  unfold st_bind at 1. rewrite Hl.
  unfold st_bind at 1. rewrite (rebind_sales_fresh _ _ Hs).
  unfold st_bind, in_place.
  rewrite lookup_app_r by lia. rewrite Nat.sub_diag. cbn [lookup list_lookup].
  rewrite body_listings by reflexivity.
  unfold alloc. rewrite length_insert, length_app. cbn [length].
  rewrite list_insert_id
    by (rewrite lookup_app_r by lia; now rewrite Nat.sub_diag).
  rewrite <- app_assoc. cbn [app]. f_equal. f_equal. lia.
Qed.

Lemma in_place_store {A} (l : loc) (block : F A) (h h' : store) (r : result A) :
  in_place l block h = (r, h') ->
  length h' = length h /\ forall k, k <> l -> h' !! k = h !! k.
Proof.
  unfold in_place. destruct (h !! l) as [[?|?|f]|] eqn:E;
    try (intros [= _ <-]; split; reflexivity).
  destruct (block f) as [r0 f']. intros [= _ <-]. split.
  - apply length_insert.
  - intros k Hk. apply list_lookup_insert_ne. congruence.
Qed.

Lemma rebind_sales_store (s : option loc) (h h' : store) (r : result loc) :
  rebind_sales s h = (r, h') ->
  (r = Ok (length h) /\ h' = h ++ [OFrame empty_frame]) \/
  (exists k f, s = Some k /\ r = Ok k /\ h' = h /\
               h !! k = Some (OFrame f) /\ empty f = false) \/
  (r = Unmodelled /\ h' = h).
Proof.
  destruct s as [k|]; simpl.
  - unfold st_bind, load_frame.
    destruct (h !! k) as [[?|?|f]|] eqn:E; try (intros [= <- <-]; auto).
    destruct (empty f) eqn:He; intros [= <- <-]; [auto|].
    right. left. exists k, f. auto.
  - intros [= <- <-]. auto.
Qed.

(** Whatever the outcome, the function leaves every object of the caller's
    store as it was, except a non-empty sales table. *)
Lemma transform_data_frame (w s l : option loc) (h : store) (k : loc) (o : obj) :
  h !! k = Some o ->
  (Some k <> s \/ exists f, o = OFrame f /\ empty f = true) ->
  snd (transform_data w s l h) !! k = Some o.
Proof.
  intros Hk Hside. pose proof (lookup_lt_Some _ _ _ Hk) as Hlt.
  unfold transform_data, st_bind at 1.
  destruct (load_json w h) as [r1 h1] eqn:E1. apply load_json_store in E1 as ->.
  destruct r1 as [wj| |]; try exact Hk.
  unfold st_bind at 1, st_lift.
  destruct (weather_frame wj) as [wdf| |]; try exact Hk.
  unfold st_bind at 1.
  destruct (load_listings l h) as [r2 h2] eqn:E2.
  apply load_listings_store in E2 as ->.
  destruct r2 as [sl| |]; try exact Hk.
  unfold st_bind at 1.
  destruct (rebind_sales s h) as [r3 h3] eqn:E3.
  assert (H3 : h3 !! k = Some o /\
               forall a, r3 = Ok a -> a <> k).
  { apply rebind_sales_store in E3
      as [[-> ->]|[(k0 & f & -> & -> & -> & Hf & He)|[-> ->]]].
    - split; [now rewrite lookup_app_l by exact Hlt|].
      intros a [= <-]. lia.
    - split; [exact Hk|]. intros a [= <-] ->.
      destruct Hside as [Hne|(f' & -> & He')]; [congruence|].
      rewrite Hf in Hk. injection Hk as ->. congruence.
    - split; [exact Hk | discriminate]. }
  destruct H3 as [Hk3 Hr3].
  destruct r3 as [sales| |]; try exact Hk3.
  specialize (Hr3 sales eq_refl).
  unfold st_bind.
  destruct (in_place sales (body wdf (scraped_frame sl)) h3) as [r4 h4] eqn:E4.
  apply in_place_store in E4 as [Hlen H4].
  assert (Hk4 : h4 !! k = Some o) by (rewrite H4 by congruence; exact Hk3).
  destruct r4 as [[|f]| |]; try exact Hk4.
  unfold alloc. cbn [snd]. rewrite lookup_app_l; [exact Hk4|].
  eapply lookup_lt_Some; eassumption.
Qed.

(** C2, as the code has it: with an absent or empty sales argument the
    weather is still converted before the emptiness test of line 88.  When
    that conversion succeeds the call returns a new empty table; when it
    raises, the call raises the same exception. *)
Theorem C2_empty_sales_gives_empty_table_after_weather
        (w s l : option loc) (h : store) (wj : json) (sl : option (list listing)) :
  sales_absent_or_empty h s ->
  load_json w h = (Ok wj, h) -> load_listings l h = (Ok sl, h) ->
  (forall weather_df, weather_frame wj = Ok weather_df ->
     exists r h', transform_data w s l h = (Ok r, h') /\
                  frame_at h' r = Some empty_frame) /\
  (forall e, weather_frame wj = Raise e ->
     transform_data w s l h = (Raise e, h)).
Proof.
  intros Hs Hw Hl. rewrite (transform_data_no_sales w s l h wj sl Hs Hw Hl).
  split.
  - intros wdf ->. eexists _, _. split; [reflexivity|].
    unfold frame_at.
    rewrite lookup_app_r by lia.
    replace (S (length h) - length h)%nat with 1%nat by lia. reflexivity.
  - intros e ->. reflexivity.
Qed.

(** ** Keys through the broadcast and the join *)

Lemma key_name_neq (k n : string) :
  key_name k = true -> key_name n = false -> k <> n.
Proof. intros Hk Hn ->. congruence. Qed.

Lemma subset_keys_setitem (f : frame) (name : string) (v : list cell) :
  key_name name = false -> subset_keys (setitem f name v) = subset_keys f.
Proof.
  intros Hn. unfold subset_keys.
  rewrite !getitem_setitem_other; [reflexivity | | |];
    apply key_name_neq; auto.
Qed.

Lemma subset_keys_broadcast_columns (weather_df : frame) (cols : list string)
      (f f' : frame) :
  forallb (fun c => negb (key_name c)) cols = true ->
  broadcast_columns weather_df cols f = Ok f' ->
  subset_keys f' = subset_keys f.
Proof.
  revert f. induction cols as [|c r IH]; intros f Hc H; simpl in *.
  - now injection H as <-.
  - apply andb_true_iff in Hc as [Hc Hr]. apply negb_true_iff in Hc.
    apply rbind_ok in H as [f1 [H1 H]].
    rewrite (IH _ Hr H). unfold broadcast_column in H1.
    apply rbind_ok in H1 as [s [_ H1]]. apply rbind_ok in H1 as [v [_ H1]].
    injection H1 as <-. now apply subset_keys_setitem.
Qed.

Lemma matching_app (name : string) (idx : list Z) (a b : list (string * list cell)) :
  matching name (Frame idx (a ++ b))
  = matching name (Frame idx a) ++ matching name (Frame idx b).
Proof. unfold matching; cbn [columns]. now rewrite List.filter_app, List.map_app. Qed.

Lemma matching_merge (left right : frame) (k : string) :
  (forall n, In n (names right) ->
     String.eqb k n = false /\ String.eqb k (n ++ "_x") = false /\
     String.eqb k (n ++ "_y") = false) ->
  matching k (merge_left_index left right) = matching k left.
Proof.
  intros H. unfold merge_left_index. rewrite matching_app.
  assert (HR : forall pos,
             matching k (Frame (index left)
               (map (fun nc => (with_suffix (names left) "_y" (fst nc),
                                take_rows pos (snd nc))) (columns right))) = []).
  { intros pos. unfold matching, names in *; cbn [columns].
    induction (columns right) as [|[n c] r IH]; cbn [map List.filter fst snd];
      [reflexivity|].
    destruct (H n (or_introl eq_refl)) as (A & _ & B).
    unfold with_suffix at 1.
    destruct (existsb _ _); [rewrite B | rewrite A]; apply IH;
      intros n' Hn'; apply H; now right. }
  rewrite HR, app_nil_r. unfold matching; cbn [columns].
  induction (columns left) as [|[n c] r IH]; cbn [map List.filter fst snd];
    [reflexivity|].
  assert (E : String.eqb k (with_suffix (names right) "_x" n) = String.eqb k n).
  { unfold with_suffix. destruct (existsb (String.eqb n) (names right)) eqn:Ex;
      [|reflexivity].
    apply existsb_exists in Ex as [n' [Hin Hn']].
    apply String.eqb_eq in Hn'. subst n'.
    destruct (H n Hin) as (A & B & _). now rewrite A, B. }
  rewrite E. destruct (String.eqb k n); cbn [map snd]; [f_equal|]; exact IH.
Qed.

Lemma subset_keys_join_books (merged_df : frame) (l : list listing) :
  subset_keys (join_listings merged_df (book_table l)) = subset_keys merged_df.
Proof.
  unfold join_listings. destruct l as [|b r]; [reflexivity|].
  change (negb (empty (book_table (b :: r)))) with true. cbv iota.
  unfold subset_keys, getitem.
  rewrite !matching_merge; [reflexivity | | |];
    intros n Hn; cbn in Hn;
    (destruct Hn as [<-|[<-|[<-|[]]]]; repeat split; reflexivity).
Qed.

Lemma wf_merge_left_index (left right : frame) :
  wf_frame left -> wf_frame (merge_left_index left right).
Proof.
  unfold wf_frame, merge_left_index, nrows; cbn [index columns]. intros H.
  apply Forall_app. split; rewrite List.Forall_forall in *.
  - intros nc Hin. apply in_map_iff in Hin as [nc' [<- Hin]].
    cbn [snd]. exact (H _ Hin).
  - intros nc Hin. apply in_map_iff in Hin as [nc' [<- Hin]].
    cbn [snd]. unfold take_rows. now rewrite !length_map.
Qed.

Lemma wf_join_listings (merged_df scraped_df : frame) :
  wf_frame merged_df -> wf_frame (join_listings merged_df scraped_df).
Proof.
  unfold join_listings. destruct (negb (empty scraped_df));
    [apply wf_merge_left_index | auto].
Qed.

(** The weather table of lines 30-41 has the six weather columns. *)
Lemma weather_frame_names (wj : json) (weather_df : frame) :
  weather_frame wj = Ok weather_df -> names weather_df = weather_columns.
Proof.
  unfold weather_frame. destruct (truthy wj); [|now intros [= <-]].
  unfold build_weather_df. intros H.
  repeat (apply rbind_ok in H as [? [_ H]]).
  now injection H as <-.
Qed.

Lemma subset_keys_broadcast_weather (wj : json) (weather_df f f' : frame) :
  weather_frame wj = Ok weather_df ->
  broadcast_weather
    (if negb (empty weather_df) then standardize weather_df else weather_df) f
  = Ok f' ->
  subset_keys f' = subset_keys f.
Proof.
  intros Hw. apply weather_frame_names in Hw.
  unfold broadcast_weather.
  destruct (negb (empty weather_df)).
  - destruct (negb (empty (standardize weather_df))); [|now intros [= <-]].
    apply subset_keys_broadcast_columns.
    unfold names, standardize, rename_columns; cbn [columns].
    rewrite List.map_map; cbn [fst].
    rewrite <- (List.map_map fst standard_name).
    fold (names weather_df). rewrite Hw. reflexivity.
  - destruct (negb (empty weather_df)); [|now intros [= <-]].
    apply subset_keys_broadcast_columns. rewrite Hw. reflexivity.
Qed.

(** ** Normal runs *)

Lemma st_bind_ok {A B} (m : M A) (k : A -> M B) (h h' : store) (b : B) :
  st_bind m k h = (Ok b, h') ->
  exists a h1, m h = (Ok a, h1) /\ k a h1 = (Ok b, h').
Proof.
  unfold st_bind. destruct (m h) as [[a| |] h1]; try discriminate. eauto.
Qed.

(** A normal run either found no sales rows and returned a new empty
    table, or ran the block on the caller's non-empty sales table. *)
Lemma transform_data_ok_inv (w s l : option loc) (h h' : store) (r : loc) :
  transform_data w s l h = (Ok r, h') ->
  exists wj weather_df sl,
    load_json w h = (Ok wj, h) /\ weather_frame wj = Ok weather_df /\
    load_listings l h = (Ok sl, h) /\
    ((sales_absent_or_empty h s /\ r = S (length h) /\
      h' = h ++ [OFrame empty_frame; OFrame empty_frame]) \/
     (exists k f0 t f',
        s = Some k /\ h !! k = Some (OFrame f0) /\ empty f0 = false /\
        body weather_df (scraped_frame sl) f0 = (Ok t, f') /\
        match t with
        | Same => r = k /\ h' = <[k := OFrame f']> h
        | Fresh f => r = length h /\ h' = <[k := OFrame f']> h ++ [OFrame f]
        end)).
Proof.
  intros H. unfold transform_data in H.
  apply st_bind_ok in H as (wj & h1 & Hw & H).
  pose proof (load_json_store _ _ _ _ Hw) as ->.
  apply st_bind_ok in H as (wdf & h1 & Hwf & H).
  unfold st_lift in Hwf. injection Hwf as Hwf <-.
  apply st_bind_ok in H as (sl & h1 & Hl & H).
  pose proof (load_listings_store _ _ _ _ Hl) as ->.
  exists wj, wdf, sl. repeat (split; [assumption|]).
  apply st_bind_ok in H as (sales & h3 & Hs & H).
  destruct (rebind_sales_store _ _ _ _ Hs)
    as [[E ->]|[(k & f0 & -> & E & -> & Hk & He)|[E _]]]; try discriminate.
  - injection E as ->. left.
    assert (Habs : sales_absent_or_empty h s).
    { destruct s as [k|]; [|now left]. right.
      unfold rebind_sales, st_bind, load_frame in Hs.
      destruct (h !! k) as [[?|?|f]|] eqn:Ek; try discriminate.
      destruct (empty f) eqn:Ef.
      - eauto.
      - injection Hs as Hs _. apply lookup_lt_Some in Ek. lia. }
    split; [exact Habs|].
    assert (Hrun : transform_data w s l h = (Ok r, h')).
    { unfold transform_data. unfold st_bind at 1. rewrite Hw.
      unfold st_bind at 1, st_lift. rewrite Hwf.
      unfold st_bind at 1. rewrite Hl.
      unfold st_bind at 1. rewrite Hs. exact H. }
    rewrite (transform_data_no_sales w s l h wj sl Habs Hw Hl), Hwf in Hrun.
    injection Hrun as <- <-. auto.
  - injection E as ->. right.
    apply st_bind_ok in H as (t & h4 & Hb & H).
    unfold in_place in Hb. rewrite Hk in Hb.
    destruct (body wdf (scraped_frame sl) f0) as [rb f'] eqn:Eb.
    injection Hb as -> <-.
    exists k, f0, t, f'. repeat (split; [auto|]).
    destruct t as [|f].
    + unfold st_ret in H. injection H as <- <-. auto.
    + unfold alloc in H. injection H as <- <-.
      now rewrite length_insert.
Qed.

Lemma duplicated_none (ks : list key) :
  distinct_keys ks = true -> count_flagged (duplicated ks) = 0%nat.
Proof.
  intros Hd. apply count_flagged_zero. intros i b Hb.
  pose proof (lookup_lt_Some _ _ _ Hb) as Hlt.
  unfold duplicated in *. rewrite duplicated_from_length in Hlt.
  destruct (lookup_lt_is_Some_2 ks i Hlt) as [k Hk].
  destruct (duplicated_from_spec [] ks i k Hk) as [b' [Hb' Hiff]].
  rewrite Hb in Hb'. injection Hb' as <-. apply Hiff. split.
  - intros k' [].
  - intros j k' Hj Hk'.
    apply (proj1 (distinct_keys_lookup ks) Hd i j); auto. lia.
Qed.

(** The output of lines 124-142 on a well-formed table. *)
Lemma remove_duplicates_distinct (f out : frame) :
  wf_frame f -> remove_duplicates f = Ok out ->
  exists ks,
    subset_keys f = Ok ks /\
    subset_keys out = Ok (keep_unflagged (duplicated ks) ks) /\
    distinct_keys (keep_unflagged (duplicated ks) ks) = true /\
    (nrows out <= nrows f)%nat /\
    (distinct_keys ks = true -> out = f).
Proof.
  intros Hwf H.
  assert (Hks : exists ks, subset_keys f = Ok ks).
  { unfold remove_duplicates in H. apply rbind_ok in H as [ks [Hks _]]. eauto. }
  destruct Hks as [ks Hks]. exists ks.
  rewrite (remove_duplicates_select f ks Hwf Hks) in H. injection H as <-.
  split; [exact Hks|]. split; [now apply subset_keys_select|].
  split; [apply kept_distinct|]. split.
  - unfold nrows, select_unflagged; cbn [index]. apply keep_unflagged_length_le.
  - intros Hd. apply select_unflagged_id; [exact Hwf | now apply duplicated_none |].
    unfold duplicated. rewrite duplicated_from_length.
    eapply subset_keys_length; eassumption.
Qed.

(** C1, as the code has it: the call never changes the weather structure
    or the list of listings (nor any other object than the sales table),
    and it leaves an empty sales table as it was.  A non-empty sales table
    is modified in place: on a normal return the caller's own object holds
    the normalised table with the weather columns broadcast into it. *)
Theorem C1_inputs_other_than_nonempty_sales_unchanged
        (w s l : option loc) (h h' : store) (out : result loc) :
  transform_data w s l h = (out, h') ->
  (forall k o,
     h !! k = Some o ->
     (Some k <> s \/ exists f, o = OFrame f /\ empty f = true) ->
     h' !! k = Some o) /\
  (forall k f0 r,
     s = Some k -> h !! k = Some (OFrame f0) -> empty f0 = false ->
     out = Ok r ->
     exists wj weather_df norm f',
       load_json w h = (Ok wj, h) /\ weather_frame wj = Ok weather_df /\
       normalize_sales f0 = Ok norm /\
       broadcast_weather
         (if negb (empty weather_df) then standardize weather_df else weather_df)
         norm = Ok f' /\
       h' !! k = Some (OFrame f')).
Proof.
  intros Hrun. split.
  - intros k o Hk Hside.
    pose proof (transform_data_frame w s l h k o Hk Hside) as H.
    now rewrite Hrun in H.
  - intros k f0 r -> Hk He ->.
    apply transform_data_ok_inv in Hrun
      as (wj & wdf & sl & Hw & Hwdf & Hl & [(Habs & _)|Hne]).
    + destruct Habs as [Habs|(k' & f & [= <-] & Hk' & He')]; [discriminate|].
      rewrite Hk in Hk'. injection Hk' as <-. congruence.
    + destruct Hne as (k' & f0' & t & f' & [= <-] & Hk' & _ & Hb & Ht).
      rewrite Hk in Hk'. injection Hk' as <-.
      destruct (body_nonempty_ok _ _ _ _ _ He Hb)
        as (norm & books & Hn & _ & Hbr & _).
      exists wj, wdf, norm, f'. repeat (split; [assumption|]).
      pose proof (lookup_lt_Some _ _ _ Hk) as Hlt.
      destruct t as [|f]; destruct Ht as [_ ->].
      * now apply list_lookup_insert_eq.
      * rewrite lookup_app_l by (rewrite length_insert; exact Hlt).
        now apply list_lookup_insert_eq.
Qed.

Lemma normalize_sales_empty (f norm : frame) :
  empty f = true -> normalize_sales f = Ok norm -> nrows f = 0%nat.
Proof.
  unfold empty, nrows. intros He H. apply orb_true_iff in He as [He|He].
  - now apply Nat.eqb_eq in He.
  - apply Nat.eqb_eq in He. destruct f as [idx [|c cols]]; [|discriminate].
    discriminate H.
Qed.

(** C9: on every normal run the composite keys of the rows of the returned
    table are pairwise different; the table has at most as many rows as the
    sales argument, and exactly as many when no two rows of the normalised
    sales table share a key. *)
Theorem C9_output_keys_pairwise_distinct
        (w s l : option loc) (h h' : store) (r : loc) :
  (forall k f0, s = Some k -> h !! k = Some (OFrame f0) -> wf_frame f0) ->
  transform_data w s l h = (Ok r, h') ->
  exists out,
    frame_at h' r = Some out /\
    (forall ks, subset_keys out = Ok ks -> pairwise_distinct ks) /\
    (~ sales_absent_or_empty h s -> exists ks, subset_keys out = Ok ks) /\
    (nrows out <= sales_rows h s)%nat /\
    (forall k f0 norm ks,
       s = Some k -> h !! k = Some (OFrame f0) ->
       normalize_sales f0 = Ok norm -> subset_keys norm = Ok ks ->
       pairwise_distinct ks -> nrows out = nrows f0).
Proof.
  intros Hwf Hrun.
  apply transform_data_ok_inv in Hrun
    as (wj & wdf & sl & Hw & Hwdf & Hl & [(Habs & -> & ->)|Hne]).
  - exists empty_frame. split.
    { unfold frame_at. rewrite lookup_app_r by lia.
      now replace (S (length h) - length h)%nat with 1%nat by lia. }
    split; [intros ks Hks; discriminate Hks|].
    split; [intros Hn; contradiction|].
    split; [cbn; lia|].
    intros k f0 norm ks -> Hk Hn _ _.
    destruct Habs as [Habs|(k' & f & [= <-] & Hk' & He)]; [discriminate|].
    rewrite Hk in Hk'. injection Hk' as <-.
    now rewrite (normalize_sales_empty f0 norm He Hn).
  - destruct Hne as (k & f0 & t & f' & -> & Hk & He & Hb & Ht).
    pose proof (Hwf k f0 eq_refl Hk) as Hwf0.
    destruct (body_nonempty_ok _ _ _ _ _ He Hb)
      as (norm & books & Hn & Hbooks & Hbr & Hrd).
    change (correct_listing_types _) with (listings_table sl) in Hbooks.
    rewrite listings_table_ok in Hbooks. injection Hbooks as <-.
    destruct (keeps_shape_normalize_sales _ _ Hn) as (I1 & _ & W1).
    destruct (keeps_shape_broadcast_weather _ _ _ Hbr) as (I2 & _ & W2).
    pose proof (W2 (W1 Hwf0)) as Wf'.
    destruct (remove_duplicates_distinct _ _ (wf_join_listings _ _ Wf') Hrd)
      as (kj & Hkj & Hko & Hdis & Hle & Hid).
    rewrite subset_keys_join_books in Hkj.
    rewrite (subset_keys_broadcast_weather _ _ _ _ Hwdf Hbr) in Hkj.
    assert (Hrows : nrows (join_listings f' (book_table
                      (match sl with Some l0 => l0 | None => [] end))) = nrows f0).
    { unfold nrows. now rewrite nrows_join_listings, I2, I1. }
    exists (table_value t f'). split.
    { unfold frame_at. pose proof (lookup_lt_Some _ _ _ Hk) as Hlt.
      destruct t as [|f]; destruct Ht as [-> ->]; cbn [table_value].
      - now rewrite list_lookup_insert_eq by exact Hlt.
      - rewrite lookup_app_r by (rewrite length_insert; lia).
        rewrite length_insert, Nat.sub_diag. reflexivity. }
    split.
    { intros ks Hks. rewrite Hko in Hks. injection Hks as <-.
      unfold pairwise_distinct. now apply distinct_keys_lookup. }
    split; [intros _; eauto|].
    split.
    { unfold sales_rows, frame_at. rewrite Hk. lia. }
    intros k' f0' norm' ks [= <-] Hk0 Hn' Hks Hd.
    rewrite Hk in Hk0. injection Hk0 as <-.
    rewrite Hn in Hn'. injection Hn' as <-.
    rewrite Hks in Hkj. injection Hkj as <-.
    rewrite Hid by (apply distinct_keys_lookup; exact Hd).
    exact Hrows.
Qed.

(** C6: mean imputation.  In a batch whose amounts are numbers or missing,
    with at least one number, every missing amount is replaced by the
    arithmetic mean of the amounts present and the other amounts are kept.
    On the two rows of Scenario A, with no weather and an empty list of
    listings, the missing amount becomes 10, both rows then carry the same
    key, and the returned table is the first row alone. *)
Theorem C6_missing_amounts_take_the_batch_mean :
  (forall (f : frame) (col : list cell),
     getitem f "sale_amount" = Ok col ->
     forallb numeric_or_null col = true -> valid_values col <> [] ->
     exists m f',
       (m == arithmetic_mean (valid_values col))%Q /\
       fill_sale_amount f = Ok f' /\
       getitem f' "sale_amount" = Ok (map (impute m) col)) /\
  (let d := datetime_cell [CStr "2023-01-01"; CStr "2023-01-01"]
              (CStr "2023-01-01") in
   transform_data None (Some 0%nat) (Some 1%nat)
     [OFrame scenario_a_sales; OList []]
   = (Ok 2%nat,
      [OFrame (Frame [0; 1]
                 [("product_id", [CInt 1; CInt 1]);
                  ("sale_date", [d; d]);
                  ("sale_amount", [CFloat 10; CFloat 10]);
                  ("sale_month", [month_cell d; month_cell d]);
                  ("sale_day_name", [day_name_cell d; day_name_cell d])]);
       OList [];
       OFrame (Frame [0]
                 [("product_id", [CInt 1]);
                  ("sale_date", [d]);
                  ("sale_amount", [CFloat 10]);
                  ("sale_month", [month_cell d]);
                  ("sale_day_name", [day_name_cell d])])])).
Proof.
  split.
  - intros f col Hg Hn Hv.
    exists (Qred (arithmetic_mean (valid_values col))). eexists.
    split; [apply Qred_correct|].
    split; [apply (fill_sale_amount_numeric f col); assumption|].
    eapply getitem_setitem_same. eassumption.
  - unfold datetime_cell.
    destruct (to_datetime_coerce [CStr "2023-01-01"; CStr "2023-01-01"]
                (CStr "2023-01-01")) as [t|] eqn:E.
    + cbv -[Z.eqb]. rewrite !E. cbv -[Z.eqb]. rewrite !Z.eqb_refl. reflexivity.
    + vm_compute. rewrite !E. reflexivity.
Qed.

(** * Further properties of the transform *)

(** ** Duplicate removal *)

Lemma keep_unflagged_length_eq {A B} (mask : list bool) (a : list A) (b : list B) :
  length a = length b ->
  length (keep_unflagged mask a) = length (keep_unflagged mask b).
Proof.
  revert a b. induction mask as [|m ms IH]; intros [|x a] [|y b] H;
    simpl in *; try reflexivity; try discriminate.
  destruct m; simpl; [|f_equal]; apply IH; lia.
Qed.

Lemma wf_select_unflagged (mask : list bool) (f : frame) :
  wf_frame f -> wf_frame (select_unflagged mask f).
Proof.
  unfold wf_frame, select_unflagged, nrows; cbn [index columns]. intros H.
  rewrite List.Forall_forall in *. intros nc Hin.
  apply in_map_iff in Hin as [nc' [<- Hin]]. cbn [snd].
  apply keep_unflagged_length_eq. exact (H _ Hin).
Qed.

(** Removing duplicates twice changes nothing more: the table that lines
    124-142 return has no duplicate left, so a second pass returns it as it
    is. *)
Theorem remove_duplicates_idempotent (f out : frame) :
  wf_frame f -> remove_duplicates f = Ok out ->
  remove_duplicates out = Ok out.
Proof.
  intros Hwf H.
  destruct (remove_duplicates_distinct f out Hwf H)
    as (ks & Hks & Hko & Hdis & _ & _).
  assert (Hwo : wf_frame out).
  { rewrite (remove_duplicates_select f ks Hwf Hks) in H. injection H as <-.
    now apply wf_select_unflagged. }
  rewrite (remove_duplicates_select out _ Hwo Hko).
  f_equal. apply select_unflagged_id; [exact Hwo | now apply duplicated_none |].
  unfold duplicated. rewrite duplicated_from_length.
  eapply subset_keys_length; eassumption.
Qed.

(** ** When the normalisation succeeds *)


Lemma series_mean_numeric_ok (col : list cell) :
  forallb numeric_or_null col = true -> exists m, series_mean col = Ok m.
Proof.
  intros H. unfold series_mean. rewrite H.
  destruct (valid_values col); eauto.
Qed.


(** ** Running the block forwards *)

Lemma fbind_run {A B} (m : F A) (k : A -> F B) (f f1 : frame) (a : A) :
  m f = (Ok a, f1) -> fbind m k f = k a f1.
Proof. intros H. unfold fbind. now rewrite H. Qed.

Lemma fbind_raise {A B} (m : F A) (k : A -> F B) (f f1 : frame) (e : exn) :
  m f = (Raise e, f1) -> fbind m k f = (Raise e, f1).
Proof. intros H. unfold fbind. now rewrite H. Qed.

Lemma assign_run (g : frame -> result frame) (f f1 : frame) :
  g f = Ok f1 -> assign g f = (Ok tt, f1).
Proof. intros H. unfold assign. now rewrite H. Qed.

Lemma assign_raise (g : frame -> result frame) (f : frame) (e : exn) :
  g f = Raise e -> assign g f = (Raise e, f).
Proof. intros H. unfold assign. now rewrite H. Qed.

(** The table the block hands back, from the joined table and its keys. *)
Lemma body_nonempty_run (weather_df scraped_df f norm books f' : frame)
      (ks : list key) :
  empty f = false ->
  normalize_sales f = Ok norm ->
  correct_listing_types
    (if negb (empty scraped_df) then standardize scraped_df else scraped_df)
  = Ok books ->
  broadcast_weather
    (if negb (empty weather_df) then standardize weather_df else weather_df) norm
  = Ok f' ->
  subset_keys (join_listings f' books) = Ok ks ->
  body weather_df scraped_df f
  = (Ok (if Nat.ltb 0 (count_flagged (duplicated ks))
         then Fresh (select_unflagged (duplicated ks) (join_listings f' books))
         else if negb (empty books) then Fresh (merge_left_index f' books)
              else Same),
     f').
Proof.
  intros He Hn Hb Hbr Hks.
  unfold normalize_sales in Hn. cbv zeta in Hn.
  apply rbind_ok in Hn as (f2 & S2 & Hn).
  apply rbind_ok in Hn as (f3 & S3 & Hn).
  apply rbind_ok in Hn as (f4 & S4 & S5).
  assert (E1 : empty (standardize f) = false)
    by (unfold standardize; now rewrite empty_rename_columns).
  assert (E2 : empty f2 = false).
  { destruct (has_column (standardize f) "sale_amount").
    - now apply (keeps_shape_fill_sale_amount _ _ S2).
    - now injection S2 as <-. }
  assert (E3 : empty f3 = false) by now apply (keeps_shape_coerce_sale_date _ _ S3).
  assert (E4 : empty f4 = false) by now apply (keeps_shape_coerce_product_id _ _ S4).
  assert (E5 : empty norm = false).
  { destruct (has_column f4 "sale_date").
    - apply rbind_ok in S5 as (g & Q1 & Q2).
      apply (keeps_shape_add_sale_day_name _ _ Q2).
      now apply (keeps_shape_add_sale_month _ _ Q1).
    - now injection S5 as <-. }
  unfold body. cbv zeta.
  rewrite (fbind_run peek _ f f f) by reflexivity.
  rewrite He. cbn [negb].
  rewrite (fbind_run _ _ f (standardize f) tt) by reflexivity.
  rewrite (fbind_run peek _ _ (standardize f) (standardize f)) by reflexivity.
  rewrite E1. cbn [negb andb].
  rewrite (fbind_run _ _ (standardize f) f2 tt).
  2:{ destruct (has_column (standardize f) "sale_amount");
        [now apply assign_run | now injection S2 as <-]. }
  rewrite (fbind_run _ _ f2 f2 books) by (unfold flift; now rewrite Hb).
  rewrite (fbind_run peek _ f2 f2 f2) by reflexivity.
  rewrite E2. cbn [negb].
  rewrite (fbind_run _ _ f2 f4 tt).
  2:{ rewrite (fbind_run _ _ f2 f3 tt) by now apply assign_run.
      now apply assign_run. }
  rewrite (fbind_run peek _ f4 f4 f4) by reflexivity.
  rewrite E4. cbn [negb andb].
  rewrite (fbind_run _ _ f4 norm tt).
  2:{ destruct (has_column f4 "sale_date").
      - apply rbind_ok in S5 as (g & Q1 & Q2).
        rewrite (fbind_run _ _ f4 g tt) by now apply assign_run.
        now apply assign_run.
      - now injection S5 as <-. }
  rewrite (fbind_run peek _ norm norm norm) by reflexivity.
  rewrite E5.
  rewrite (fbind_run _ _ norm f' tt).
  2:{ unfold broadcast_weather in Hbr.
      destruct (negb (empty (if negb (empty weather_df)
                             then standardize weather_df else weather_df))).
      - now apply for_each_broadcast_run.
      - now injection Hbr as <-. }
  rewrite (fbind_run peek _ f' f' f') by reflexivity.
  cbv zeta.
  assert (J : table_value (if negb (empty books)
                           then Fresh (merge_left_index f' books) else Same) f'
              = join_listings f' books).
  { unfold join_listings. now destruct (negb (empty books)). }
  rewrite J.
  rewrite (fbind_run _ _ f' f' ks) by (unfold flift; now rewrite Hks).
  destruct (Nat.ltb 0 (count_flagged (duplicated ks))); [|reflexivity].
  unfold drop_duplicates. rewrite Hks. reflexivity.
Qed.

(** ** The weather table *)




(** ** Runs on a non-empty sales table *)

(** The run on a non-empty sales table: the block runs on the caller's
    object; what it assigned stays in the store whatever the outcome. *)
Lemma transform_data_nonempty (w l : option loc) (k : loc) (h : store)
      (wj : json) (weather_df f0 : frame) (sl : option (list listing)) :
  load_json w h = (Ok wj, h) -> weather_frame wj = Ok weather_df ->
  load_listings l h = (Ok sl, h) ->
  h !! k = Some (OFrame f0) -> empty f0 = false ->
  transform_data w (Some k) l h
  = match body weather_df (scraped_frame sl) f0 with
    | (Ok Same, f') => (Ok k, <[k := OFrame f']> h)
    | (Ok (Fresh f), f') => (Ok (length h), <[k := OFrame f']> h ++ [OFrame f])
    | (Raise e, f') => (Raise e, <[k := OFrame f']> h)
    | (Unmodelled, f') => (Unmodelled, <[k := OFrame f']> h)
    end.
Proof.
  intros Hw Hwdf Hl Hk He. unfold transform_data.
  unfold st_bind at 1. rewrite Hw.
  unfold st_bind at 1, st_lift. rewrite Hwdf.
  unfold st_bind at 1. rewrite Hl.
  unfold st_bind at 1. rewrite (rebind_sales_same h k f0 Hk He).
  unfold st_bind, in_place. rewrite Hk.
  destruct (body weather_df (scraped_frame sl) f0) as [[[|f]| |] f'];
    try reflexivity.
  unfold alloc. now rewrite length_insert.
Qed.

Lemma count_flagged_distinct (ks : list key) :
  count_flagged (duplicated ks) = 0%nat <-> distinct_keys ks = true.
Proof.
  split; [|apply duplicated_none].
  intros H. pose proof (kept_distinct [] ks) as Hd. fold (duplicated ks) in Hd.
  rewrite keep_unflagged_id in Hd; [exact Hd | exact H |].
  unfold duplicated. now rewrite duplicated_from_length.
Qed.


(** The three key columns are needed.  Line 62 lets a table without a
    sale_amount column through, but lines 75, 76 and 127 read the three
    columns unconditionally: a normal return on a non-empty sales table
    means that all three were there. *)
Theorem normal_return_needs_key_columns (w l : option loc) (k r : loc)
        (h h' : store) (f0 : frame) :
  h !! k = Some (OFrame f0) -> empty f0 = false ->
  transform_data w (Some k) l h = (Ok r, h') ->
  has_column (standardize f0) "product_id" = true /\
  has_column (standardize f0) "sale_date" = true /\
  has_column (standardize f0) "sale_amount" = true.
Proof.
  intros Hk He Hrun.
  apply transform_data_ok_inv in Hrun
    as (wj & wdf & sl & Hw & Hwdf & Hl & [(Habs & _)|Hne]).
  { destruct Habs as [Habs|(k' & f & [= <-] & Hk' & He')]; [discriminate|].
    rewrite Hk in Hk'. injection Hk' as <-. congruence. }
  destruct Hne as (k' & f0' & t & f' & [= <-] & Hk' & _ & Hb & _).
  rewrite Hk in Hk'. injection Hk' as <-.
  destruct (body_nonempty_ok _ _ _ _ _ He Hb)
    as (norm & books & Hn & Hbooks & Hbr & Hrd).
  change (correct_listing_types _) with (listings_table sl) in Hbooks.
  rewrite listings_table_ok in Hbooks. injection Hbooks as <-.
  unfold remove_duplicates in Hrd. apply rbind_ok in Hrd as (ks & Hks & _).
  rewrite subset_keys_join_books in Hks.
  rewrite (subset_keys_broadcast_weather _ _ _ _ Hwdf Hbr) in Hks.
  apply subset_keys_inv in Hks as (p & d & a & Gp & Gd & Ga & _).
  apply getitem_has_column in Gp, Gd, Ga.
  unfold normalize_sales in Hn. cbv zeta in Hn.
  apply rbind_ok in Hn as (f2 & S2 & Hn).
  apply rbind_ok in Hn as (f3 & S3 & Hn).
  apply rbind_ok in Hn as (f4 & S4 & S5).
  assert (H5 : forall name, name <> "sale_month" -> name <> "sale_day_name" ->
                 has_column norm name = has_column f4 name).
  { intros name N1 N2. destruct (has_column f4 "sale_date").
    - apply rbind_ok in S5 as (g & Q1 & Q2).
      unfold add_sale_month in Q1. apply rbind_ok in Q1 as (c1 & _ & Q1).
      apply rbind_ok in Q1 as (u1 & _ & Q1). injection Q1 as <-.
      unfold add_sale_day_name in Q2. apply rbind_ok in Q2 as (c2 & _ & Q2).
      apply rbind_ok in Q2 as (u2 & _ & Q2). injection Q2 as <-.
      rewrite !has_column_setitem.
      apply String.eqb_neq in N1, N2. now rewrite N1, N2.
    - now injection S5 as <-. }
  assert (H4 : forall name, has_column f4 name = has_column f3 name).
  { intros name. unfold coerce_product_id in S4.
    apply rbind_ok in S4 as (c & Hc & S4).
    apply rbind_ok in S4 as (ids & Hids & S4). injection S4 as <-.
    rewrite has_column_setitem. destruct (String.eqb name "product_id") eqn:E;
      [|reflexivity].
    apply String.eqb_eq in E; subst. cbn [orb]. symmetry.
    eapply getitem_has_column; eassumption. }
  assert (H3 : forall name, has_column f3 name = has_column f2 name).
  { intros name. unfold coerce_sale_date in S3.
    apply rbind_ok in S3 as (c & Hc & S3). injection S3 as <-.
    rewrite has_column_setitem. destruct (String.eqb name "sale_date") eqn:E;
      [|reflexivity].
    apply String.eqb_eq in E; subst. cbn [orb]. symmetry.
    eapply getitem_has_column; eassumption. }
  assert (H2 : forall name, has_column f2 name = has_column (standardize f0) name).
  { intros name. destruct (has_column (standardize f0) "sale_amount") eqn:Ea.
    - unfold fill_sale_amount in S2.
      apply rbind_ok in S2 as (c & Hc & S2). apply rbind_ok in S2 as (m & _ & S2).
      injection S2 as <-.
      rewrite has_column_setitem. destruct (String.eqb name "sale_amount") eqn:E;
        [|reflexivity].
      apply String.eqb_eq in E; subst. cbn [orb]. now symmetry.
    - now injection S2 as <-. }
  rewrite H5, H4, H3, H2 in Gp, Gd, Ga by discriminate. auto.
Qed.

(** ** What the call returns *)

Lemma ok_run_parts (w l : option loc) (k r : loc) (h h' : store) (f0 : frame) :
  h !! k = Some (OFrame f0) -> empty f0 = false ->
  transform_data w (Some k) l h = (Ok r, h') ->
  exists wj weather_df sl norm f' ks t,
    load_json w h = (Ok wj, h) /\ weather_frame wj = Ok weather_df /\
    load_listings l h = (Ok sl, h) /\
    normalize_sales f0 = Ok norm /\
    broadcast_weather
      (if negb (empty weather_df) then standardize weather_df else weather_df)
      norm = Ok f' /\
    subset_keys norm = Ok ks /\
    t = (if Nat.ltb 0 (count_flagged (duplicated ks))
         then Fresh (select_unflagged (duplicated ks)
                       (join_listings f' (book_table
                          (match sl with Some l0 => l0 | None => [] end))))
         else if negb (empty (book_table
                          (match sl with Some l0 => l0 | None => [] end)))
              then Fresh (merge_left_index f' (book_table
                          (match sl with Some l0 => l0 | None => [] end)))
              else Same) /\
    match t with
    | Same => r = k /\ h' = <[k := OFrame f']> h
    | Fresh f => r = length h /\ h' = <[k := OFrame f']> h ++ [OFrame f]
    end.
Proof.
  intros Hk He Hrun.
  apply transform_data_ok_inv in Hrun
    as (wj & wdf & sl & Hw & Hwdf & Hl & [(Habs & _)|Hne]).
  { destruct Habs as [Habs|(k' & f & [= <-] & Hk' & He')]; [discriminate|].
    rewrite Hk in Hk'. injection Hk' as <-. congruence. }
  destruct Hne as (k' & f0' & t & f' & [= <-] & Hk' & _ & Hb & Ht).
  rewrite Hk in Hk'. injection Hk' as <-.
  destruct (body_nonempty_ok _ _ _ _ _ He Hb)
    as (norm & books & Hn & Hbooks & Hbr & Hrd).
  pose proof Hbooks as Hbooks'.
  change (correct_listing_types _) with (listings_table sl) in Hbooks'.
  rewrite listings_table_ok in Hbooks'. injection Hbooks' as <-.
  assert (Hks : exists ks, subset_keys (join_listings f' (book_table
                   (match sl with Some l0 => l0 | None => [] end))) = Ok ks).
  { unfold remove_duplicates in Hrd. apply rbind_ok in Hrd as (ks & Hks & _).
    eauto. }
  destruct Hks as [ks Hks].
  rewrite (body_nonempty_run _ _ _ _ _ _ _ He Hn Hbooks Hbr Hks) in Hb.
  injection Hb as Ht'.
  rewrite subset_keys_join_books in Hks.
  rewrite (subset_keys_broadcast_weather _ _ _ _ Hwdf Hbr) in Hks.
  exists wj, wdf, sl, norm, f', ks, t. repeat (split; [assumption|]).
  split; [now symmetry | exact Ht].
Qed.

(** The returned reference is the caller's own sales object exactly when
    there is no listing and no two normalised rows share a key (lines 117
    and 142 pass the object on); otherwise it is a new object. *)
Theorem result_is_the_sales_object_iff (w l : option loc) (k r : loc)
        (h h' : store) (f0 : frame) (sl : option (list listing)) :
  h !! k = Some (OFrame f0) -> empty f0 = false ->
  load_listings l h = (Ok sl, h) ->
  transform_data w (Some k) l h = (Ok r, h') ->
  exists norm ks,
    normalize_sales f0 = Ok norm /\ subset_keys norm = Ok ks /\
    (r = k <->
     (match sl with Some (_ :: _) => False | _ => True end) /\
     distinct_keys ks = true) /\
    (r <> k -> r = length h /\ length h' = S (length h)).
Proof.
  clear database setup_database to_sql.
  intros Hk He Hl Hrun.
  destruct (ok_run_parts w l k r h h' f0 Hk He Hrun)
    as (wj & wdf & sl' & norm & f' & ks & t & _ & _ & Hl' & Hn & _ & Hks & Ht & Hr).
  rewrite Hl in Hl'. injection Hl' as <-.
  pose proof (lookup_lt_Some _ _ _ Hk) as Hlt.
  exists norm, ks. split; [exact Hn|]. split; [exact Hks|].
  destruct (Nat.ltb 0 (count_flagged (duplicated ks))) eqn:Ec.
  - subst t. destruct Hr as [-> ->]. apply Nat.ltb_lt in Ec. split.
    + split; [lia|]. intros [_ Hd]. apply count_flagged_distinct in Hd. lia.
    + intros _. split; [reflexivity|].
      rewrite length_app, length_insert. cbn. lia.
  - apply Nat.ltb_ge in Ec.
    assert (Hd : distinct_keys ks = true) by (apply count_flagged_distinct; lia).
    destruct sl as [[|b bs]|]; subst t; cbn in Hr; destruct Hr as [-> ->].
    + split; [tauto | congruence].
    + split; [split; [lia | tauto]|].
      intros _. split; [reflexivity|].
      rewrite length_app, length_insert. cbn. lia.
    + split; [tauto | congruence].
Qed.

(** The returned table is well formed, and its row labels are row labels
    of the sales table, in their original order. *)
Theorem returned_rows_come_from_sales (w l : option loc) (k r : loc)
        (h h' : store) (f0 : frame) :
  h !! k = Some (OFrame f0) -> wf_frame f0 ->
  transform_data w (Some k) l h = (Ok r, h') ->
  exists out,
    frame_at h' r = Some out /\ wf_frame out /\
    sublist (index out) (index f0).
Proof.
  intros Hk Hwf Hrun. destruct (empty f0) eqn:He.
  - apply transform_data_ok_inv in Hrun
      as (wj & wdf & sl & _ & _ & _ & [(_ & -> & ->)|Hne]).
    + exists empty_frame. split.
      { unfold frame_at. rewrite lookup_app_r by lia.
        now replace (S (length h) - length h)%nat with 1%nat by lia. }
      split; [constructor | apply sublist_nil_l].
    + destruct Hne as (k' & f0' & t & f' & [= <-] & Hk' & He' & _).
      rewrite Hk in Hk'. injection Hk' as <-. congruence.
  - destruct (ok_run_parts w l k r h h' f0 Hk He Hrun)
      as (wj & wdf & sl & norm & f' & ks & t & _ & _ & _ & Hn & Hbr & _ & Ht & Hr).
    destruct (keeps_shape_normalize_sales _ _ Hn) as (I1 & _ & W1).
    destruct (keeps_shape_broadcast_weather _ _ _ Hbr) as (I2 & _ & W2).
    pose proof (W2 (W1 Hwf)) as Wf'.
    pose proof (lookup_lt_Some _ _ _ Hk) as Hlt.
    assert (Hout : frame_at h' r = Some (table_value t f')).
    { unfold frame_at. destruct t as [|f]; destruct Hr as [-> ->]; cbn [table_value].
      - now rewrite list_lookup_insert_eq by exact Hlt.
      - rewrite lookup_app_r by (rewrite length_insert; lia).
        now rewrite length_insert, Nat.sub_diag. }
    exists (table_value t f'). split; [exact Hout|].
    rewrite Ht. destruct (Nat.ltb 0 _).
    + cbn [table_value]. split.
      * apply wf_select_unflagged. now apply wf_join_listings.
      * unfold select_unflagged; cbn [index].
        rewrite <- I1, <- I2, <- (nrows_join_listings f' (book_table
                   (match sl with Some l0 => l0 | None => [] end))).
        apply keep_unflagged_sublist.
    + destruct (negb (empty (book_table _))); cbn [table_value].
      * split; [now apply wf_merge_left_index|].
        cbn [merge_left_index index]. now rewrite I2, I1.
      * split; [exact Wf' | now rewrite I2, I1].
Qed.

(** ** Columns of the result *)

Lemma has_column_assign_existing (f : frame) (n name : string) (v c : list cell) :
  getitem f n = Ok c ->
  has_column (setitem f n v) name = has_column f name.
Proof.
  intros Hc. rewrite has_column_setitem.
  destruct (String.eqb name n) eqn:E; [|reflexivity].
  apply String.eqb_eq in E; subst. cbn [orb]. symmetry.
  eapply getitem_has_column; eassumption.
Qed.

(** The normalisation adds the columns sale_month and sale_day_name and no
    other. *)
Lemma has_column_normalize_sales (f norm : frame) (name : string) :
  normalize_sales f = Ok norm ->
  name <> "sale_month" -> name <> "sale_day_name" ->
  has_column norm name = has_column (standardize f) name.
Proof.
  intros Hn N1 N2. unfold normalize_sales in Hn. cbv zeta in Hn.
  apply rbind_ok in Hn as (f2 & S2 & Hn).
  apply rbind_ok in Hn as (f3 & S3 & Hn).
  apply rbind_ok in Hn as (f4 & S4 & S5).
  assert (H2 : has_column f2 name = has_column (standardize f) name).
  { destruct (has_column (standardize f) "sale_amount") eqn:Ea.
    - unfold fill_sale_amount in S2.
      apply rbind_ok in S2 as (c & Hc & S2). apply rbind_ok in S2 as (m & _ & S2).
      injection S2 as <-. eapply has_column_assign_existing; eassumption.
    - now injection S2 as <-. }
  assert (H3 : has_column f3 name = has_column f2 name).
  { unfold coerce_sale_date in S3.
    apply rbind_ok in S3 as (c & Hc & S3). injection S3 as <-.
    eapply has_column_assign_existing; eassumption. }
  assert (H4 : has_column f4 name = has_column f3 name).
  { unfold coerce_product_id in S4.
    apply rbind_ok in S4 as (c & Hc & S4).
    apply rbind_ok in S4 as (ids & Hids & S4). injection S4 as <-.
    eapply has_column_assign_existing; eassumption. }
  rewrite <- H2, <- H3, <- H4.
  destruct (has_column f4 "sale_date"); [|now injection S5 as <-].
  apply rbind_ok in S5 as (g & Q1 & Q2).
  unfold add_sale_month in Q1. apply rbind_ok in Q1 as (c1 & _ & Q1).
  apply rbind_ok in Q1 as (u1 & _ & Q1). injection Q1 as <-.
  unfold add_sale_day_name in Q2. apply rbind_ok in Q2 as (c2 & _ & Q2).
  apply rbind_ok in Q2 as (u2 & _ & Q2). injection Q2 as <-.
  rewrite !has_column_setitem.
  apply String.eqb_neq in N1, N2. now rewrite N1, N2.
Qed.

Lemma has_column_select_unflagged (mask : list bool) (f : frame) (name : string) :
  has_column (select_unflagged mask f) name = has_column f name.
Proof. now rewrite !has_column_matching, matching_select, length_map. Qed.

(** A label that is no book label, with or without suffix, is read from
    the left table of the join. *)
Lemma matching_join_books (f : frame) (l : list listing) (c : string) :
  forallb (fun n => negb (String.eqb c n) && negb (String.eqb c (n ++ "_x"))
                    && negb (String.eqb c (n ++ "_y")))%bool
    ["book_title"; "book_availability"; "book_price_gbp"] = true ->
  matching c (join_listings f (book_table l)) = matching c f.
Proof.
  clear database setup_database to_sql.
  intros H. unfold join_listings. destruct l as [|b r]; [reflexivity|].
  change (negb (empty (book_table (b :: r)))) with true. cbv iota.
  apply matching_merge. intros n Hn.
  rewrite forallb_forall in H. specialize (H n Hn).
  rewrite !andb_true_iff, !negb_true_iff in H. tauto.
Qed.

(** With no weather report (None, or an empty dictionary) a normal run
    leaves the caller's sales table as exactly the normalised table, and
    the returned table has a weather column only where the sales table
    already had a column of that label. *)
Theorem absent_weather_adds_no_column (w l : option loc) (k r : loc)
        (h h' : store) (f0 : frame) (wj : json) :
  load_json w h = (Ok wj, h) -> truthy wj = false ->
  h !! k = Some (OFrame f0) -> empty f0 = false ->
  transform_data w (Some k) l h = (Ok r, h') ->
  exists norm out,
    normalize_sales f0 = Ok norm /\
    h' !! k = Some (OFrame norm) /\
    frame_at h' r = Some out /\
    forall c, In c weather_columns ->
      has_column out c = has_column (standardize f0) c.
Proof.
  clear database setup_database to_sql.
  intros Hw Ht Hk He Hrun.
  destruct (ok_run_parts w l k r h h' f0 Hk He Hrun)
    as (wj' & wdf & sl & norm & f' & ks & t & Hw' & Hwdf & _ & Hn & Hbr & _ & Htab & Hr).
  rewrite Hw in Hw'. injection Hw' as <-.
  unfold weather_frame in Hwdf. rewrite Ht in Hwdf. injection Hwdf as <-.
  cbn in Hbr. injection Hbr as <-.
  pose proof (lookup_lt_Some _ _ _ Hk) as Hlt.
  assert (Hcol : forall c, In c weather_columns ->
            has_column (table_value t norm) c = has_column (standardize f0) c).
  { intros c Hc.
    rewrite <- (has_column_normalize_sales f0 norm c Hn)
      by (intros ->; cbn in Hc; intuition discriminate).
    assert (Hm : matching c (join_listings norm (book_table
                    (match sl with Some l0 => l0 | None => [] end)))
                 = matching c norm).
    { apply matching_join_books.
      cbn in Hc. intuition (subst; reflexivity). }
    rewrite Htab. destruct (Nat.ltb 0 _); cbn [table_value].
    - now rewrite has_column_select_unflagged, !has_column_matching, Hm.
    - destruct (negb (empty (book_table _))) eqn:Eb; cbn [table_value];
        [|reflexivity].
      unfold join_listings in Hm. rewrite Eb in Hm.
      now rewrite !has_column_matching, Hm. }
  exists norm, (table_value t norm). split; [exact Hn|].
  destruct t as [|f]; destruct Hr as [-> ->].
  - split; [now apply list_lookup_insert_eq|].
    split; [|exact Hcol].
    unfold frame_at. now rewrite list_lookup_insert_eq by exact Hlt.
  - split.
    { rewrite lookup_app_l by (rewrite length_insert; exact Hlt).
      now apply list_lookup_insert_eq. }
    split; [|exact Hcol].
    unfold frame_at. rewrite lookup_app_r by (rewrite length_insert; lia).
    now rewrite length_insert, Nat.sub_diag.
Qed.

(** ** Error behaviour *)

(** A non-empty sales table without a sale_date column makes the call
    raise KeyError on line 75.  By then the caller's table has already been
    changed: its labels are standardised and its amounts are filled. *)
Theorem missing_sale_date_raises_after_renaming (w l : option loc) (k : loc)
        (h : store) (wj : json) (weather_df f0 f2 : frame)
        (sl : option (list listing)) :
  load_json w h = (Ok wj, h) -> weather_frame wj = Ok weather_df ->
  load_listings l h = (Ok sl, h) ->
  h !! k = Some (OFrame f0) -> empty f0 = false ->
  has_column (standardize f0) "sale_date" = false ->
  impute_amounts (standardize f0) = Ok f2 ->
  transform_data w (Some k) l h = (Raise KeyError, <[k := OFrame f2]> h).
Proof.
  intros Hw Hwdf Hl Hk He Hno S2.
  rewrite (transform_data_nonempty w l k h wj weather_df f0 sl Hw Hwdf Hl Hk He).
  assert (E1 : empty (standardize f0) = false)
    by (unfold standardize; now rewrite empty_rename_columns).
  unfold impute_amounts in S2.
  assert (E2 : empty f2 = false).
  { destruct (has_column (standardize f0) "sale_amount").
    - now apply (keeps_shape_fill_sale_amount _ _ S2).
    - now injection S2 as <-. }
  assert (H2 : has_column f2 "sale_date" = false).
  { transitivity (has_column (standardize f0) "sale_date"); [|exact Hno].
    destruct (has_column (standardize f0) "sale_amount") eqn:Ea.
    - unfold fill_sale_amount in S2.
      apply rbind_ok in S2 as (c & Hc & S2). apply rbind_ok in S2 as (m & _ & S2).
      injection S2 as <-. eapply has_column_assign_existing; eassumption.
    - now injection S2 as <-. }
  assert (Hb : body weather_df (scraped_frame sl) f0 = (Raise KeyError, f2)).
  { unfold body. cbv zeta.
    rewrite (fbind_run peek _ f0 f0 f0) by reflexivity.
    rewrite He. cbn [negb].
    rewrite (fbind_run _ _ f0 (standardize f0) tt) by reflexivity.
    rewrite (fbind_run peek _ _ (standardize f0) (standardize f0)) by reflexivity.
    rewrite E1. cbn [negb andb].
    rewrite (fbind_run _ _ (standardize f0) f2 tt).
    2:{ destruct (has_column (standardize f0) "sale_amount");
          [now apply assign_run | now injection S2 as <-]. }
    rewrite (fbind_run _ _ f2 f2 (book_table
               (match sl with Some l0 => l0 | None => [] end))).
    2:{ unfold flift. f_equal. apply (listings_table_ok sl). }
    rewrite (fbind_run peek _ f2 f2 f2) by reflexivity.
    rewrite E2. cbn [negb].
    apply fbind_raise. apply fbind_raise. apply assign_raise.
    unfold coerce_sale_date. now rewrite has_column_false_getitem. }
  now rewrite Hb.
Qed.

(** C7 fails on the code.  Line 76 absorbs a product_id that does not
    parse (it becomes NaN, then 0), but not one that parses to an infinity:
    [astype(int)] raises ValueError on it and the whole call is aborted,
    after the caller's table has had its labels standardised, its amounts
    filled and its dates converted. *)
Theorem C7_infinite_product_id_aborts_the_batch (w l : option loc) (k : loc)
        (h : store) (wj : json) (weather_df f0 f2 : frame)
        (sl : option (list listing)) (d p : list cell) :
  load_json w h = (Ok wj, h) -> weather_frame wj = Ok weather_df ->
  load_listings l h = (Ok sl, h) ->
  h !! k = Some (OFrame f0) -> empty f0 = false ->
  impute_amounts (standardize f0) = Ok f2 ->
  getitem f2 "sale_date" = Ok d -> getitem f2 "product_id" = Ok p ->
  existsb infinite_id p = true ->
  transform_data w (Some k) l h
  = (Raise ValueError,
     <[k := OFrame (setitem f2 "sale_date" (map (datetime_cell d) d))]> h).
Proof.
  intros Hw Hwdf Hl Hk He S2 Hd Hp Hinf.
  rewrite (transform_data_nonempty w l k h wj weather_df f0 sl Hw Hwdf Hl Hk He).
  assert (E1 : empty (standardize f0) = false)
    by (unfold standardize; now rewrite empty_rename_columns).
  unfold impute_amounts in S2.
  assert (E2 : empty f2 = false).
  { destruct (has_column (standardize f0) "sale_amount").
    - now apply (keeps_shape_fill_sale_amount _ _ S2).
    - now injection S2 as <-. }
  set (f3 := setitem f2 "sale_date" (map (datetime_cell d) d)).
  assert (S3 : coerce_sale_date f2 = Ok f3)
    by (unfold coerce_sale_date; now rewrite Hd).
  assert (S4 : coerce_product_id f3 = Raise ValueError).
  { unfold coerce_product_id, f3.
    rewrite getitem_setitem_other by discriminate. rewrite Hp. cbn [rbind].
    now rewrite (product_id_column_infinite p Hinf). }
  assert (Hb : body weather_df (scraped_frame sl) f0 = (Raise ValueError, f3)).
  { unfold body. cbv zeta.
    rewrite (fbind_run peek _ f0 f0 f0) by reflexivity.
    rewrite He. cbn [negb].
    rewrite (fbind_run _ _ f0 (standardize f0) tt) by reflexivity.
    rewrite (fbind_run peek _ _ (standardize f0) (standardize f0)) by reflexivity.
    rewrite E1. cbn [negb andb].
    rewrite (fbind_run _ _ (standardize f0) f2 tt).
    2:{ destruct (has_column (standardize f0) "sale_amount");
          [now apply assign_run | now injection S2 as <-]. }
    rewrite (fbind_run _ _ f2 f2 (book_table
               (match sl with Some l0 => l0 | None => [] end))).
    2:{ unfold flift. f_equal. apply (listings_table_ok sl). }
    rewrite (fbind_run peek _ f2 f2 f2) by reflexivity.
    rewrite E2. cbn [negb].
    apply fbind_raise.
    rewrite (fbind_run _ _ f2 f3 tt) by now apply assign_run.
    now apply assign_raise. }
  now rewrite Hb.
Qed.

(** A weather report that is a non-empty dictionary with none of the keys
    name, main, weather, wind and dt (an error payload, say) does not raise:
    every field falls back to a missing value and the weather table is one
    row of missing values. *)
Theorem weather_without_keys_is_a_null_row (d : list (string * json)) :
  d <> [] ->
  assoc "name" d = None -> assoc "main" d = None -> assoc "weather" d = None ->
  assoc "wind" d = None -> assoc "dt" d = None ->
  weather_frame (JDict d) = Ok null_weather_df.
Proof.
  intros Hd H1 H2 H3 H4 H5. unfold weather_frame.
  assert (Ht : truthy (JDict d) = true) by (destruct d; [contradiction | reflexivity]).
  rewrite Ht. unfold build_weather_df, py_get.
  rewrite H1, H2, H3, H4, H5. reflexivity.
Qed.

(** ** Column labels *)

Lemma standard_char_fixed (c : ascii) :
  let g := fun c => if Ascii.eqb (lower_ascii c) " "%char then "_"%char
                    else lower_ascii c in
  g (g c) = g c /\ g c <> " "%char /\ lower_ascii (g c) = g c.
Proof.
  destruct c as [[] [] [] [] [] [] [] []]; vm_compute;
    (split; [reflexivity | split; [discriminate | reflexivity]]).
Qed.

Lemma standard_name_cons (c : ascii) (s : string) :
  standard_name (String c s)
  = String (if Ascii.eqb (lower_ascii c) " "%char then "_"%char else lower_ascii c)
      (standard_name s).
Proof. reflexivity. Qed.

(** Standardising a label (lines 54, 56, 58) is idempotent, and the label
    it yields has no space and no upper-case ASCII letter. *)
Theorem standard_name_idempotent (s : string) :
  standard_name (standard_name s) = standard_name s /\
  Forall (fun c => c <> " "%char /\ lower_ascii c = c)
    (list_ascii_of_string (standard_name s)).
Proof.
  induction s as [|c s [IH1 IH2]]; [split; [reflexivity | constructor]|].
  rewrite !standard_name_cons.
  destruct (standard_char_fixed c) as (A & B & C). cbv zeta in A, B, C.
  split.
  - f_equal; [exact A | exact IH1].
  - cbn [list_ascii_of_string]. constructor; [split; assumption | exact IH2].
Qed.

(** ** Imputation and coercion of single columns *)

Lemma setitem_same_value (f : frame) (name : string) (c : list cell) :
  getitem f name = Ok c -> setitem f name c = f.
Proof.
  intros Hg. unfold setitem. rewrite (getitem_has_column _ _ _ Hg).
  destruct f as [idx cols]. cbn [index columns]. f_equal.
  unfold getitem, matching in Hg. cbn [columns] in Hg.
  assert (Hm : forall nc, In nc cols -> String.eqb name (fst nc) = true ->
                          snd nc = c).
  { intros nc Hin Hn.
    assert (Hi : In (snd nc)
                   (map snd (List.filter (fun nc => String.eqb name (fst nc)) cols))).
    { apply in_map. apply filter_In. auto. }
    destruct (map snd _) as [|c0 [|? ?]]; try discriminate.
    injection Hg as <-. destruct Hi as [Hi|[]]. now symmetry. }
  clear Hg. induction cols as [|[n c'] r IH]; cbn [map]; [reflexivity|].
  f_equal.
  - cbn [fst]. destruct (String.eqb name n) eqn:E; [|reflexivity].
    f_equal. symmetry. apply (Hm (n, c')); [now left | exact E].
  - apply IH. intros nc Hin. apply Hm. now right.
Qed.

Lemma fillna_no_null (v : cell) (col : list cell) :
  Forall (fun c => is_null c = false) col -> fillna v col = col.
Proof.
  unfold fillna. induction 1 as [|c r Hc _ IH]; cbn [map]; [reflexivity|].
  now rewrite Hc, IH.
Qed.

(** After line 64 no amount is missing, provided the batch had at least one
    amount: the filled column has the length of the old one and no missing
    cell, and filling it again changes nothing. *)
Theorem fill_leaves_no_missing_amount (f : frame) (a : list cell) :
  getitem f "sale_amount" = Ok a ->
  forallb numeric_or_null a = true -> valid_values a <> [] ->
  exists f' a',
    fill_sale_amount f = Ok f' /\
    getitem f' "sale_amount" = Ok a' /\
    length a' = length a /\
    Forall (fun c => is_null c = false) a' /\
    fill_sale_amount f' = Ok f'.
Proof.
  intros Hg Hn Hv.
  set (m := Qred (arithmetic_mean (valid_values a))).
  exists (setitem f "sale_amount" (map (impute m) a)), (map (impute m) a).
  assert (Hg' : getitem (setitem f "sale_amount" (map (impute m) a)) "sale_amount"
                = Ok (map (impute m) a))
    by (eapply getitem_setitem_same; eassumption).
  assert (Hnn : Forall (fun c => is_null c = false) (map (impute m) a)).
  { apply List.Forall_forall. intros c Hin.
    apply in_map_iff in Hin as [c0 [<- _]]. unfold impute. now destruct c0. }
  split; [now apply fill_sale_amount_numeric|].
  split; [exact Hg'|]. split; [apply length_map|]. split; [exact Hnn|].
  unfold fill_sale_amount. rewrite Hg'. cbn [rbind].
  assert (Hn' : forallb numeric_or_null (map (impute m) a) = true).
  { rewrite forallb_forall in *. intros c Hin.
    apply in_map_iff in Hin as [c0 [<- Hin0]]. specialize (Hn _ Hin0).
    unfold impute. now destruct c0. }
  destruct (series_mean_numeric_ok _ Hn') as [m' ->]. cbn [rbind].
  f_equal.
  replace (fillna_float m' (map (impute m) a)) with (map (impute m) a)
    by (destruct m'; cbn [fillna_float]; [now rewrite fillna_no_null | reflexivity]).
  now apply setitem_same_value.
Qed.

(** When every amount of the batch is missing the mean is NaN and line 64
    fills nothing: the table stays as it is, its amounts still missing. *)
Theorem fill_with_no_amount_changes_nothing (f : frame) (a : list cell) :
  getitem f "sale_amount" = Ok a ->
  Forall (fun c => is_null c = true) a ->
  fill_sale_amount f = Ok f.
Proof.
  intros Hg Hall. unfold fill_sale_amount. rewrite Hg. cbn [rbind].
  assert (Hn : forallb numeric_or_null a = true).
  { apply forallb_forall. intros c Hin. rewrite List.Forall_forall in Hall.
    specialize (Hall _ Hin). now destruct c. }
  assert (Hv : valid_values a = []).
  { unfold valid_values. clear Hg Hn.
    induction Hall as [|c r Hc _ IH]; [reflexivity|].
    destruct c; try discriminate. exact IH. }
  unfold series_mean. rewrite Hn, Hv. cbn [rbind fillna_float].
  f_equal. now apply setitem_same_value.
Qed.

Lemma Qtruncate_nonneg (q : Q) :
  (0 <= q)%Q -> Qtruncate q = Qfloor q.
Proof.
  destruct q as [n d]. unfold Qle, Qtruncate, Qfloor. cbn [Qnum Qden].
  intros H. apply Z.quot_div_nonneg; lia.
Qed.

Lemma Qtruncate_nonpos (q : Q) :
  (q <= 0)%Q -> Qtruncate q = Qceiling q.
Proof.
  destruct q as [n d]. unfold Qle, Qtruncate, Qceiling, Qfloor, Qopp.
  cbn [Qnum Qden]. intros H.
  replace n with (- - n) at 1 by lia.
  rewrite Z.quot_opp_l by lia. f_equal.
  apply Z.quot_div_nonneg; lia.
Qed.

Lemma Qtruncate_in_int64 (q : Q) :
  (inject_Z int64_min <= q)%Q -> (q <= inject_Z int64_max)%Q ->
  in_int64 (Qtruncate q) = true.
Proof.
  intros Hlo Hhi. apply in_int64_bounds.
  destruct (Qlt_le_dec q 0) as [Hneg|Hpos].
  - rewrite (Qtruncate_nonpos q) by now apply Qlt_le_weak.
    split.
    + rewrite <- (Qceiling_Z int64_min). now apply Qceiling_resp_le.
    + apply Z.le_trans with 0; [|unfold int64_max; lia].
      rewrite <- (Qceiling_Z 0). apply Qceiling_resp_le.
      now apply Qlt_le_weak.
  - rewrite (Qtruncate_nonneg q Hpos). split.
    + apply Z.le_trans with 0; [unfold int64_min; lia|].
      rewrite <- (Qfloor_Z 0). now apply Qfloor_resp_le.
    + rewrite <- (Qfloor_Z int64_max). now apply Qfloor_resp_le.
Qed.

(** Line 76 on numbers.  The column is converted cell by cell, and one
    infinite value makes the whole conversion raise ValueError.  At a cell,
    an integer product_id (one that float64 holds exactly) is kept as it
    is, a missing one becomes 0, a finite fractional one between the int64
    bounds is truncated towards zero, and whatever the cell the result is a
    64-bit integer. *)
Theorem product_id_truncates_towards_zero :
  (forall p ids,
     product_id_column p = Ok ids <->
     Forall2 (fun c id => product_id_cell c = Ok id) p ids) /\
  (forall p,
     existsb infinite_id p = true ->
     product_id_column p = Raise ValueError) /\
  (forall z, - 2 ^ 53 <= z <= 2 ^ 53 ->
     product_id_cell (CInt z) = Ok (CInt z)) /\
  product_id_cell CNull = Ok (CInt 0) /\
  (forall negative, product_id_cell (CInf negative) = Raise ValueError) /\
  (forall q,
     (inject_Z int64_min <= q)%Q -> (q <= inject_Z int64_max)%Q ->
     exists t,
       product_id_cell (CFloat q) = Ok (CInt t) /\
       ((0 <= q)%Q -> (inject_Z t <= q)%Q /\ (q < inject_Z (t + 1))%Q) /\
       ((q <= 0)%Q -> (inject_Z (t - 1) < q)%Q /\ (q <= inject_Z t)%Q)) /\
  (forall c id,
     product_id_cell c = Ok id ->
     exists z, id = CInt z /\ int64_min <= z <= int64_max).
Proof.
  split; [exact product_id_column_ok|].
  split; [exact product_id_column_infinite|].
  split.
  { intros z Hz. apply product_id_cell_integer.
    now apply exact_in_float64_bounds. }
  split; [reflexivity|].
  split; [reflexivity|].
  split.
  - intros q Hlo Hhi. exists (Qtruncate q). split.
    { unfold product_id_cell, product_id_number, to_numeric.
      cbn [rbind cast_int64].
      now rewrite (Qtruncate_in_int64 q Hlo Hhi). }
    split.
    + intros H. rewrite (Qtruncate_nonneg q H).
      split; [apply Qfloor_le | apply Qlt_floor].
    + intros H. rewrite (Qtruncate_nonpos q H).
      split; [apply Qceiling_lt | apply Qle_ceiling].
  - intros c id H. apply product_id_cell_inv in H as (_ & z & -> & Hz & _).
    exists z. split; [reflexivity | now apply in_int64_bounds].
Qed.

(** ** The pipeline *)

Lemma empty_merge_left_index (left right : frame) :
  empty left = false -> empty (merge_left_index left right) = false.
Proof.
  unfold empty, merge_left_index; cbn [index columns]. intros H.
  apply orb_false_iff in H as [Hi Hc]. rewrite Hi. cbn [orb].
  rewrite length_app, !length_map. apply Nat.eqb_neq in Hc.
  apply Nat.eqb_neq. lia.
Qed.

Lemma empty_select_flagged (ks : list key) (f : frame) :
  empty f = false -> (0 < count_flagged (duplicated ks))%nat ->
  empty (select_unflagged (duplicated ks) f) = false.
Proof.
  unfold empty, select_unflagged; cbn [index columns]. intros H Hc.
  apply orb_false_iff in H as [Hi Hcol]. rewrite length_map, Hcol, orb_false_r.
  destruct ks as [|k0 r]; [cbn in Hc; lia|].
  destruct (index f) as [|i0 idx]; [discriminate|]. reflexivity.
Qed.

(** With no sales rows nothing is loaded: when the weather report converts,
    the pipeline sets the database up, never calls [to_sql], and logs that
    it finished. *)
Theorem pipeline_without_sales_loads_nothing
        (w s l : option loc) (h : store) (d : database) (wj : json)
        (weather_df : frame) (sl : option (list listing)) :
  sales_absent_or_empty h s ->
  load_json w h = (Ok wj, h) -> load_listings l h = (Ok sl, h) ->
  weather_frame wj = Ok weather_df ->
  run_pipeline w s l h d
  = (Some FinishedSuccessfully,
     h ++ [OFrame empty_frame; OFrame empty_frame],
     setup_database d).
Proof.
  intros Hs Hw Hl Hwdf. unfold run_pipeline.
  rewrite (transform_data_no_sales w s l h wj sl Hs Hw Hl), Hwdf.
  unfold frame_at. rewrite lookup_app_r by lia.
  replace (S (length h) - length h)%nat with 1%nat by lia.
  reflexivity.
Qed.

(** With sales rows the table the transform returns is never empty, so it
    is always handed to [to_sql], after the set-up; the pipeline logs that
    it finished exactly when [to_sql] returned, and the database is the one
    [to_sql] leaves. *)
Theorem pipeline_with_sales_always_loads
        (w l : option loc) (k r : loc) (h h' : store) (d : database)
        (f0 : frame) :
  h !! k = Some (OFrame f0) -> empty f0 = false ->
  transform_data w (Some k) l h = (Ok r, h') ->
  exists unified_df,
    frame_at h' r = Some unified_df /\ empty unified_df = false /\
    run_pipeline w (Some k) l h d
    = (Some (if fst (to_sql unified_df (setup_database d))
             then FinishedSuccessfully else UnexpectedError),
       h', snd (to_sql unified_df (setup_database d))).
Proof.
  intros Hk He Hrun.
  destruct (ok_run_parts w l k r h h' f0 Hk He Hrun)
    as (wj & wdf & sl & norm & f' & ks & t & _ & _ & _ & Hn & Hbr & _ & Ht & Hr).
  destruct (keeps_shape_normalize_sales _ _ Hn) as (_ & E1 & _).
  destruct (keeps_shape_broadcast_weather _ _ _ Hbr) as (_ & E2 & _).
  pose proof (E2 (E1 He)) as Ef'.
  pose proof (lookup_lt_Some _ _ _ Hk) as Hlt.
  assert (Hout : frame_at h' r = Some (table_value t f')).
  { unfold frame_at. destruct t as [|f]; destruct Hr as [-> ->]; cbn [table_value].
    - now rewrite list_lookup_insert_eq by exact Hlt.
    - rewrite lookup_app_r by (rewrite length_insert; lia).
      now rewrite length_insert, Nat.sub_diag. }
  assert (Hne : empty (table_value t f') = false).
  { rewrite Ht. destruct (Nat.ltb 0 _) eqn:Ec; cbn [table_value].
    - apply Nat.ltb_lt in Ec. apply empty_select_flagged; [|exact Ec].
      unfold join_listings. destruct (negb (empty (book_table _)));
        [now apply empty_merge_left_index | exact Ef'].
    - destruct (negb (empty (book_table _))); cbn [table_value];
        [now apply empty_merge_left_index | exact Ef']. }
  exists (table_value t f'). split; [exact Hout|]. split; [exact Hne|].
  unfold run_pipeline. rewrite Hrun, Hout.
  unfold load_data_to_db. rewrite Hne.
  destruct (to_sql (table_value t f') (setup_database d)) as [[|] d'];
    reflexivity.
Qed.

End Pandas.

(** * The theorems at concrete inputs *)

(** C1 at a call on [csv_sales] with the weather report of Scenario C. *)
Lemma C1_witness :
  exists out h',
    transform_data parse_decimal iso_to_datetime civil_month civil_day_name
      (Some 1%nat) (Some 0%nat) None [OFrame csv_sales; OJson scenario_c_weather]
    = (out, h') /\
    (forall k o,
       [OFrame csv_sales; OJson scenario_c_weather] !! k = Some o ->
       (Some k <> Some 0%nat \/ exists f, o = OFrame f /\ empty f = true) ->
       h' !! k = Some o) /\
    (forall k f0 r,
       Some 0%nat = Some k ->
       [OFrame csv_sales; OJson scenario_c_weather] !! k = Some (OFrame f0) ->
       empty f0 = false -> out = Ok r ->
       exists wj weather_df norm f',
         load_json (Some 1%nat) [OFrame csv_sales; OJson scenario_c_weather]
         = (Ok wj, [OFrame csv_sales; OJson scenario_c_weather]) /\
         weather_frame wj = Ok weather_df /\
         normalize_sales parse_decimal iso_to_datetime civil_month civil_day_name f0
         = Ok norm /\
         broadcast_weather
           (if negb (empty weather_df) then standardize weather_df else weather_df)
           norm = Ok f' /\
         h' !! k = Some (OFrame f')).
Proof.
  eexists _, _. split; [vm_compute; reflexivity|].
  apply (C1_inputs_other_than_nonempty_sales_unchanged
           parse_decimal iso_to_datetime civil_month civil_day_name
           (Some 1%nat) (Some 0%nat) None
           [OFrame csv_sales; OJson scenario_c_weather]).
  vm_compute. reflexivity.
Defined.

(** C1 as stated fails: the caller's sales table is not what it was. *)
Lemma C1_counterexample :
  transform_data parse_decimal iso_to_datetime civil_month civil_day_name
    None (Some 0%nat) None [OFrame csv_sales]
  = (Ok 0%nat, [OFrame csv_sales_after]) /\
  names csv_sales_after <> names csv_sales /\
  getitem csv_sales_after "sale_amount" <> getitem (standardize csv_sales) "sale_amount" /\
  getitem csv_sales_after "sale_date" <> getitem (standardize csv_sales) "sale_date".
Proof.
  split; [vm_compute; reflexivity|].
  split; [|split]; vm_compute; discriminate.
Qed.

(** C2 with no sales table and the weather report of Scenario C. *)
Lemma C2_witness :
  sales_absent_or_empty [OJson scenario_c_weather] None /\
  (exists r h',
     transform_data parse_decimal iso_to_datetime civil_month civil_day_name
       (Some 0%nat) None None [OJson scenario_c_weather] = (Ok r, h') /\
     frame_at h' r = Some empty_frame).
Proof.
  split; [left; reflexivity|].
  apply (proj1 (C2_empty_sales_gives_empty_table_after_weather
                  parse_decimal iso_to_datetime civil_month civil_day_name
                  (Some 0%nat) None None [OJson scenario_c_weather]
                  scenario_c_weather None
                  (or_introl eq_refl) eq_refl eq_refl)
           scenario_c_weather_df).
  reflexivity.
Defined.

(** C2 as stated fails: with no sales table at all, a weather report whose
    list of conditions is empty makes the call raise IndexError on line 34
    instead of returning an empty table. *)
Lemma C2_counterexample :
  sales_absent_or_empty [OJson weather_without_conditions] None /\
  transform_data parse_decimal iso_to_datetime civil_month civil_day_name
    (Some 0%nat) None None [OJson weather_without_conditions]
  = (Raise IndexError, [OJson weather_without_conditions]).
Proof. split; [left; reflexivity | vm_compute; reflexivity]. Qed.

(** C3 on three rows, the second a duplicate of the first. *)
Lemma C3_witness :
  wf_frame three_sales /\ subset_keys three_sales = Ok three_sales_keys /\
  exists out kept,
    remove_duplicates three_sales = Ok out /\
    (forall a b i j, kept !! a = Some i -> kept !! b = Some j ->
                     (a < b)%nat -> (i < j)%nat) /\
    (forall i, In i kept <->
       exists k, three_sales_keys !! i = Some k /\
         forall j k', (j < i)%nat -> three_sales_keys !! j = Some k' ->
                      key_eqb k k' = false) /\
    (forall i k, three_sales_keys !! i = Some k ->
       exists j k', (j <= i)%nat /\ In j kept /\
                    three_sales_keys !! j = Some k' /\ key_eqb k k' = true) /\
    Forall2 (fun lab i => index three_sales !! i = Some lab) (index out) kept /\
    Forall2 (fun nc' nc =>
               fst nc' = fst nc /\
               Forall2 (fun c i => snd nc !! i = Some c) (snd nc') kept)
      (columns out) (columns three_sales).
Proof.
  assert (Hwf : wf_frame three_sales) by (repeat constructor).
  split; [exact Hwf|]. split; [reflexivity|].
  exact (C3_dedup_keeps_first_of_each_group three_sales three_sales_keys
           Hwf eq_refl).
Defined.

Example dedup_three_sales :
  remove_duplicates three_sales
  = Ok (Frame [0; 2]
          [("product_id", [CInt 1; CInt 2]);
           ("sale_date", [CTime 1672531200000000000; CTime 1672531200000000000]);
           ("sale_amount", [CFloat 10; CFloat 10])]).
Proof. vm_compute. reflexivity. Qed.

(** C4 on three sales rows under the default index and two listings. *)
Lemma C4_witness :
  index three_sales = range_index 3 /\
  nrows (join_listings three_sales (book_table parse_decimal two_books)) = 3%nat /\
  (two_books <> [] ->
   exists tcol acol pcol,
     columns (join_listings three_sales (book_table parse_decimal two_books))
     = map (fun nc => (with_suffix (names (book_table parse_decimal two_books))
                         "_x" (fst nc), snd nc))
           (columns three_sales)
       ++ [(with_suffix (names three_sales) "_y" "book_title", tcol);
           (with_suffix (names three_sales) "_y" "book_availability", acol);
           (with_suffix (names three_sales) "_y" "book_price_gbp", pcol)] /\
     forall i, (i < 3)%nat ->
       tcol !! i = Some (match two_books !! i with
                         | Some b => CStr (title b) | None => CNull end) /\
       acol !! i = Some (match two_books !! i with
                         | Some b => CStr (availability b) | None => CNull end) /\
       pcol !! i = Some (match two_books !! i with
                         | Some b => price_cell parse_decimal b
                         | None => CNull end)).
Proof.
  split; [reflexivity|].
  pose proof (C4_left_join_by_position_on_default_index
                parse_decimal three_sales two_books 3 eq_refl) as H.
  split; [exact (proj1 H) | exact (proj2 (proj2 H))].
Defined.

Example join_three_sales_two_books :
  join_listings three_sales (book_table parse_decimal two_books)
  = Frame [0; 1; 2]
      [("product_id", [CInt 1; CInt 1; CInt 2]);
       ("sale_date", [CTime 1672531200000000000; CTime 1672531200000000000;
                      CTime 1672531200000000000]);
       ("sale_amount", [CFloat 10; CFloat 10; CFloat 10]);
       ("book_title", [CStr "A"; CStr "B"; CNull]);
       ("book_availability", [CStr "In stock"; CStr "In stock"; CNull]);
       ("book_price_gbp", [CFloat 51.77; CFloat 0; CNull])].
Proof. vm_compute. reflexivity. Qed.

(** C4 as stated fails: on a non-empty sales table whose rows are labelled
    1 and 0, row 0 receives the second listing and row 1 the first. *)
Lemma C4_counterexample :
  empty relabelled_sales = false /\
  two_books !! 0%nat = Some (Listing "A" "£51.77" "In stock") /\
  join_listings relabelled_sales (book_table parse_decimal two_books)
  = Frame [1; 0]
      [("product_id", [CInt 7; CInt 8]);
       ("sale_date", [CTime 0; CTime 0]);
       ("sale_amount", [CFloat 1; CFloat 2]);
       ("book_title", [CStr "B"; CStr "A"]);
       ("book_availability", [CStr "In stock"; CStr "In stock"]);
       ("book_price_gbp", [CFloat 0; CFloat 51.77])] /\
  ~ (forall i b col,
       two_books !! i = Some b ->
       getitem (join_listings relabelled_sales (book_table parse_decimal two_books))
         "book_title" = Ok col ->
       col !! i = Some (CStr (title b))).
Proof.
  split; [reflexivity|]. split; [reflexivity|].
  split; [vm_compute; reflexivity|].
  intros H.
  specialize (H 0%nat (Listing "A" "£51.77" "In stock") [CStr "B"; CStr "A"]
                eq_refl eq_refl).
  discriminate H.
Qed.

(** C5 on the weather table of Scenario C and three sales rows. *)
Lemma C5_witness :
  names scenario_c_weather_df = weather_columns /\
  wf_frame scenario_c_weather_df /\
  exists out, broadcast_weather scenario_c_weather_df three_sales = Ok out /\
    nrows out = nrows three_sales /\
    (nrows scenario_c_weather_df <> 0%nat ->
     forall name col v, In (name, col) (columns scenario_c_weather_df) ->
       col !! 0%nat = Some v ->
       column_is out name (replicate (nrows three_sales) v)) /\
    (nrows scenario_c_weather_df = 0%nat -> out = three_sales).
Proof.
  assert (Hwf : wf_frame scenario_c_weather_df) by (repeat constructor).
  split; [reflexivity|]. split; [exact Hwf|].
  exact (C5_broadcast_first_weather_row scenario_c_weather_df three_sales
           eq_refl Hwf).
Defined.

(** Scenario C: three sales rows, every one carrying London and 5.0. *)
Example scenario_c :
  weather_frame scenario_c_weather = Ok scenario_c_weather_df /\
  exists out,
    broadcast_weather scenario_c_weather_df three_sales = Ok out /\
    getitem out "city" = Ok [CStr "London"; CStr "London"; CStr "London"] /\
    getitem out "temperature_celsius" = Ok [CFloat 5; CFloat 5; CFloat 5].
Proof.
  split; [vm_compute; reflexivity|].
  eexists. split; [vm_compute; reflexivity|].
  split; vm_compute; reflexivity.
Qed.

(** C6 on the amounts of Scenario A. *)
Lemma C6_witness :
  getitem scenario_a_sales "sale_amount" = Ok [CNull; CFloat 10] /\
  exists m f',
    (m == arithmetic_mean (valid_values [CNull; CFloat 10]))%Q /\
    fill_sale_amount scenario_a_sales = Ok f' /\
    getitem f' "sale_amount" = Ok (map (impute m) [CNull; CFloat 10]).
Proof.
  split; [reflexivity|].
  apply (proj1 (C6_missing_amounts_take_the_batch_mean
                  parse_decimal iso_to_datetime civil_month civil_day_name)
           scenario_a_sales [CNull; CFloat 10]).
  - reflexivity.
  - reflexivity.
  - discriminate.
Defined.

(** Scenario A with the ISO date reader: one row, dated 2023-01-01, a
    Sunday of January, amount 10. *)
Example scenario_a :
  transform_data parse_decimal iso_to_datetime civil_month civil_day_name
    None (Some 0%nat) (Some 1%nat) [OFrame scenario_a_sales; OList []]
  = (Ok 2%nat,
     [OFrame (Frame [0; 1]
                [("product_id", [CInt 1; CInt 1]);
                 ("sale_date", [CTime 1672531200000000000;
                                CTime 1672531200000000000]);
                 ("sale_amount", [CFloat 10; CFloat 10]);
                 ("sale_month", [CInt 1; CInt 1]);
                 ("sale_day_name", [CStr "Sunday"; CStr "Sunday"])]);
      OList [];
      OFrame (Frame [0]
                [("product_id", [CInt 1]);
                 ("sale_date", [CTime 1672531200000000000]);
                 ("sale_amount", [CFloat 10]);
                 ("sale_month", [CInt 1]);
                 ("sale_day_name", [CStr "Sunday"])])]).
Proof. vm_compute. reflexivity. Qed.

(** C7 on a sales file whose second product_id is an infinity: the call
    raises ValueError, whatever the parsers. *)
Lemma C7_witness :
  existsb (infinite_id parse_decimal) [CFloat 7; CInf false] = true /\
  transform_data parse_decimal iso_to_datetime civil_month civil_day_name
    None (Some 0%nat) None [OFrame infinite_id_sales]
  = (Raise ValueError,
     <[0%nat := OFrame (setitem infinite_id_sales "sale_date"
                          (map (datetime_cell iso_to_datetime
                                  [CStr "2023-01-01"; CStr "2023-01-02"])
                               [CStr "2023-01-01"; CStr "2023-01-02"]))]>
       [OFrame infinite_id_sales]).
Proof.
  split; [reflexivity|].
  apply (C7_infinite_product_id_aborts_the_batch
           parse_decimal iso_to_datetime civil_month civil_day_name
           None None 0%nat [OFrame infinite_id_sales] JNull empty_weather_df
           infinite_id_sales infinite_id_sales None
           [CStr "2023-01-01"; CStr "2023-01-02"] [CFloat 7; CInf false]);
    reflexivity.
Defined.

(** The same with the text inf in a column of product codes: the code that
    is not a number becomes 0, the text inf aborts the call. *)
Example text_inf_product_id_raises :
  transform_data parse_decimal iso_to_datetime civil_month civil_day_name
    None (Some 0%nat) None [OFrame text_id_sales]
  = (Raise ValueError,
     [OFrame (Frame [0; 1]
                [("product_id", [CStr "A-17"; CStr "inf"]);
                 ("sale_date", [CTime 1672531200000000000;
                                CTime 1672617600000000000]);
                 ("sale_amount", [CFloat 10; CFloat 12])])]).
Proof. vm_compute. reflexivity. Qed.

(** C8 on a sale whose product_id is -5. *)
Lemma C8_witness :
  empty negative_id_sales = false /\
  (forallb (castable parse_decimal) [CInt (-5)] = true ->
   exists f',
     correct_sales_types parse_decimal iso_to_datetime negative_id_sales
     = Ok f') /\
  (forall f',
     correct_sales_types parse_decimal iso_to_datetime negative_id_sales
     = Ok f' ->
     exists col,
       getitem f' "product_id" = Ok col /\
       length col = 1%nat /\
       (forall i c, [CInt (-5)] !! i = Some c ->
          exists z, col !! i = Some (CInt z) /\
            int64_min <= z <= int64_max /\
            (to_numeric parse_decimal c = None -> z = 0) /\
            (forall q, to_numeric parse_decimal c = Some (Finite q) ->
                       z = Qtruncate q)) /\
       (forall i z, [CInt (-5)] !! i = Some (CInt z) ->
                    col !! i = Some (CInt z))).
Proof.
  split; [reflexivity|].
  apply (C8_product_id_is_an_integer parse_decimal iso_to_datetime
           negative_id_sales [CStr "2023-01-01"] [CInt (-5)]).
  - reflexivity.
  - reflexivity.
  - reflexivity.
Defined.

(** C8 as stated fails: a negative product_id stays negative. *)
Lemma C8_counterexample :
  exists f',
    correct_sales_types parse_decimal iso_to_datetime negative_id_sales = Ok f' /\
    getitem f' "product_id" = Ok [CInt (-5)] /\ (-5 < 0)%Z.
Proof.
  eexists. split; [vm_compute; reflexivity|].
  split; [vm_compute; reflexivity | reflexivity].
Qed.

(** C9 on the run of Scenario A. *)
Lemma C9_witness :
  exists r h',
    transform_data parse_decimal iso_to_datetime civil_month civil_day_name
      None (Some 0%nat) (Some 1%nat) [OFrame scenario_a_sales; OList []]
    = (Ok r, h') /\
    exists out,
      frame_at h' r = Some out /\
      (forall ks, subset_keys out = Ok ks -> pairwise_distinct ks) /\
      (~ sales_absent_or_empty [OFrame scenario_a_sales; OList []] (Some 0%nat) ->
       exists ks, subset_keys out = Ok ks) /\
      (nrows out <= sales_rows [OFrame scenario_a_sales; OList []] (Some 0%nat))%nat /\
      (forall k f0 norm ks,
         Some 0%nat = Some k ->
         [OFrame scenario_a_sales; OList []] !! k = Some (OFrame f0) ->
         normalize_sales parse_decimal iso_to_datetime civil_month civil_day_name f0
         = Ok norm ->
         subset_keys norm = Ok ks -> pairwise_distinct ks ->
         nrows out = nrows f0).
Proof.
  eexists _, _. split; [vm_compute; reflexivity|].
  apply (C9_output_keys_pairwise_distinct
           parse_decimal iso_to_datetime civil_month civil_day_name
           None (Some 0%nat) (Some 1%nat) [OFrame scenario_a_sales; OList []]).
  - intros k f0 Hk Hf. injection Hk as <-. injection Hf as <-.
    repeat constructor.
  - vm_compute. reflexivity.
Defined.

(** C9 as stated fails: the two rows of Scenario A have different keys
    when the caller passes them (one amount is missing), and one row of the
    two is returned, because the missing amount is filled with the mean
    before the keys are compared. *)
Lemma C9_counterexample :
  subset_keys scenario_a_sales = Ok scenario_a_keys /\
  pairwise_distinct scenario_a_keys /\
  transform_data parse_decimal iso_to_datetime civil_month civil_day_name
    None (Some 0%nat) (Some 1%nat) [OFrame scenario_a_sales; OList []]
  = (Ok 2%nat,
     [OFrame (Frame [0; 1]
                [("product_id", [CInt 1; CInt 1]);
                 ("sale_date", [CTime 1672531200000000000;
                                CTime 1672531200000000000]);
                 ("sale_amount", [CFloat 10; CFloat 10]);
                 ("sale_month", [CInt 1; CInt 1]);
                 ("sale_day_name", [CStr "Sunday"; CStr "Sunday"])]);
      OList [];
      OFrame (Frame [0]
                [("product_id", [CInt 1]);
                 ("sale_date", [CTime 1672531200000000000]);
                 ("sale_amount", [CFloat 10]);
                 ("sale_month", [CInt 1]);
                 ("sale_day_name", [CStr "Sunday"])])]) /\
  (1 < nrows scenario_a_sales)%nat.
Proof.
  split; [reflexivity|]. split.
  - unfold pairwise_distinct. apply distinct_keys_lookup. reflexivity.
  - split; [vm_compute; reflexivity | vm_compute; lia].
Qed.

(** C10 on the default indexes of three sales rows and two listings. *)
Lemma C10_witness :
  index three_sales = range_index 3 /\
  index (book_table parse_decimal two_books) = range_index 2 /\
  wf_frame (book_table parse_decimal two_books) /\
  merge_left_index three_sales (book_table parse_decimal two_books)
  = positional_join three_sales (book_table parse_decimal two_books).
Proof.
  assert (Hwf : wf_frame (book_table parse_decimal two_books))
    by (repeat constructor).
  split; [reflexivity|]. split; [reflexivity|]. split; [exact Hwf|].
  exact (proj1 C10_join_follows_index_labels three_sales
           (book_table parse_decimal two_books) 3%nat 2%nat eq_refl eq_refl Hwf).
Defined.

(** On relabelled rows the join by label and the join by position differ. *)
Example join_by_label_is_not_by_position :
  merge_left_index relabelled_sales (book_table parse_decimal two_books)
  <> positional_join relabelled_sales (book_table parse_decimal two_books).
Proof. vm_compute. discriminate. Qed.

(** ** Further properties at concrete inputs *)

Lemma remove_duplicates_idempotent_witness :
  wf_frame three_sales /\
  remove_duplicates three_sales = Ok three_sales_cleaned /\
  remove_duplicates three_sales_cleaned = Ok three_sales_cleaned.
Proof.
  assert (Hwf : wf_frame three_sales) by (repeat constructor).
  split; [exact Hwf|]. split; [reflexivity|].
  exact (remove_duplicates_idempotent three_sales three_sales_cleaned
           Hwf eq_refl).
Defined.



Lemma normal_return_needs_key_columns_witness :
  transform_data parse_decimal iso_to_datetime civil_month civil_day_name
    None (Some 0%nat) None [OFrame csv_sales]
  = (Ok 0%nat, [OFrame csv_sales_after]) /\
  has_column (standardize csv_sales) "product_id" = true /\
  has_column (standardize csv_sales) "sale_date" = true /\
  has_column (standardize csv_sales) "sale_amount" = true.
Proof.
  assert (Hrun : transform_data parse_decimal iso_to_datetime civil_month
                   civil_day_name None (Some 0%nat) None [OFrame csv_sales]
                 = (Ok 0%nat, [OFrame csv_sales_after]))
    by (vm_compute; reflexivity).
  split; [exact Hrun|].
  exact (normal_return_needs_key_columns
           parse_decimal iso_to_datetime civil_month civil_day_name
           None None 0%nat 0%nat [OFrame csv_sales] [OFrame csv_sales_after]
           csv_sales eq_refl eq_refl Hrun).
Defined.

Lemma result_is_the_sales_object_iff_witness :
  exists norm ks,
    normalize_sales parse_decimal iso_to_datetime civil_month civil_day_name
      csv_sales = Ok norm /\
    subset_keys norm = Ok ks /\
    (0%nat = 0%nat <-> True /\ distinct_keys ks = true).
Proof.
  assert (Hrun : transform_data parse_decimal iso_to_datetime civil_month
                   civil_day_name None (Some 0%nat) None [OFrame csv_sales]
                 = (Ok 0%nat, [OFrame csv_sales_after]))
    by (vm_compute; reflexivity).
  destruct (result_is_the_sales_object_iff
              parse_decimal iso_to_datetime civil_month civil_day_name
              None None 0%nat 0%nat [OFrame csv_sales] [OFrame csv_sales_after]
              csv_sales None eq_refl eq_refl eq_refl Hrun)
    as (norm & ks & Hn & Hks & Hiff & _).
  exists norm, ks. split; [exact Hn|]. split; [exact Hks | exact Hiff].
Defined.

Lemma returned_rows_come_from_sales_witness :
  wf_frame csv_sales /\
  exists out,
    frame_at [OFrame csv_sales_after] 0%nat = Some out /\
    wf_frame out /\ sublist (index out) (index csv_sales).
Proof.
  assert (Hwf : wf_frame csv_sales) by (repeat constructor).
  split; [exact Hwf|].
  apply (returned_rows_come_from_sales
           parse_decimal iso_to_datetime civil_month civil_day_name
           None None 0%nat 0%nat [OFrame csv_sales] [OFrame csv_sales_after]
           csv_sales eq_refl Hwf).
  vm_compute. reflexivity.
Defined.

Lemma absent_weather_adds_no_column_witness :
  truthy JNull = false /\
  exists norm out,
    normalize_sales parse_decimal iso_to_datetime civil_month civil_day_name
      csv_sales = Ok norm /\
    [OFrame csv_sales_after] !! 0%nat = Some (OFrame norm) /\
    frame_at [OFrame csv_sales_after] 0%nat = Some out /\
    forall c, In c weather_columns ->
      has_column out c = has_column (standardize csv_sales) c.
Proof.
  split; [reflexivity|].
  apply (absent_weather_adds_no_column
           parse_decimal iso_to_datetime civil_month civil_day_name
           None None 0%nat 0%nat [OFrame csv_sales] [OFrame csv_sales_after]
           csv_sales JNull eq_refl eq_refl eq_refl eq_refl).
  vm_compute. reflexivity.
Defined.

Lemma missing_sale_date_raises_after_renaming_witness :
  has_column (standardize sales_without_date) "sale_date" = false /\
  transform_data parse_decimal iso_to_datetime civil_month civil_day_name
    None (Some 0%nat) None [OFrame sales_without_date]
  = (Raise KeyError, [OFrame sales_without_date_after]).
Proof.
  split; [reflexivity|].
  apply (missing_sale_date_raises_after_renaming
           parse_decimal iso_to_datetime civil_month civil_day_name
           None None 0%nat [OFrame sales_without_date] JNull empty_weather_df
           sales_without_date sales_without_date_after None);
    vm_compute; reflexivity.
Defined.

Lemma weather_without_keys_is_a_null_row_witness :
  weather_frame (JDict weather_error_body) = Ok null_weather_df.
Proof.
  apply (weather_without_keys_is_a_null_row weather_error_body);
    [discriminate | reflexivity..].
Defined.

Lemma fill_leaves_no_missing_amount_witness :
  exists f' a',
    fill_sale_amount scenario_a_sales = Ok f' /\
    getitem f' "sale_amount" = Ok a' /\
    length a' = 2%nat /\
    Forall (fun c => is_null c = false) a' /\
    fill_sale_amount f' = Ok f'.
Proof.
  apply (fill_leaves_no_missing_amount scenario_a_sales [CNull; CFloat 10]);
    [reflexivity | reflexivity | discriminate].
Defined.

Lemma fill_with_no_amount_changes_nothing_witness :
  fill_sale_amount unpriced_sales = Ok unpriced_sales.
Proof.
  apply (fill_with_no_amount_changes_nothing unpriced_sales [CNull; CNull]);
    [reflexivity | repeat constructor].
Defined.

Lemma pipeline_without_sales_loads_nothing_witness :
  run_pipeline parse_decimal iso_to_datetime civil_month civil_day_name
    appended_tables (fun d => d) append_table
    (Some 0%nat) None None [OJson scenario_c_weather] []
  = (Some FinishedSuccessfully,
     [OJson scenario_c_weather] ++ [OFrame empty_frame; OFrame empty_frame],
     []).
Proof.
  apply (pipeline_without_sales_loads_nothing
           parse_decimal iso_to_datetime civil_month civil_day_name
           appended_tables (fun d => d) append_table
           (Some 0%nat) None None [OJson scenario_c_weather] []
           scenario_c_weather scenario_c_weather_df None);
    [left; reflexivity | reflexivity..].
Defined.

Lemma pipeline_with_sales_always_loads_witness :
  exists unified_df,
    frame_at [OFrame csv_sales_after] 0%nat = Some unified_df /\
    empty unified_df = false /\
    run_pipeline parse_decimal iso_to_datetime civil_month civil_day_name
      appended_tables (fun d => d) append_table
      None (Some 0%nat) None [OFrame csv_sales] []
    = (Some (if fst (append_table unified_df [])
             then FinishedSuccessfully else UnexpectedError),
       [OFrame csv_sales_after], snd (append_table unified_df [])).
Proof.
  apply (pipeline_with_sales_always_loads
           parse_decimal iso_to_datetime civil_month civil_day_name
           appended_tables (fun d => d) append_table
           None None 0%nat 0%nat [OFrame csv_sales] [OFrame csv_sales_after]
           [] csv_sales eq_refl eq_refl).
  vm_compute. reflexivity.
Defined.
